(** * Myrient-Downloader-GUI: the acquisition pipeline, embedded and verified

    A shallow embedding of the worker threads of [lib/threads.py] and
    [lib/runners.py] and of the queue and dispatcher methods of
    [myrientDownloaderGUI.py].  Python integers are [Z] (sizes, counters) or
    [nat] (loop indices), byte strings are [list byte], text is [string],
    the file system is a finite map from resolved POSIX paths to file
    contents, and Qt signals are recorded as the ordered list of values that
    a thread emits. *)

From Stdlib Require Import ZArith Lia Init.Byte Ascii String List QArith Lqa.
From stdpp Require Import base tactics option list strings pretty gmap.

Local Open Scope string_scope.
Local Open Scope list_scope.
Local Open Scope Z_scope.

(** ** Python built-ins used by the program *)

Module Py.

(** [str(i)] for a non-negative integer. *)
Definition str (i : nat) : string := pretty i.

(** [s.zfill(width)] for a string without a sign prefix. *)
Definition zfill (width : nat) (s : string) : string :=
  String.concat "" (replicate (width - String.length s)%nat "0") +:+ s.

(** [s.startswith(prefix)]. *)
Fixpoint startswith (s prefix : string) {struct prefix} : bool :=
  match prefix, s with
  | EmptyString, _ => true
  | String a prefix', String b s' => Ascii.eqb a b && startswith s' prefix'
  | String _ _, EmptyString => false
  end.

(** [s.endswith(suffix)]. *)
Definition endswith (s suffix : string) : bool :=
  bool_decide (String.length suffix <= String.length s)%nat &&
  String.eqb
    (substring (String.length s - String.length suffix)
       (String.length suffix) s)
    suffix.

Definition lower_ascii (c : ascii) : ascii :=
  let n := nat_of_ascii c in
  if bool_decide (65 <= n)%nat && bool_decide (n <= 90)%nat
  then ascii_of_nat (n + 32) else c.

(** [s.lower()] on ASCII text. *)
Fixpoint lower (s : string) : string :=
  match s with
  | EmptyString => EmptyString
  | String c s' => String (lower_ascii c) (lower s')
  end.

(** [c in s]. *)
Fixpoint contains (c : ascii) (s : string) : bool :=
  match s with
  | EmptyString => false
  | String a s' => Ascii.eqb a c || contains c s'
  end.

(** [s.rfind(c)] as a split: the text before and after the last [c]. *)
Fixpoint rsplit (c : ascii) (s : string) : option (string * string) :=
  match s with
  | EmptyString => None
  | String a s' =>
      match rsplit c s' with
      | Some (l, r) => Some (String a l, r)
      | None => if Ascii.eqb a c then Some (EmptyString, s') else None
      end
  end.

(** [s.split(c)]. *)
Fixpoint split (c : ascii) (s : string) : list string :=
  match s with
  | EmptyString => [EmptyString]
  | String a s' =>
      if Ascii.eqb a c then EmptyString :: split c s'
      else match split c s' with
           | w :: ws => String a w :: ws
           | [] => [String a EmptyString]
           end
  end.

(** Every character of [s] is [c]. *)
Fixpoint all_char (c : ascii) (s : string) : bool :=
  match s with
  | EmptyString => true
  | String a s' => Ascii.eqb a c && all_char c s'
  end.

(** [os.path.basename(p)] (posixpath). *)
Definition basename (p : string) : string :=
  match rsplit "/" p with
  | Some (_, r) => r
  | None => p
  end.

(** The directory prefix of [p], up to and including the last slash. *)
Definition dirprefix (p : string) : string :=
  match rsplit "/" p with
  | Some (l, _) => l +:+ "/"
  | None => ""
  end.

(** [os.path.splitext(p)] (posixpath): the extension starts at the last dot
    of the final component, unless only dots precede it there. *)
Definition splitext (p : string) : string * string :=
  let name := basename p in
  match rsplit "." name with
  | Some (l, r) =>
      if all_char "." l then (p, "")
      else (dirprefix p +:+ l, "." +:+ r)
  | None => (p, "")
  end.

(** [os.path.join(a, b)] (posixpath). *)
Definition join (a b : string) : string :=
  if startswith b "/" then b
  else if String.eqb a "" || endswith a "/" then a +:+ b
  else a +:+ "/" +:+ b.

(** The components that [pathlib.PurePosixPath(p)] keeps: empty and ["."]
    components are dropped. *)
Definition pure_parts (p : string) : list string :=
  filter (fun c => c <> "" /\ c <> ".") (split "/" p).

(** [Path(p).name]. *)
Definition path_name (p : string) : string := List.last (pure_parts p) "".

(** [Path(p).stem]: the name up to its last dot, when that dot is neither
    the first nor the last character. *)
Definition path_stem (p : string) : string :=
  let name := path_name p in
  match rsplit "." name with
  | Some (l, r) => if String.eqb l "" || String.eqb r "" then name else l
  | None => name
  end.

(** [s.rstrip(c)]. *)
Fixpoint rstrip (c : ascii) (s : string) : string :=
  match s with
  | EmptyString => EmptyString
  | String a s' =>
      match rstrip c s' with
      | EmptyString => if Ascii.eqb a c then EmptyString
                       else String a EmptyString
      | r => String a r
      end
  end.

(** [os.path.dirname(p)] (posixpath). *)
Definition dirname (p : string) : string :=
  let head := dirprefix p in
  if all_char "/" head then head else rstrip "/" head.

(** [glob.has_magic(s)]. *)
Fixpoint has_magic (s : string) : bool :=
  match s with
  | EmptyString => false
  | String a s' =>
      Ascii.eqb a "*" || Ascii.eqb a "?" || Ascii.eqb a "[" || has_magic s'
  end.

(** The final component of [os.path.splitext(p)[0]]. *)
Definition splitext_root (p : string) : string :=
  let name := basename p in
  match rsplit "." name with
  | Some (l, r) => if all_char "." l then name else l
  | None => name
  end.

(** [int(c)] for a decimal digit. *)
Definition digit_val (c : ascii) : N := N.of_nat (nat_of_ascii c) - 48.

(** [int(s)] for a string of decimal digits. *)
Fixpoint digits_val (s : string) : N :=
  match s with
  | EmptyString => 0%N
  | String c s' =>
      (digit_val c * 10 ^ N.of_nat (String.length s') + digits_val s')%N
  end.

End Py.


(** ** Exceptions and results *)

Inductive exn : Type :=
  | FileNotFoundError (path : string)
  | FileNotFoundError2 (path path2 : string)
  | IsADirectoryError (path : string)
  | ZeroDivisionError
  | KeyError (key : string)
  | TypeError
  | OSError (path : string)
  | BadZipFile (path : string)
  | CalledProcessError (returncode : Z) (cmd : list string)
  | ClientPayloadError
  | TimeoutError
  | OverflowError.

Inductive result (A : Type) : Type :=
  | Ok (a : A)
  | Raise (e : exn).
Arguments Ok {A} a.
Arguments Raise {A} e.

(** ** The file system

    Regular files only, keyed by their resolved absolute path (the list of
    components below the root).  Resolution is lexical: no symbolic links.
    Directories are implicit, so creating a file never fails for want of a
    parent directory; storage faults (full disk, permissions) are outside
    the model. *)

Module FS.

Abbreviation files := (gmap (list string) (list byte)).

Definition is_absolute (p : string) : bool := Py.startswith p "/".

Definition step (acc : list string) (c : string) : list string :=
  if String.eqb c "" || String.eqb c "." then acc
  else if String.eqb c ".." then removelast acc
  else acc ++ [c].

(** The directory or file that [p] denotes when the process runs in [cwd]. *)
Definition resolve (cwd : list string) (p : string) : list string :=
  fold_left step (Py.split "/" p) (if is_absolute p then [] else cwd).

(** A path can only denote a regular file when its final component is a
    proper name. *)
Definition proper_name (n : string) : bool :=
  negb (String.eqb n "" || String.eqb n "." || String.eqb n "..").

Definition resolve_file (cwd : list string) (p : string)
  : option (list string) :=
  if proper_name (Py.basename p) then Some (resolve cwd p) else None.

(** [os.path.getsize(p)]. *)
Definition getsize (cwd : list string) (fs : files) (p : string) : result Z :=
  match resolve_file cwd p with
  | Some k =>
      match fs !! k with
      | Some data => Ok (Z.of_nat (length data))
      | None => Raise (FileNotFoundError p)
      end
  | None => Raise (FileNotFoundError p)
  end.

(** [os.path.exists(p)] for regular files. *)
Definition exists_ (cwd : list string) (fs : files) (p : string) : bool :=
  match resolve_file cwd p with
  | Some k => bool_decide (is_Some (fs !! k))
  | None => false
  end.

(** [open(p, 'rb')]: the handle is the resolved key of an existing file. *)
Definition open_rb (cwd : list string) (fs : files) (p : string)
  : result (list string) :=
  match resolve_file cwd p with
  | Some k =>
      if fs !! k is Some _ then Ok k else Raise (FileNotFoundError p)
  | None => Raise (FileNotFoundError p)
  end.

(** [f.read(n)] on a handle positioned at [offset]: the read sees the file
    as it is now, not as it was when it was opened. *)
Definition read (fs : files) (handle : list string) (offset : nat) (n : Z)
  : list byte :=
  take (Z.to_nat n) (drop offset (default [] (fs !! handle))).

(** [with open(p, 'wb') as f: f.write(data)]: create or truncate, then
    write. *)
Definition write_wb (cwd : list string) (fs : files) (p : string)
    (data : list byte) : result files :=
  match resolve_file cwd p with
  | Some k => Ok (<[k := data]> fs)
  | None => Raise (IsADirectoryError p)
  end.

(** [os.remove(p)]. *)
Definition remove (cwd : list string) (fs : files) (p : string)
  : result files :=
  match resolve_file cwd p with
  | Some k =>
      if fs !! k is Some _ then Ok (delete k fs)
      else Raise (FileNotFoundError p)
  | None => Raise (FileNotFoundError p)
  end.

(** [os.path.isfile(p)]. *)
Definition isfile (cwd : list string) (fs : files) (p : string) : bool :=
  exists_ cwd fs p.

(** [os.path.isdir(p)]: a directory is there when a file lies below it. *)
Definition isdir (cwd : list string) (fs : files) (p : string) : bool :=
  let d := resolve cwd p in
  existsb (fun k => bool_decide (d `prefix_of` k) && negb (bool_decide (k = d)))
    (map fst (map_to_list fs)).

(** [os.rename(src, dst)] on regular files. *)
Definition rename (cwd : list string) (fs : files) (src dst : string)
  : result files :=
  match resolve_file cwd src, resolve_file cwd dst with
  | Some ks, Some kd =>
      match fs !! ks with
      | Some data => Ok (<[kd := data]> (delete ks fs))
      | None => Raise (FileNotFoundError src)
      end
  | _, _ => Raise (FileNotFoundError src)
  end.

(** [shutil.move(src, dst)] on regular files: into [dst] when [dst] is a
    directory, onto [dst] otherwise. *)
Definition move (cwd : list string) (fs : files) (src dst : string)
  : result files :=
  if isdir cwd fs dst then
    let real_dst := Py.join dst (Py.basename src) in
    if exists_ cwd fs real_dst then Raise (OSError real_dst)
    else rename cwd fs src real_dst
  else rename cwd fs src dst.

(** [shutil.rmtree(p)]. *)
Definition rmtree (cwd : list string) (fs : files) (p : string) : files :=
  let d := resolve cwd p in
  filter (fun kv => ~ (d `prefix_of` kv.1)) fs.

(** A directory is there when a file lies below it. *)
Definition isdir_key (fs : files) (d : list string) : bool :=
  existsb (fun k => bool_decide (d `prefix_of` k) && negb (bool_decide (k = d)))
    (map fst (map_to_list fs)).

(** The names that [os.scandir(dirname)] yields, each once: the regular
    files and the directories directly in the directory; with [dironly],
    the directories only.  The order is the file system's own.  A
    directory that is not there has no entries. *)
Definition listdir (cwd : list string) (fs : files) (dirname : string)
    (dironly : bool) : list string :=
  let d := resolve cwd dirname in
  let names :=
    remove_dups
      (omap (fun k => if bool_decide (take (length d) k = d)
                      then k !! length d else None)
         (map fst (map_to_list fs))) in
  if dironly then filter (fun n => isdir_key fs (d ++ [n]) = true) names
  else names.

(** [os.path.lexists(p)]. *)
Definition lexists (cwd : list string) (fs : files) (p : string) : bool :=
  exists_ cwd fs p || isdir cwd fs p.

Section Glob.

(** [fnmatch.fnmatch(name, pat)], POSIX. *)
Variable fnmatch : string -> string -> bool.

Variable cwd : list string.
Variable fs : files.

(** [glob._ishidden]. *)
Definition ishidden (path : string) : bool := Py.startswith path ".".

(** [glob._glob0]. *)
Definition glob0 (dirname basename : string) (dironly : bool)
  : list string :=
  if negb (String.eqb basename "") then
    if lexists cwd fs (Py.join dirname basename) then [basename] else []
  else if isdir cwd fs dirname then [basename] else [].

(** [glob._glob1]. *)
Definition glob1 (dirname pattern : string) (dironly : bool)
  : list string :=
  let names := listdir cwd fs dirname dironly in
  let names :=
    if negb (ishidden pattern)
    then filter (fun x => ishidden x = false) names
    else names in
  filter (fun name => fnmatch name pattern = true) names.

(** [glob._iglob] without [recursive].  The directory part of a path is
    shorter than the path, so the length of the path is fuel enough. *)
Fixpoint iglob (fuel : nat) (pathname : string) (dironly : bool)
  : list string :=
  match fuel with
  | O => []
  | S fuel' =>
      let dirname := Py.dirname pathname in
      let basename := Py.basename pathname in
      if negb (Py.has_magic pathname) then
        if negb (String.eqb basename "") then
          if lexists cwd fs pathname then [pathname] else []
        else if isdir cwd fs dirname then [pathname] else []
      else if String.eqb dirname "" then glob1 "" basename dironly
      else
        let dirs :=
          if negb (String.eqb dirname pathname) && Py.has_magic dirname
          then iglob fuel' dirname true
          else [dirname] in
        let glob_in_dir :=
          if Py.has_magic basename then glob1 else glob0 in
        flat_map (fun dirname =>
                    map (Py.join dirname)
                      (glob_in_dir dirname basename dironly))
          dirs
  end.

(** [glob.glob(pathname)]. *)
Definition glob (pathname : string) : list string :=
  iglob (S (String.length pathname)) pathname false.

End Glob.

(** What the program's searches use of [fnmatch]: a pattern made of
    literal text followed by one star matches the names that start with
    the text. *)
Definition literal_star (fnmatch : string -> string -> bool) : Prop :=
  forall text name : string,
    Py.has_magic text = false ->
    fnmatch name (text +:+ "*") = Py.startswith name text.

End FS.

(** ** The chunked splitters ([SplitPkgThread], [SplitIsoThread]) *)

Module Splitter.

Inductive signal : Type :=
  | progress (msg : string)
  | status (split : bool)
  | finished (split_files : list string).

Record outcome : Type := Outcome {
  out_fs : FS.files;
  out_signals : list signal;
  out_raised : option exn
}.

Record loop_state : Type := LoopState {
  ls_fs : FS.files;
  ls_parts : list string;
  ls_progress : list string;
  ls_raised : option exn
}.

Definition progress_msg (file_path : string) (i : nat) (num_parts : Z)
  : string :=
  "Splitting " +:+ file_path +:+ ": part " +:+ Py.str (i + 1) +:+ "/" +:+
  pretty num_parts +:+ " complete".

(** The [while True] loop that both threads run over the open source file
    [f]: read a chunk, stop on the empty chunk, write it to the part file
    named by the thread's naming policy, report, count.  [fuel] bounds the
    number of iterations; [None] is "out of fuel". *)
Fixpoint split_loop (fuel : nat) (cwd : list string) (file_path : string)
    (part_name : nat -> string) (chunk_size num_parts : Z)
    (f : list string) (fs : FS.files) (offset i : nat)
  : option loop_state :=
  match fuel with
  | O => None
  | S fuel' =>
      match FS.read fs f offset chunk_size with
      | [] => Some (LoopState fs [] [] None)
      | (_ :: _) as chunk =>
          match FS.write_wb cwd fs (part_name i) chunk with
          | Raise e => Some (LoopState fs [] [] (Some e))
          | Ok fs1 =>
              match split_loop fuel' cwd file_path part_name chunk_size
                      num_parts f fs1 (offset + length chunk) (S i) with
              | None => None
              | Some st =>
                  Some (LoopState (ls_fs st)
                          (part_name i :: ls_parts st)
                          (progress_msg file_path i num_parts
                             :: ls_progress st)
                          (ls_raised st))
              end
          end
      end
  end.

(** Naming policy of [SplitPkgThread]: the stem of the source path, a fixed
    extension and a two-digit zero-padded index. *)
Definition pkg_part_name (file_path : string) (i : nat) : string :=
  Py.path_stem file_path +:+ ".pkg.666" +:+ Py.zfill 2 (Py.str i).

(** Naming policy of [SplitIsoThread]: the source path without its
    extension, [.iso.] and the plain index. *)
Definition iso_part_name (file_path : string) (i : nat) : string :=
  fst (Py.splitext file_path) +:+ ".iso." +:+ Py.str i.

(** The final component of [iso_part_name file_path i]. *)
Definition iso_name (file_path : string) (i : nat) : string :=
  Py.splitext_root file_path +:+ ".iso." +:+ Py.str i.

(** The body of the [else] branch, for a given [chunk_size]. *)
Definition split_with (chunk_size : Z) (part_name : nat -> string)
    (cwd : list string) (fs : FS.files) (file_path : string)
    (file_size : Z) : option loop_state :=
  let num_parts := - (- file_size / chunk_size) in
  match FS.open_rb cwd fs file_path with
  | Raise e => Some (LoopState fs [] [] (Some e))
  | Ok f =>
      split_loop (S (Z.to_nat file_size)) cwd file_path part_name
        chunk_size num_parts f fs 0 0
  end.

Definition threshold : Z := 4294967295.

(** [SplitPkgThread.run]. *)
Definition SplitPkgThread_run (cwd : list string) (fs : FS.files)
    (file_path : string) : option outcome :=
  match FS.getsize cwd fs file_path with
  | Raise e => Some (Outcome fs [] (Some e))
  | Ok file_size =>
      if (file_size <? 4294967295)%Z then
        Some (Outcome fs [status false] None)
      else
        match split_with 4294967295 (pkg_part_name file_path) cwd fs
                file_path file_size with
        | None => None
        | Some st =>
            let sigs := map progress (ls_progress st) in
            match ls_raised st with
            | Some e => Some (Outcome (ls_fs st) sigs (Some e))
            | None =>
                match FS.remove cwd (ls_fs st) file_path with
                | Raise e => Some (Outcome (ls_fs st) sigs (Some e))
                | Ok fs' => Some (Outcome fs' (sigs ++ [status true]) None)
                end
            end
        end
  end.

(** [SplitIsoThread.run]. *)
Definition SplitIsoThread_run (cwd : list string) (fs : FS.files)
    (file_path : string) : option outcome :=
  match FS.getsize cwd fs file_path with
  | Raise e => Some (Outcome fs [] (Some e))
  | Ok file_size =>
      if (file_size <? 4294967295)%Z then
        Some (Outcome fs [status false; finished []] None)
      else
        match split_with 4294967295 (iso_part_name file_path) cwd fs
                file_path file_size with
        | None => None
        | Some st =>
            let sigs := map progress (ls_progress st) in
            match ls_raised st with
            | Some e => Some (Outcome (ls_fs st) sigs (Some e))
            | None =>
                Some (Outcome (ls_fs st)
                        (sigs ++ [status true; finished (ls_parts st)])
                        None)
            end
        end
  end.

(** *** Vocabulary of the splitters' specification *)

(** The successive results of reading [n] items at a time from [l]; [fuel]
    bounds their number. *)
Fixpoint chunks_go {A : Type} (fuel n : nat) (l : list A) : list (list A) :=
  match fuel with
  | O => []
  | S fuel' =>
      match l with
      | [] => []
      | _ :: _ => take n l :: chunks_go fuel' n (drop n l)
      end
  end.

Definition chunks {A : Type} (n : nat) (l : list A) : list (list A) :=
  chunks_go (length l) n l.

(** The file system after the chunks [cs] have been written to the files
    [key i], [key (i + 1)], ... in this order. *)
Fixpoint write_parts (key : nat -> list string) (i : nat)
    (cs : list (list byte)) (fs : FS.files) : FS.files :=
  match cs with
  | [] => fs
  | c :: cs' => write_parts key (S i) cs' (<[key i := c]> fs)
  end.

(** The contents of the files called [names], in order; [None] when one of
    them is missing. *)
Definition read_all (cwd : list string) (fs : FS.files)
    (names : list string) : option (list (list byte)) :=
  mapM (fun name => FS.resolve_file cwd name ≫= fun k => fs !! k) names.

(** A file of exactly [threshold] zero bytes. *)
Definition big_file : list byte := replicate (Z.to_nat threshold) x00.

(** A file of seven bytes. *)
Definition small_file : list byte := [x01; x02; x03; x04; x05; x06; x07].

End Splitter.

(** ** The resumable downloader ([DownloadThread]) *)

Module Downloader.

Inductive body_end : Type :=
  | end_of_stream
  | interrupted (e : exn).

(** What [session.get] yields: the status line, the two size headers
    already parsed ([content-range] after its slash, [content-length]), and
    the payload as the successive non-empty results of
    [response.content.read(8192)], ended by the empty read or by an error
    of the transport. *)
Record response : Type := Response {
  resp_status : Z;
  content_range_total : option Z;
  content_length : option Z;
  resp_body : list (list byte);
  resp_end : body_end
}.

Inductive exchange : Type :=
  | no_response (e : exn)
  | responds (r : response).

(** The remote side: what attempt [i] receives for a request carrying the
    given [Range: bytes=<start>-] header (or none). *)
Definition network : Type := nat -> option Z -> exchange.

Inductive event : Type :=
  | request (range : option Z)
  | wrote (chunk : list byte)
  | progress_signal (percent : Z)
  | speed_signal
  | eta_signal
  | slept (seconds : Q)
  | download_complete_signal.

(** The attributes of a [DownloadThread] that its methods read or write. *)
Record thread : Type := Thread {
  url : string;
  filename : string;
  retries : nat;
  existing_file_size : Z;
  total_downloaded : Z;
  running : bool
}.

(** [DownloadThread.__init__]. *)
Definition init (url filename : string) (retries : nat) : thread :=
  Thread url filename retries 0 0 true.

(** [DownloadThread.stop]. *)
Definition stop (t : thread) : thread :=
  Thread (url t) (filename t) (retries t) (existing_file_size t)
    (total_downloaded t) false.

Definition set_existing (t : thread) (n : Z) : thread :=
  Thread (url t) (filename t) (retries t) n (total_downloaded t) (running t).

Definition set_total (t : thread) (n : Z) : thread :=
  Thread (url t) (filename t) (retries t) (existing_file_size t) n
    (running t).

Record state : Type := State {
  st_thread : thread;
  st_fs : FS.files;
  st_range : option Z;
  st_events : list event
}.

Definition emit (s : state) (evs : list event) : state :=
  State (st_thread s) (st_fs s) (st_range s) (st_events s ++ evs).

Section Download.

(** [int((a / b) * 100)] for [b <> 0]; the quotient is a float, which is
    kept abstract. *)
Variable percent : Z -> Z -> Z.

(** [jitter i] is what the float [2 ** i + random.random()] computed after
    the failure of attempt [i] exceeds [2 ** i] by.  The float is the
    double nearest to the exact sum and [random.random()] lies in [0, 1),
    so [jitter i] lies in [0, 1], both bounds included: the sum can be
    rounded up to [2 ** i + 1]. *)
Variable jitter : nat -> Q.

(** Calls of [stop()] made by the controlling thread: [stops j] holds when
    [stop()] has been called by the time the [j]-th chunk of the transfer
    (counted over all attempts) is about to be read. *)
Variable stops : nat -> bool.

Variable cwd : list string.
Variable net : network.

(** [file.write(chunk)] on a file opened with ['ab']. *)
Definition append (fs : FS.files) (k : list string) (chunk : list byte)
  : FS.files :=
  <[k := default [] (fs !! k) ++ chunk]> fs.

(** The [while True] loop over the chunks of one response.  [j] counts the
    chunks read so far over the whole transfer. *)
Fixpoint read_chunks (total_size : Z) (k : list string)
    (body : list (list byte)) (ending : body_end) (j : nat) (s : state)
  : state * nat * option exn :=
  let s :=
    if stops j
    then State (stop (st_thread s)) (st_fs s) (st_range s) (st_events s)
    else s in
  match body with
  | [] =>
      match ending with
      | end_of_stream => (s, j, None)
      | interrupted e => (s, j, Some e)
      end
  | chunk :: body' =>
      let t := st_thread s in
      let t := set_total t (total_downloaded t + Z.of_nat (length chunk)) in
      let s := State t (append (st_fs s) k chunk) (st_range s)
                 (st_events s ++ [wrote chunk]) in
      if (total_size =? 0)%Z then (s, S j, Some ZeroDivisionError)
      else
        let s := emit s [progress_signal (percent (total_downloaded t)
                                            total_size);
                         speed_signal; eta_signal] in
        read_chunks total_size k body' ending (S j) s
  end.

(** The body of the [try] block for one attempt. *)
Definition attempt (i j : nat) (s : state) : state * nat * option exn :=
  let t := st_thread s in
  let s :=
    if FS.exists_ cwd (st_fs s) (filename t) then
      match FS.getsize cwd (st_fs s) (filename t) with
      | Ok n =>
          State (set_existing t n) (st_fs s) (Some n) (st_events s)
      | Raise _ => s
      end
    else s in
  let s := emit s [request (st_range s)] in
  match net i (st_range s) with
  | no_response e => (s, j, Some e)
  | responds r =>
      if negb ((resp_status r =? 200)%Z || (resp_status r =? 206)%Z)
      then (s, j, Some ClientPayloadError)
      else
        let total :=
          match content_range_total r with
          | Some n => Some n
          | None => content_length r
          end in
        match total with
        | None => (s, j, Some TypeError)
        | Some total_size =>
            match FS.resolve_file cwd (filename (st_thread s)) with
            | None =>
                (s, j, Some (IsADirectoryError (filename (st_thread s))))
            | Some k =>
                let fs := append (st_fs s) k [] in
                let t := st_thread s in
                let t := set_total t (existing_file_size t) in
                read_chunks total_size k (resp_body r) (resp_end r) j
                  (State t fs (st_range s) (st_events s))
            end
        end
  end.

Definition transient (e : exn) : bool :=
  match e with
  | ClientPayloadError | TimeoutError => true
  | _ => false
  end.

(** [for i in range(self.retries)], from index [i] with [n] iterations
    left.  In a handler, [2 ** i] is converted to a float before the
    addition, which raises [OverflowError] from [i = 1024] on; that error
    is raised inside the handler and leaves the loop. *)
Fixpoint attempts (n i j : nat) (s : state) : state * option exn :=
  match n with
  | O => (s, None)
  | S n' =>
      match attempt i j s with
      | (s, _, None) => (s, None)
      | (s, j, Some e) =>
          if transient e then
            if (1024 <=? Z.of_nat i)%Z then (s, Some OverflowError)
            else
              let s :=
                emit s [slept (inject_Z (2 ^ Z.of_nat i) + jitter i)] in
              if (Z.of_nat i =? Z.of_nat (retries (st_thread s)) - 1)%Z
              then (s, Some e)
              else attempts n' (S i) j s
          else (s, Some e)
      end
  end.

(** [DownloadThread.download]. *)
Definition download (t : thread) (fs : FS.files) : state * option exn :=
  attempts (retries t) 0 0 (State t fs None []).

(** [DownloadThread.run]. *)
Definition run (t : thread) (fs : FS.files) : state * option exn :=
  match download t fs with
  | (s, None) => (emit s [download_complete_signal], None)
  | (s, Some e) => (s, Some e)
  end.

End Download.

(** The [if os.path.exists(self.filename)] block that opens an attempt,
    on its own. *)
Definition resume_header (cwd : list string) (s : state) : state :=
  let t := st_thread s in
  if FS.exists_ cwd (st_fs s) (filename t) then
    match FS.getsize cwd (st_fs s) (filename t) with
    | Ok n => State (set_existing t n) (st_fs s) (Some n) (st_events s)
    | Raise _ => s
    end
  else s.

(** The bytes of the destination file. *)
Definition file_of (cwd : list string) (s : state) : list byte :=
  match FS.resolve_file cwd (filename (st_thread s)) with
  | Some k => default [] (st_fs s !! k)
  | None => []
  end.

(** *** Vocabulary of the downloader's specification *)

(** The delays of the [asyncio.sleep] calls of a trace, in order. *)
Definition sleeps (evs : list event) : list Q :=
  omap (fun e => match e with slept d => Some d | _ => None end) evs.

(** The [Range] headers of the requests of a trace, in order. *)
Definition requests (evs : list event) : list (option Z) :=
  omap (fun e => match e with request r => Some r | _ => None end) evs.

(** The chunks written by a trace, in order. *)
Definition written (evs : list event) : list (list byte) :=
  omap (fun e => match e with wrote c => Some c | _ => None end) evs.

(** An exchange that is refused before any byte of the payload arrives,
    and the transient error that the attempt then ends in: the transport
    fails with a payload error or a timeout, or the status of the reply is
    neither 200 nor 206. *)
Definition refusal (x : exchange) : option exn :=
  match x with
  | no_response e => if transient e then Some e else None
  | responds r =>
      if negb ((resp_status r =? 200)%Z || (resp_status r =? 206)%Z)
      then Some ClientPayloadError
      else None
  end.

(** A state without its stop flag. *)
Definition erase_running (s : state) : state :=
  let t := st_thread s in
  State (Thread (url t) (filename t) (retries t) (existing_file_size t)
           (total_downloaded t) true)
    (st_fs s) (st_range s) (st_events s).

(** The remote side serves [content] and honours byte ranges: a request
    for the bytes from [start] on, with [start] inside the content, is
    answered with status 206, the total size after the slash of
    [content-range], and exactly those bytes, in non-empty chunks. *)
Definition honours_range (net : network) (content : list byte) : Prop :=
  forall (i : nat) (start : nat),
    (start < length content)%nat ->
    exists body,
      net i (Some (Z.of_nat start))
      = responds (Response 206 (Some (Z.of_nat (length content)))
                    (Some (Z.of_nat (length content - start))) body
                    end_of_stream)
      /\ concat body = drop start content
      /\ Forall (fun chunk => chunk <> []) body.

(** A server of that kind, which sends the bytes [n] at a time. *)
Definition range_server (n : nat) (content : list byte) : network :=
  fun _ range =>
    match range with
    | Some start =>
        if bool_decide (0 <= start < Z.of_nat (length content)) then
          responds (Response 206 (Some (Z.of_nat (length content)))
                      (Some (Z.of_nat (length content) - start))
                      (Splitter.chunks n (drop (Z.to_nat start) content))
                      end_of_stream)
        else responds (Response 416 None None [] end_of_stream)
    | None =>
        responds (Response 200 None (Some (Z.of_nat (length content)))
                    (Splitter.chunks n content) end_of_stream)
    end.

End Downloader.

(** ** The archive extractor ([UnzipRunner]) *)

Module Unzip.

(** A [ZipInfo] together with the bytes that [extract] writes for it. *)
Record zipinfo : Type := ZipInfo {
  zi_filename : string;
  file_size : Z;
  zi_data : list byte
}.

Inductive signal : Type :=
  | progress_signal (percent : Z)
  | finished_signal (extracted_files : list string).

Record runner : Type := Runner {
  zip_path : string;
  output_path : string;
  extracted_files : list string;
  running : bool
}.

(** [UnzipRunner.__init__]. *)
Definition init (zip_path output_path : string) : runner :=
  Runner zip_path output_path [] true.

(** [UnzipRunner.stop]. *)
Definition stop (r : runner) : runner :=
  Runner (zip_path r) (output_path r) (extracted_files r) false.

Record state : Type := State {
  st_runner : runner;
  st_fs : FS.files;
  st_signals : list signal
}.

(** [sum([info.file_size for info in zip_ref.infolist()])]. *)
Definition sum_sizes (infolist : list zipinfo) : Z :=
  fold_left (fun acc info => acc + file_size info) infolist 0.

(** The member name as [ZipFile._extract_member] uses it below the target
    directory: empty components, [.] and [..] are dropped. *)
Definition arcname (filename : string) : string :=
  String.concat "/"
    (filter (fun x => x <> "" /\ x <> "." /\ x <> "..")
       (Py.split "/" filename)).

(** [zip_ref.extract(info, path)] for an entry that the library extracts
    without error: a directory entry (name ending in a slash) creates no
    file, and a file entry is written below [path] under its sanitised
    name. *)
Definition extract (cwd : list string) (fs : FS.files) (info : zipinfo)
    (path : string) : FS.files :=
  if Py.endswith (zi_filename info) "/" then fs
  else
    match FS.resolve_file cwd (Py.join path (arcname (zi_filename info))) with
    | Some k => <[k := zi_data info]> fs
    | None => fs
    end.

Section Run.

(** [int((a / b) * 100)] for [b <> 0]; the quotient is a float, which is
    kept abstract. *)
Variable percent : Z -> Z -> Z.

(** Calls of [stop()] made by the controlling thread: [stops j] holds when
    [stop()] has been called by the time entry [j] is about to be
    examined. *)
Variable stops : nat -> bool.

(** [zip_ref.extract(info, path)] as the library performs it: what it
    leaves on disk and the error it raises, if any (a member that fails
    its CRC check, an encrypted member, a target that is a directory). *)
Variable zip_extract : FS.files -> zipinfo -> string -> FS.files * option exn.

(** The [for info in zip_ref.infolist()] loop, from entry [j]. *)
Fixpoint entries_with (total_size extracted_size : Z)
    (infos : list zipinfo) (j : nat) (s : state) : state * option exn :=
  match infos with
  | [] => (s, None)
  | info :: infos' =>
      let r := if stops j then stop (st_runner s) else st_runner s in
      if negb (running r) then (State r (st_fs s) (st_signals s), None)
      else
        match zip_extract (st_fs s) info (output_path r) with
        | (fs, Some e) => (State r fs (st_signals s), Some e)
        | (fs, None) =>
            let extracted_file_path :=
              Py.join (output_path r) (zi_filename info) in
            let r := Runner (zip_path r) (output_path r)
                       (extracted_files r ++ [extracted_file_path])
                       (running r) in
            let extracted_size := extracted_size + file_size info in
            if (total_size =? 0)%Z then
              (State r fs (st_signals s), Some ZeroDivisionError)
            else
              entries_with total_size extracted_size infos' (S j)
                (State r fs
                   (st_signals s
                      ++ [progress_signal
                            (percent extracted_size total_size)]))
        end
  end.

(** [UnzipRunner.run]; [archive] is what [zipfile.ZipFile(zip_path)]
    finds: the entries in archive order, or the error it raises. *)
Definition run_with (archive : result (list zipinfo)) (r : runner)
    (fs : FS.files) : state * option exn :=
  if negb (Py.endswith (Py.lower (zip_path r)) ".zip") then
    (State r fs [finished_signal []], None)
  else
    match archive with
    | Raise e => (State r fs [], Some e)
    | Ok infolist =>
        let total_size := sum_sizes infolist in
        match entries_with total_size 0 infolist 0 (State r fs []) with
        | (s, Some e) => (s, Some e)
        | (s, None) =>
            (State (st_runner s) (st_fs s)
               (st_signals s
                  ++ [finished_signal (extracted_files (st_runner s))]),
             None)
        end
    end.

End Run.

(** The run over an archive all of whose entries the library extracts
    without error. *)
Definition run (percent : Z -> Z -> Z) (stops : nat -> bool)
    (cwd : list string) :=
  run_with percent stops
    (fun fs info path => (extract cwd fs info path, None)).

(** *** Vocabulary of the extractor's specification *)

(** The progress signals for the entries [infos] when [extracted] bytes
    were extracted before them. *)
Fixpoint progress_trace (percent : Z -> Z -> Z) (total extracted : Z)
    (infos : list zipinfo) : list signal :=
  match infos with
  | [] => []
  | info :: rest =>
      progress_signal (percent (extracted + file_size info) total)
      :: progress_trace percent total (extracted + file_size info) rest
  end.

(** The entries [infos] handed to the library in order, each on what the
    one before it left on disk, until one raises: what is left on disk,
    the number of entries extracted without error and the error. *)
Fixpoint extract_each
    (zip_extract : FS.files -> zipinfo -> string -> FS.files * option exn)
    (path : string) (infos : list zipinfo) (fs : FS.files)
  : FS.files * nat * option exn :=
  match infos with
  | [] => (fs, 0%nat, None)
  | info :: rest =>
      match zip_extract fs info path with
      | (fs1, Some e) => (fs1, 0%nat, Some e)
      | (fs1, None) =>
          let '(fs2, n, r) := extract_each zip_extract path rest fs1 in
          (fs2, S n, r)
      end
  end.

(** Where the entries [infos] are extracted to. *)
Definition extracted_paths (output_path : string) (infos : list zipinfo)
  : list string :=
  map (fun info => Py.join output_path (zi_filename info)) infos.

End Unzip.

(** ** The file-system operation executor ([FileOperationsThread]) *)

Module FileOps.

(** The dictionaries that the pipelines build: [{'type': 'rename', 'src',
    'dst'}], [{'type': 'move', 'src', 'dst'}] and [{'type': 'remove',
    'src'}]. *)
Inductive operation : Type :=
  | rename (src dst : string)
  | move (src dst : string)
  | remove (src : string).

Definition type_of (op : operation) : string :=
  match op with
  | rename _ _ => "rename"
  | move _ _ => "move"
  | remove _ => "remove"
  end.

Inductive signal : Type :=
  | progress_signal (msg : string)
  | finished_signal.

Section Executor.

(** The state of the file system and the library calls that act on it.
    Each call returns the state it leaves behind and the exception it
    raised, if any. *)
Variable world : Type.
Variable os_rename : string -> string -> world -> world * option exn.
Variable shutil_move : string -> string -> world -> world * option exn.
Variable os_path_isdir : string -> world -> bool.
Variable shutil_rmtree : string -> world -> world * option exn.
Variable os_remove : string -> world -> world * option exn.

(** [str(e)]. *)
Variable exn_str : exn -> string.

(** The first message of an operation, emitted before it is tried. *)
Definition announce (op : operation) : string :=
  match op with
  | rename src dst => "Renaming " +:+ src +:+ " to " +:+ dst
  | move src dst => "Moving " +:+ src +:+ " to " +:+ dst
  | remove src => "Removing " +:+ src
  end.

(** The library call of an operation. *)
Definition perform (op : operation) (w : world) : world * option exn :=
  match op with
  | rename src dst => os_rename src dst w
  | move src dst => shutil_move src dst w
  | remove src =>
      if os_path_isdir src w then shutil_rmtree src w else os_remove src w
  end.

(** The body of the [for] loop: the [try] block and its handler. *)
Definition run_one (op : operation) (w : world) : world * list signal :=
  match perform op w with
  | (w', None) =>
      (w', [progress_signal (announce op);
            progress_signal ("Performed " +:+ type_of op +:+ " operation")])
  | (w', Some e) =>
      (w', [progress_signal (announce op);
            progress_signal
              ("Error during " +:+ type_of op +:+ ": " +:+ exn_str e)])
  end.

Fixpoint run_all (operations : list operation) (w : world)
  : world * list signal :=
  match operations with
  | [] => (w, [])
  | op :: rest =>
      let '(w1, sigs1) := run_one op w in
      let '(w2, sigs2) := run_all rest w1 in
      (w2, sigs1 ++ sigs2)
  end.

(** [FileOperationsThread.run]. *)
Definition run (operations : list operation) (w : world)
  : world * list signal :=
  let '(w', sigs) := run_all operations w in
  (w', sigs ++ [finished_signal]).

End Executor.

(** *** Vocabulary of the executor's specification *)

(** What happens to each operation when the list is executed in order from
    [w]: the operation and the exception its library call raised, if
    any. *)
Fixpoint attempts {world : Type}
    (perform : operation -> world -> world * option exn)
    (operations : list operation) (w : world)
  : list (operation * option exn) :=
  match operations with
  | [] => []
  | op :: rest =>
      let '(w', r) := perform op w in
      (op, r) :: attempts perform rest w'
  end.

(** The acknowledgment of a successful operation. *)
Definition acknowledgment (op : operation) : signal :=
  progress_signal ("Performed " +:+ type_of op +:+ " operation").

(** The signals of an operation that ended with [r]. *)
Definition report (exn_str : exn -> string) (a : operation * option exn)
  : list signal :=
  [progress_signal (announce a.1);
   match a.2 with
   | None => acknowledgment a.1
   | Some e =>
       progress_signal
         ("Error during " +:+ type_of a.1 +:+ ": " +:+ exn_str e)
   end].

(** [msg] is an acknowledgment. *)
Definition is_acknowledgment (s : signal) : bool :=
  match s with
  | progress_signal msg => Py.startswith msg "Performed "
  | finished_signal => false
  end.

(** [msg] reports an error. *)
Definition is_error_report (s : signal) : bool :=
  match s with
  | progress_signal msg => Py.startswith msg "Error during "
  | finished_signal => false
  end.

Arguments perform {world}.
Arguments run_one {world}.
Arguments run_all {world}.
Arguments run {world}.

Section Specification.

Variable world : Type.
Variable os_rename : string -> string -> world -> world * option exn.
Variable shutil_move : string -> string -> world -> world * option exn.
Variable os_path_isdir : string -> world -> bool.
Variable shutil_rmtree : string -> world -> world * option exn.
Variable os_remove : string -> world -> world * option exn.

(** [attempted op w w' r]: the operation is attempted on [w], that is, the
    library call that its type names is made on [w]; the call leaves [w']
    behind and raises [r], if anything.  A rename is [os.rename], a move
    is [shutil.move], and a removal is [shutil.rmtree] for a directory and
    [os.remove] otherwise. *)
Inductive attempted : operation -> world -> world -> option exn -> Prop :=
  | attempted_rename (src dst : string) (w : world) :
      attempted (rename src dst) w
        (os_rename src dst w).1 (os_rename src dst w).2
  | attempted_move (src dst : string) (w : world) :
      attempted (move src dst) w
        (shutil_move src dst w).1 (shutil_move src dst w).2
  | attempted_rmtree (src : string) (w : world) :
      os_path_isdir src w = true ->
      attempted (remove src) w
        (shutil_rmtree src w).1 (shutil_rmtree src w).2
  | attempted_remove (src : string) (w : world) :
      os_path_isdir src w = false ->
      attempted (remove src) w (os_remove src w).1 (os_remove src w).2.

(** [best_effort ops w w' outcomes]: every operation of [ops] is attempted,
    in list order, each on what the one before it left behind, whether that
    one raised or not; [w'] is what the last one leaves, and [outcomes]
    records what each raised. *)
Inductive best_effort
  : list operation -> world -> world -> list (operation * option exn)
    -> Prop :=
  | best_effort_nil (w : world) : best_effort [] w w []
  | best_effort_cons (op : operation) (ops : list operation)
      (w w1 w2 : world) (r : option exn)
      (outcomes : list (operation * option exn)) :
      attempted op w w1 r ->
      best_effort ops w1 w2 outcomes ->
      best_effort (op :: ops) w w2 ((op, r) :: outcomes).

End Specification.

Arguments attempted {world}.
Arguments best_effort {world}.

End FileOps.

(** ** The queue and the dispatcher ([GUIDownloader]) *)

Module GUI.

(** An entry of [queue_list]: its text and the catalog index stored under
    [Qt.UserRole]. *)
Definition queue_item : Type := string * Z.

(** The part of the window's state that the queue methods touch:
    [queue_list], the pickled contents of [queue.txt] ([None] when the
    file does not exist), the two position counters and whether the
    buttons are enabled. *)
Record gui : Type := Gui {
  queue_list : list queue_item;
  queue_txt : option (list queue_item);
  processed_items : Z;
  total_items : Z;
  clickables_enabled : bool
}.

(** [pickle.dump([... for i in range(self.queue_list.count())], file)] on
    [queue.txt]. *)
Definition save_queue (g : gui) : gui :=
  Gui (queue_list g) (Some (queue_list g)) (processed_items g)
    (total_items g) (clickables_enabled g).

Definition set_queue (g : gui) (q : list queue_item) : gui :=
  Gui q (queue_txt g) (processed_items g) (total_items g)
    (clickables_enabled g).

(** [self.queue_list.takeItem(0)]. *)
Definition takeItem0 (g : gui) : gui := set_queue g (tail (queue_list g)).

(** The duplicate scan of [add_to_queue]. *)
Definition duplicate (q : list queue_item) (full_filename : string)
    (current_system_index : Z) : bool :=
  existsb (fun it => String.eqb it.1 full_filename
                     && (it.2 =? current_system_index)%Z) q.

(** [add_to_queue]; a selected table item is its column and the file name
    stored under [Qt.UserRole]. *)
Fixpoint add_to_queue (selected_items : list (Z * string))
    (current_system_index : Z) (g : gui) : gui :=
  match selected_items with
  | [] => g
  | (column, full_filename) :: rest =>
      let g :=
        if (column =? 0)%Z then
          if duplicate (queue_list g) full_filename current_system_index
          then g
          else set_queue g
                 (queue_list g ++ [(full_filename, current_system_index)])
        else g in
      add_to_queue rest current_system_index g
  end.

(** The file names of the selected items of the first column, the only
    ones [add_to_queue] looks at. *)
Definition selected_names (selected_items : list (Z * string))
  : list string :=
  map snd (filter (fun it => it.1 = 0) selected_items).

(** The rows of [q] other than the selected ones. *)
Fixpoint drop_rows (selected_rows : list nat) (row : nat)
    (q : list queue_item) : list queue_item :=
  match q with
  | [] => []
  | it :: q' =>
      if bool_decide (row ∈ selected_rows)
      then drop_rows selected_rows (S row) q'
      else it :: drop_rows selected_rows (S row) q'
  end.

(** [remove_from_queue]; the selected items are given by the rows they
    occupy when the method is called. *)
Definition remove_from_queue (selected_rows : list nat) (g : gui) : gui :=
  save_queue (set_queue g (drop_rows selected_rows 0 (queue_list g))).

(** [closeEvent], after [stop_threads]. *)
Definition closeEvent (g : gui) : gui := save_queue g.

(** [GUIDownloader.__init__]: the queue read back from [queue.txt]. *)
Definition load_queue (stored : option (list queue_item))
  : list queue_item :=
  default [] stored.

(** An entry of [systems_data]. *)
Record system : Type := System {
  sys_url : string;
  output_dir : string;
  file_extension : string;
  requires_decryption : bool;
  requires_pkg_handling : bool;
  has_multiple_extensions : bool
}.

Record checkboxes : Type := Checkboxes {
  debug_checkbox : bool;
  decrypt_checkbox : bool;
  split_checkbox : bool;
  keep_dkey_checkbox : bool;
  keep_enc_checkbox : bool;
  keep_unsplit_dec_checkbox : bool;
  split_pkg_checkbox : bool;
  keep_unsplit_pkg_checkbox : bool
}.

Definition processing_dir : string := "processing".

(** The methods that a signal or a direct call can enter, with the
    arguments their closures captured. *)
Inductive callback : Type :=
  | cb_process_next_item
  | cb_ps3_after_download (base_name output_dir queue_position : string)
      (file_path : string)
  | cb_handle_ps3_files (base_name output_dir queue_position : string)
      (extracted_files : list string)
  | cb_after_dkey_download (dkey_zip_path iso_file : option string)
      (base_name output_dir queue_position : string)
  | cb_decrypt_ps3_iso (iso_file dkey_file base_name queue_position : string)
  | cb_decryption_finished (iso_file base_name queue_position : string)
  | cb_after_decryption (iso_file : option string)
      (base_name output_dir queue_position : string)
  | cb_finalize_ps3_files (iso_file : option string)
      (base_name queue_position : string) (split_files : list string)
  | cb_ps3_file_operations_finished (queue_position base_name : string)
  | cb_psn_file_operations_finished (queue_position base_name : string).

(** How a method ends: it calls another method, starts a worker whose
    completion signal is connected to a method, returns with nothing
    scheduled, or lets an exception escape. *)
Inductive next : Type :=
  | call (c : callback)
  | start_DownloadThread (url filename : string) (on_finished : callback)
  | start_UnzipRunner (zip_path output_path : string)
      (on_finished_signal : list string -> callback)
  | start_CommandRunner (command : list string) (on_finished : callback)
  | start_SplitIsoThread (file_path : string)
      (on_finished : list string -> callback)
  | start_FileOperationsThread (operations : list FileOps.operation)
      (on_finished_signal : callback)
  | other_pipeline (name : string)
  | nothing_scheduled
  | unhandled (e : exn).

(** [self.queue_list.takeItem(0); self.process_next_item()]. *)
Definition advance (g : gui) : gui * next :=
  (takeItem0 g, call cb_process_next_item).

Section Dispatcher.

Variable cwd : list string.
Variable systems_data : Z -> option system.
Variable boxes : checkboxes.

(** [self.result_list.currentIndex()]. *)
Variable current_index : Z.

(** [urllib.parse.quote]. *)
Variable quote : string -> string.

(** The [content-length] header of [requests.head(url)], if present. *)
Variable head_content_length : string -> option Z.

Variable windows : bool.
Variable cpu_count : Z.
Variable ps3dec_binary : string.

(** [downloadhelper]; [callback] is the closure [after_download]. *)
Definition downloadhelper (fs : FS.files) (selected_iso url : string)
    (callback : string -> callback) : next :=
  let selected_iso_encoded := quote selected_iso in
  if debug_checkbox boxes then call (callback "DEBUG_MODE")
  else
    let base_name := fst (Py.splitext selected_iso) in
    let zip_file_path := Py.join processing_dir (base_name +:+ ".zip") in
    let download :=
      start_DownloadThread (url +:+ "/" +:+ selected_iso_encoded)
        zip_file_path (callback zip_file_path) in
    if FS.exists_ cwd fs zip_file_path then
      match FS.getsize cwd fs zip_file_path with
      | Raise e => unhandled e
      | Ok local_file_size =>
          match head_content_length
                  (url +:+ "/" +:+ selected_iso_encoded) with
          | None => call (callback zip_file_path)
          | Some remote_file_size =>
              if (local_file_size <? remote_file_size)%Z then download
              else if (local_file_size =? remote_file_size)%Z
                   then call (callback zip_file_path)
                   else download
          end
      end
    else download.

(** [download_and_process_ps3_iso]. *)
Definition download_and_process_ps3_iso (fs : FS.files)
    (selected_iso : string) (sys : system) (queue_position : string)
  : next :=
  let base_name := fst (Py.splitext selected_iso) in
  downloadhelper fs selected_iso (sys_url sys)
    (cb_ps3_after_download base_name (output_dir sys) queue_position).

(** [process_next_item]. *)
Definition process_next_item (fs : FS.files) (g : gui) : gui * next :=
  match queue_list g with
  | (item_text, system_index) :: _ =>
      let total :=
        if (processed_items g =? 0)%Z
        then Z.of_nat (length (queue_list g)) else total_items g in
      let g := Gui (queue_list g) (queue_txt g) (processed_items g + 1)
                 total (clickables_enabled g) in
      match systems_data system_index with
      | Some sys =>
          let queue_position :=
            pretty (processed_items g) +:+ "/" +:+ pretty (total_items g) in
          if requires_decryption sys then
            (g, download_and_process_ps3_iso fs item_text sys queue_position)
          else if requires_pkg_handling sys then
            (g, other_pipeline "download_and_process_psn_pkg")
          else if has_multiple_extensions sys then
            (g, other_pipeline "download_and_process_multi_file")
          else (g, other_pipeline "download_file")
      | None => advance g
      end
  | [] =>
      (save_queue (Gui (queue_list g) (queue_txt g) 0 0 true),
       nothing_scheduled)
  end.

(** The closure [after_download] of [download_and_process_ps3_iso]. *)
Definition ps3_after_download (g : gui)
    (base_name output_dir queue_position file_path : string) : gui * next :=
  if String.eqb file_path "DEBUG_MODE" then advance g
  else
    (g, start_UnzipRunner file_path processing_dir
          (cb_handle_ps3_files base_name output_dir queue_position)).

(** The last extracted file whose name ends in [.iso]. *)
Definition find_iso (extracted_files : list string) : option string :=
  fold_left (fun acc file => if Py.endswith file ".iso" then Some file
                             else acc)
    extracted_files None.

(** [handle_ps3_files]. *)
Definition handle_ps3_files (fs : FS.files)
    (extracted_files : list string)
    (base_name output_dir queue_position : string) : next :=
  let iso_file := find_iso extracted_files in
  let dkey_file_path := Py.join processing_dir (base_name +:+ ".dkey") in
  if negb (FS.isfile cwd fs dkey_file_path) then
    if decrypt_checkbox boxes || keep_dkey_checkbox boxes then
      let dkey_url :=
        "https://myrient.erista.me/files/Redump/Sony%20-%20PlayStation%203%20-%20Disc%20Keys%20TXT/"
        +:+ base_name +:+ ".zip" in
      let dkey_zip_path :=
        Py.join processing_dir (base_name +:+ "_dkey.zip") in
      start_DownloadThread dkey_url dkey_zip_path
        (cb_after_dkey_download (Some dkey_zip_path) iso_file base_name
           output_dir queue_position)
    else nothing_scheduled
  else
    call (cb_after_dkey_download None iso_file base_name output_dir
            queue_position).

(** [zip_ref.extractall(path)]. *)
Definition extractall (fs : FS.files) (infolist : list Unzip.zipinfo)
    (path : string) : FS.files :=
  fold_left (fun fs info => Unzip.extract cwd fs info path) infolist fs.

(** [after_dkey_download]; [archive] is what [zipfile.ZipFile] finds at
    [dkey_zip_path]. *)
Definition after_dkey_download (archive : result (list Unzip.zipinfo))
    (fs : FS.files) (dkey_zip_path iso_file : option string)
    (base_name output_dir queue_position : string) : FS.files * next :=
  let unzipped :=
    match dkey_zip_path with
    | Some p =>
        match archive with
        | Raise e => Raise e
        | Ok infolist =>
            FS.remove cwd (extractall fs infolist processing_dir) p
        end
    | None => Ok fs
    end in
  match unzipped with
  | Raise e => (fs, unhandled e)
  | Ok fs =>
      let dkey_file_path := Py.join processing_dir (base_name +:+ ".dkey") in
      let dkey_file :=
        if FS.isfile cwd fs dkey_file_path then Some dkey_file_path
        else None in
      match decrypt_checkbox boxes, iso_file, dkey_file with
      | true, Some iso, Some dkey =>
          (fs, call (cb_decrypt_ps3_iso iso dkey base_name queue_position))
      | _, _, _ =>
          (fs, call (cb_after_decryption iso_file base_name output_dir
                       queue_position))
      end
  end.

(** [decrypt_ps3_iso]. *)
Definition decrypt_ps3_iso (fs : FS.files)
    (iso_file dkey_file base_name queue_position : string) : next :=
  match FS.open_rb cwd fs dkey_file with
  | Raise e => unhandled e
  | Ok f =>
      let key := string_of_list_byte (FS.read fs f 0 32) in
      let command :=
        if windows then
          let thread_count := cpu_count / 2 in
          [ps3dec_binary; "--iso"; iso_file; "--dk"; key; "--tc";
           pretty thread_count]
        else [ps3dec_binary; "d"; "key"; key; iso_file] in
      start_CommandRunner command
        (cb_decryption_finished iso_file base_name queue_position)
  end.

(** [CommandRunner.run], given the exit status of the process: the
    [finished] signal is emitted on status 0 only. *)
Definition CommandRunner_run (command : list string) (returncode : Z)
  : result unit :=
  if negb (returncode =? 0)%Z
  then Raise (CalledProcessError returncode command)
  else Ok tt.

(** [decryption_finished]. *)
Definition decryption_finished (fs : FS.files) (g : gui)
    (iso_file base_name queue_position : string)
  : FS.files * gui * next :=
  let decrypted_iso :=
    if windows
    then Py.join processing_dir (base_name +:+ ".iso_decrypted.iso")
    else Py.join processing_dir (base_name +:+ ".iso.dec") in
  if FS.exists_ cwd fs decrypted_iso then
    let removed :=
      if negb (keep_enc_checkbox boxes) then FS.remove cwd fs iso_file
      else Ok fs in
    match removed with
    | Raise e => (fs, g, unhandled e)
    | Ok fs1 =>
        let final_iso :=
          if keep_enc_checkbox boxes
          then Py.join processing_dir (base_name +:+ ".iso.dec")
          else Py.join processing_dir (base_name +:+ ".iso") in
        let cleared :=
          if FS.exists_ cwd fs1 final_iso then FS.remove cwd fs1 final_iso
          else Ok fs1 in
        match cleared with
        | Raise e => (fs1, g, unhandled e)
        | Ok fs2 =>
            match FS.rename cwd fs2 decrypted_iso final_iso with
            | Raise e => (fs2, g, unhandled e)
            | Ok fs3 =>
                match systems_data current_index with
                | None => (fs3, g, unhandled (KeyError "systems_data"))
                | Some sys =>
                    (fs3, g,
                     call (cb_after_decryption (Some final_iso) base_name
                             (output_dir sys) queue_position))
                end
            end
        end
    end
  else
    let '(g, n) := advance g in (fs, g, n).

(** [after_decryption] and [split_ps3_iso]. *)
Definition after_decryption (fs : FS.files) (iso_file : option string)
    (base_name output_dir queue_position : string) : next :=
  if split_checkbox boxes then
    match iso_file with
    | None => unhandled TypeError
    | Some iso =>
        match FS.getsize cwd fs iso with
        | Raise e => unhandled e
        | Ok size =>
            if (4294967295 <=? size)%Z then
              start_SplitIsoThread iso
                (cb_finalize_ps3_files iso_file base_name queue_position)
            else
              call (cb_finalize_ps3_files iso_file base_name queue_position
                      [])
        end
    end
  else call (cb_finalize_ps3_files iso_file base_name queue_position []).

(** [finalize_ps3_files]. *)
Definition finalize_ps3_files (fs : FS.files) (iso_file : option string)
    (base_name queue_position : string) (split_files : list string)
  : next :=
  match systems_data current_index with
  | None => unhandled (KeyError "systems_data")
  | Some sys =>
      let output_dir := output_dir sys in
      let artifacts :=
        match split_files with
        | _ :: _ =>
            Ok (map (fun split_file =>
                       FileOps.move split_file
                         (Py.join output_dir (Py.basename split_file)))
                    split_files
                ++ match keep_unsplit_dec_checkbox boxes, iso_file with
                   | false, Some iso => [FileOps.remove iso]
                   | _, _ => []
                   end)
        | [] =>
            match iso_file with
            | None => Raise TypeError
            | Some iso =>
                Ok [FileOps.move iso (Py.join output_dir (Py.basename iso))]
            end
        end in
      match artifacts with
      | Raise e => unhandled e
      | Ok operations =>
          let dkey_file := Py.join processing_dir (base_name +:+ ".dkey") in
          let dkey_ops :=
            if keep_dkey_checkbox boxes && FS.isfile cwd fs dkey_file then
              [FileOps.move dkey_file
                 (Py.join output_dir (Py.basename dkey_file))]
            else if FS.isfile cwd fs dkey_file
                 then [FileOps.remove dkey_file] else [] in
          let zip_file := Py.join processing_dir (base_name +:+ ".zip") in
          let zip_ops :=
            if FS.exists_ cwd fs zip_file then [FileOps.remove zip_file]
            else [] in
          start_FileOperationsThread (operations ++ dkey_ops ++ zip_ops)
            (cb_ps3_file_operations_finished queue_position base_name)
      end
  end.

(** The method that a callback names, run on the current state. *)
Definition enter (archive : FS.files -> string -> result (list Unzip.zipinfo))
    (c : callback) (fs : FS.files) (g : gui) : FS.files * gui * next :=
  match c with
  | cb_process_next_item =>
      let '(g, n) := process_next_item fs g in (fs, g, n)
  | cb_ps3_after_download base_name output_dir queue_position file_path =>
      let '(g, n) :=
        ps3_after_download g base_name output_dir queue_position file_path in
      (fs, g, n)
  | cb_handle_ps3_files base_name output_dir queue_position files =>
      (fs, g, handle_ps3_files fs files base_name output_dir queue_position)
  | cb_after_dkey_download dkey_zip_path iso_file base_name output_dir
      queue_position =>
      let '(fs, n) :=
        after_dkey_download
          (match dkey_zip_path with
           | Some p => archive fs p
           | None => Ok []
           end)
          fs dkey_zip_path iso_file base_name output_dir queue_position in
      (fs, g, n)
  | cb_decrypt_ps3_iso iso_file dkey_file base_name queue_position =>
      (fs, g, decrypt_ps3_iso fs iso_file dkey_file base_name queue_position)
  | cb_decryption_finished iso_file base_name queue_position =>
      decryption_finished fs g iso_file base_name queue_position
  | cb_after_decryption iso_file base_name output_dir queue_position =>
      (fs, g, after_decryption fs iso_file base_name output_dir
                queue_position)
  | cb_finalize_ps3_files iso_file base_name queue_position split_files =>
      (fs, g, finalize_ps3_files fs iso_file base_name queue_position
                split_files)
  | cb_ps3_file_operations_finished _ _
  | cb_psn_file_operations_finished _ _ =>
      let '(g, n) := advance g in (fs, g, n)
  end.

End Dispatcher.

(** An item that the dispatcher passes over without starting a worker:
    its system is unknown, or it is a disc image and debug mode is on. *)
Definition passed_over (systems_data : Z -> option system)
    (boxes : checkboxes) (it : queue_item) : Prop :=
  systems_data it.2 = None \/
  (debug_checkbox boxes = true /\
   exists sys, systems_data it.2 = Some sys
               /\ requires_decryption sys = true).

Section PsnFiles.

(** [fnmatch.fnmatch], which [glob.glob] filters the names with. *)
Variable fnmatch : string -> string -> bool.

Variable cwd : list string.
Variable boxes : checkboxes.

(** [split_pkg]: the splitter thread is started and waited for; an
    exception raised inside it ends that thread only. *)
Definition split_pkg (fs : FS.files) (pkg_file : string)
  : option FS.files :=
  match Splitter.SplitPkgThread_run cwd fs pkg_file with
  | None => None
  | Some out => Some (Splitter.out_fs out)
  end.

(** The operations that [handle_psn_files] queues for a renamed PKG after
    the optional split. *)
Definition pkg_operations (fs : FS.files)
    (new_file_path output_dir : string) : list FileOps.operation :=
  let whole :=
    FileOps.move new_file_path
      (Py.join output_dir (Py.basename new_file_path)) in
  match FS.glob fnmatch cwd fs (new_file_path +:+ ".666*") with
  | (_ :: _) as split_parts =>
      map (fun split_file =>
             FileOps.move split_file
               (Py.join output_dir (Py.basename split_file)))
          split_parts
      ++ [if negb (keep_unsplit_pkg_checkbox boxes)
          then FileOps.remove new_file_path else whole]
  | [] => [whole]
  end.

(** The body of the [for file in extracted_files] loop. *)
Definition psn_file (base_name output_dir psn_rap_dir file : string)
    (fs : FS.files) (operations : list FileOps.operation)
  : option (result (FS.files * list FileOps.operation)) :=
  if Py.endswith file ".pkg" then
    let new_file_path := Py.join processing_dir (base_name +:+ ".pkg") in
    match FS.rename cwd fs file new_file_path with
    | Raise e => Some (Raise e)
    | Ok fs =>
        if split_pkg_checkbox boxes then
          match split_pkg fs new_file_path with
          | None => None
          | Some fs =>
              Some (Ok (fs, operations
                            ++ pkg_operations fs new_file_path output_dir))
          end
        else
          Some (Ok (fs, operations
                        ++ [FileOps.move new_file_path
                              (Py.join output_dir
                                 (Py.basename new_file_path))]))
    end
  else if Py.endswith file ".rap" then
    Some (Ok (fs, operations
                  ++ [FileOps.move file
                        (Py.join psn_rap_dir (Py.basename file))]))
  else Some (Ok (fs, operations)).

Fixpoint psn_files (base_name output_dir psn_rap_dir : string)
    (extracted_files : list string) (fs : FS.files)
    (operations : list FileOps.operation)
  : option (result (FS.files * list FileOps.operation)) :=
  match extracted_files with
  | [] => Some (Ok (fs, operations))
  | file :: rest =>
      match psn_file base_name output_dir psn_rap_dir file fs operations with
      | Some (Ok (fs, operations)) =>
          psn_files base_name output_dir psn_rap_dir rest fs operations
      | other => other
      end
  end.

(** [handle_psn_files]. *)
Definition handle_psn_files (fs : FS.files) (extracted_files : list string)
    (base_name output_dir psn_rap_dir queue_position : string)
  : option (FS.files * next) :=
  match psn_files base_name output_dir psn_rap_dir extracted_files fs [] with
  | None => None
  | Some (Raise e) => Some (fs, unhandled e)
  | Some (Ok (fs, operations)) =>
      let zip_file := Py.join processing_dir (base_name +:+ ".zip") in
      let zip_ops :=
        if FS.exists_ cwd fs zip_file then [FileOps.remove zip_file]
        else [] in
      Some (fs, start_FileOperationsThread (operations ++ zip_ops)
                  (cb_psn_file_operations_finished queue_position base_name))
  end.

End PsnFiles.

End GUI.

(** ** The event loop: workers run, their signals enter the next method *)

Module EventLoop.

Import GUI.

(** The library calls of the executor on the file-system model. *)
Definition lift (r : result FS.files) (fs : FS.files)
  : FS.files * option exn :=
  match r with
  | Ok fs' => (fs', None)
  | Raise e => (fs, Some e)
  end.

(** The [FileNotFoundError] of [os.rename] carries both file names, and
    the executor prints both. *)
Definition os_rename (cwd : list string) (src dst : string) (fs : FS.files)
  : FS.files * option exn :=
  match FS.rename cwd fs src dst with
  | Raise (FileNotFoundError _) => (fs, Some (FileNotFoundError2 src dst))
  | r => lift r fs
  end.

Definition shutil_move (cwd : list string) (src dst : string)
    (fs : FS.files) : FS.files * option exn :=
  lift (FS.move cwd fs src dst) fs.

Definition os_path_isdir (cwd : list string) (src : string) (fs : FS.files)
  : bool :=
  FS.isdir cwd fs src.

Definition shutil_rmtree (cwd : list string) (src : string) (fs : FS.files)
  : FS.files * option exn :=
  (FS.rmtree cwd fs src, None).

Definition os_remove (cwd : list string) (src : string) (fs : FS.files)
  : FS.files * option exn :=
  lift (FS.remove cwd fs src) fs.

(** [str(e)] for the errors of the file-system calls. *)
Definition exn_str (e : exn) : string :=
  match e with
  | FileNotFoundError p =>
      "[Errno 2] No such file or directory: '" +:+ p +:+ "'"
  | FileNotFoundError2 p q =>
      "[Errno 2] No such file or directory: '" +:+ p +:+ "' -> '" +:+ q
      +:+ "'"
  | IsADirectoryError p => "[Errno 21] Is a directory: '" +:+ p +:+ "'"
  | OSError p => "Destination path '" +:+ p +:+ "' already exists"
  | _ => "error"
  end.

(** [FileOperationsThread.run] on the file-system model. *)
Definition file_operations (cwd : list string)
    (operations : list FileOps.operation) (fs : FS.files)
  : FS.files * list FileOps.signal :=
  FileOps.run (os_rename cwd) (shutil_move cwd) (os_path_isdir cwd)
    (shutil_rmtree cwd) (os_remove cwd) exn_str operations fs.

(** What lies outside the program. *)
Record environment : Type := Environment {
  percent : Z -> Z -> Z;
  jitter : nat -> Q;
  net : string -> Downloader.network;
  archive : FS.files -> string -> result (list Unzip.zipinfo);
  process : list string -> FS.files -> FS.files * Z
}.

(** How the run of the event loop ends. *)
Record halt : Type := Halt {
  h_fs : FS.files;
  h_gui : gui;
  h_end : next
}.

Section Loop.

Variable env : environment.
Variable cwd : list string.
Variable systems_data : Z -> option system.
Variable boxes : checkboxes.
Variable current_index : Z.
Variable quote : string -> string.
Variable head_content_length : string -> option Z.
Variable windows : bool.
Variable cpu_count : Z.
Variable ps3dec_binary : string.

Definition enter_method (c : callback) (fs : FS.files) (g : gui)
  : FS.files * gui * next :=
  enter cwd systems_data boxes current_index quote head_content_length
    windows cpu_count ps3dec_binary (archive env) c fs g.

(** One turn of the event loop on what the last method left behind: a
    worker runs to its end and, when it emits its completion signal, the
    connected method is entered.  [None]: nothing more can happen. *)
Definition turn (n : next) (fs : FS.files) (g : gui)
  : option (FS.files * gui * next) :=
  match n with
  | call c => Some (enter_method c fs g)
  | start_DownloadThread url filename on_finished =>
      match Downloader.run (percent env) (jitter env) (fun _ => false) cwd
              (net env url) (Downloader.init url filename 50) fs with
      | (s, None) => Some (enter_method on_finished (Downloader.st_fs s) g)
      | (s, Some e) => Some (Downloader.st_fs s, g, unhandled e)
      end
  | start_UnzipRunner zip_path output_path on_finished_signal =>
      match Unzip.run (percent env) (fun _ => false) cwd
              (archive env fs zip_path) (Unzip.init zip_path output_path)
              fs with
      | (s, None) =>
          Some (enter_method
                  (on_finished_signal
                     (Unzip.extracted_files (Unzip.st_runner s)))
                  (Unzip.st_fs s) g)
      | (s, Some e) => Some (Unzip.st_fs s, g, unhandled e)
      end
  | start_CommandRunner command on_finished =>
      let '(fs, returncode) := process env command fs in
      match CommandRunner_run command returncode with
      | Ok _ => Some (enter_method on_finished fs g)
      | Raise e => Some (fs, g, unhandled e)
      end
  | start_SplitIsoThread file_path on_finished =>
      match Splitter.SplitIsoThread_run cwd fs file_path with
      | None => None
      | Some out =>
          match Splitter.out_raised out with
          | Some e => Some (Splitter.out_fs out, g, unhandled e)
          | None =>
              let split_files :=
                match List.last (Splitter.out_signals out)
                        (Splitter.finished []) with
                | Splitter.finished l => l
                | _ => []
                end in
              Some (enter_method (on_finished split_files)
                      (Splitter.out_fs out) g)
          end
      end
  | start_FileOperationsThread operations on_finished_signal =>
      let '(fs, _) := file_operations cwd operations fs in
      Some (enter_method on_finished_signal fs g)
  | other_pipeline _ | nothing_scheduled | unhandled _ => None
  end.

(** The event loop, for at most [fuel] turns.  A direct call of a method
    is a turn like the delivery of a signal; the depth of the
    interpreter's stack, which a long chain of direct calls can exhaust,
    is not modelled. *)
Fixpoint loop (fuel : nat) (n : next) (fs : FS.files) (g : gui)
  : option halt :=
  match turn n fs g with
  | None => Some (Halt fs g n)
  | Some (fs', g', n') =>
      match fuel with
      | O => None
      | S fuel' => loop fuel' n' fs' g'
      end
  end.

(** [start_download]. *)
Definition start_download (fuel : nat) (fs : FS.files) (g : gui)
  : option halt :=
  loop fuel (call cb_process_next_item) fs
    (Gui (queue_list g) (queue_txt g) (processed_items g) (total_items g)
       false).

End Loop.

End EventLoop.

(** ** The catalog of a system ([GetSoftwareListThread]) *)

Module SoftwareList.

(** A row of an ISO list: the file name and the size as the page prints
    it. *)
Definition entry : Type := string * string.

(** The cache file [json_file]: not there; there, but [open] or the
    decoding of its bytes raises; readable but not valid JSON; holding a
    JSON list of [name, size] pairs; or holding some other JSON value, of
    which the text and the truth value matter. *)
Inductive cache : Type :=
  | absent
  | unreadable
  | not_json
  | holds (iso_list : list entry)
  | holds_other (text : string) (truthy : bool).

(** An anchor of the page: its [href] attribute, if it has one, and the
    text of the next [td] cell of class [size], if there is one. *)
Record link : Type := Link {
  href : option string;
  size_cell : option string
}.

(** What a run leaves behind: the cache file, what was sent with [signal]
    (if the signal was emitted) and whether [requests.get] was called.
    The signal carries what [iso_list] is bound to: a list of entries
    ([out_signal]) or, when the cache holds another JSON value, the text
    of that value ([out_signal_other]). *)
Record outcome : Type := Outcome {
  out_cache : cache;
  out_signal : option (list entry);
  out_signal_other : option string;
  out_fetched : bool
}.

Section Run.

(** [urllib.parse.unquote] and [str.strip]. *)
Variable unquote : string -> string.
Variable strip : string -> string.

(** [requests.get(self.url)] as BeautifulSoup parses it: the anchors of the
    page in document order; [None] when the request raises. *)
Variable page : option (list link).

(** [self.running] as read before the download and before the signal;
    [stop()] may be called in between. *)
Variable running_before_fetch : bool.
Variable running_at_end : bool.

(** [soup.find_all('a', href=lambda href: href and href.endswith('.zip'))]. *)
Definition zip_links (links : list link) : list link :=
  List.filter (fun l => match href l with
                        | Some h => Py.endswith h ".zip"
                        | None => false
                        end) links.

(** The list comprehension over the anchors; [None] when an anchor is not
    followed by a size cell, since [.text] of [None] raises. *)
Definition build (links : list link) : option (list entry) :=
  mapM (fun l => match href l, size_cell l with
                 | Some h, Some size => Some (unquote h, strip size)
                 | _, _ => None
                 end)
    (zip_links links).

(** [GetSoftwareListThread.run]; an exception is caught by the outer
    [except] and ends the run without a signal.  With [rebuild] the cache
    file is not read. *)
Definition run (rebuild : bool) (c : cache) : outcome :=
  let fetch :=
    match page with
    | None => Outcome c None None true
    | Some links =>
        match build links with
        | None => Outcome c None None true
        | Some iso_list =>
            Outcome (holds iso_list)
              (if running_at_end then Some iso_list else None) None true
        end
    end in
  match (if rebuild then absent else c) with
  | unreadable => Outcome c None None false
  | holds ((_ :: _) as iso_list) =>
      Outcome c (if running_at_end then Some iso_list else None) None false
  | holds_other text true =>
      Outcome c None (if running_at_end then Some text else None) false
  | holds_other text false =>
      if running_before_fetch then fetch
      else Outcome c None (if running_at_end then Some text else None) false
  | absent | not_json | holds [] =>
      if running_before_fetch then fetch
      else Outcome c (if running_at_end then Some [] else None) None false
  end.

End Run.

(** *** Vocabulary of the catalog's specification *)


End SoftwareList.

(** ** The result table ([update_results]) *)

Module Results.

Import SoftwareList.

(** [c.isspace()] on ASCII text. *)
Definition is_space (c : ascii) : bool :=
  let n := nat_of_ascii c in
  (bool_decide (9 <= n)%nat && bool_decide (n <= 13)%nat)
  || (bool_decide (28 <= n)%nat && bool_decide (n <= 32)%nat).

(** [s.split()]: the maximal runs of characters that are not white
    space. *)
Fixpoint words (s : string) : list string :=
  match s with
  | EmptyString => []
  | String c s' =>
      if is_space c then words s'
      else
        match s' with
        | EmptyString => [String c EmptyString]
        | String c' _ =>
            if is_space c' then String c EmptyString :: words s'
            else match words s' with
                 | w :: ws => String c w :: ws
                 | [] => [String c EmptyString]
                 end
        end
  end.

(** [word in s]. *)
Fixpoint is_in (word s : string) : bool :=
  Py.startswith s word
  || match s with
     | EmptyString => false
     | String _ s' => is_in word s'
     end.

(** [all(word in name.lower() for word in search_term)]. *)
Definition matches (search_term : list string) (name : string) : bool :=
  forallb (fun word => is_in word (Py.lower name)) search_term.

(** [system['list']]: the placeholder that [__init__] stores, a list
    holding one string, or the list set by [set_system_list]. *)
Inductive listing : Type :=
  | loading
  | loaded (iso_list : list entry).

Definition placeholder : string := "Loading... this will take a moment".

(** A row of the table: the display name, the size and the full file name
    kept under [Qt.UserRole]. *)
Definition row : Type := string * string * string.

(** The rows that [update_results] and [set_system_list] write. *)
Definition table (iso_list : list entry) : list row :=
  map (fun item => (fst (Py.splitext item.1), item.2, item.1)) iso_list.

(** [filtered_list] for a loaded list. *)
Definition filtered_list (text : string) (list_to_search : list entry)
  : list entry :=
  List.filter (fun item => matches (words (Py.lower text)) item.1)
    list_to_search.

(** [update_results]; [system] is [self.systems_data.get(index)].  With
    the placeholder in place [item[0]] is its first character, and a
    placeholder that passes the filter cannot be unpacked into a name and
    a size: [None] stands for that [ValueError]. *)
Definition update_results (text : string) (system : option listing)
  : option (list row) :=
  match system with
  | None => Some []
  | Some (loaded iso_list) => Some (table (filtered_list text iso_list))
  | Some loading =>
      if matches (words (Py.lower text)) (substring 0 1 placeholder)
      then None
      else Some []
  end.

End Results.

(** ** Archives that hold several files ([handle_extracted_folder]) *)

Module MultiFile.

Section Folder.

(** [os.path.exists], for files and directories alike. *)
Variable path_exists : string -> bool.

(** [f"{dest_dir}_{count}"]. *)
Definition candidate (dest_dir : string) (count : nat) : string :=
  dest_dir +:+ "_" +:+ Py.str count.

(** The [while os.path.exists(new_dest_dir)] loop, entered with [count];
    [None] when it is still running after [fuel] tests. *)
Fixpoint new_dest_dir (fuel : nat) (dest_dir : string) (count : nat)
  : option string :=
  match fuel with
  | O => None
  | S fuel' =>
      if path_exists (candidate dest_dir count)
      then new_dest_dir fuel' dest_dir (S count)
      else Some (candidate dest_dir count)
  end.

(** [handle_extracted_folder]: the operations handed to the executor. *)
Definition handle_extracted_folder (fuel : nat)
    (extract_dir base_name output_dir : string)
  : option (list FileOps.operation) :=
  let dest_dir := Py.join output_dir base_name in
  let chosen :=
    if path_exists dest_dir then new_dest_dir fuel dest_dir 1
    else Some dest_dir in
  match chosen with
  | None => None
  | Some dest_dir =>
      let zip_file := Py.join GUI.processing_dir (base_name +:+ ".zip") in
      Some (FileOps.move extract_dir dest_dir
            :: (if path_exists zip_file then [FileOps.remove zip_file]
                else []))
  end.

End Folder.

End MultiFile.

(** ** Archives of one file ([download_file]) *)

Module Plain.

Section Files.

Variable cwd : list string.

(** [handle_extracted_files]: the operations handed to the executor. *)
Definition handle_extracted_files (fs : FS.files)
    (extracted_files : list string)
    (base_name file_extension output_dir : string)
  : list FileOps.operation :=
  flat_map
    (fun file =>
       if Py.endswith file file_extension then
         let new_file_path :=
           Py.join GUI.processing_dir (base_name +:+ file_extension) in
         [FileOps.rename file new_file_path;
          FileOps.move new_file_path
            (Py.join output_dir (Py.basename new_file_path))]
       else [])
    extracted_files
  ++ (let zip_file := Py.join GUI.processing_dir (base_name +:+ ".zip") in
      if FS.exists_ cwd fs zip_file then [FileOps.remove zip_file] else []).

End Files.

End Plain.

(** * Verification *)

(** ** Facts about the Python string and path functions *)

#[local] Arguments Ascii.eqb : simpl never.

Section PyFacts.

Import Py.

Lemma append_cons (a : ascii) (s t : string) :
  String a s +:+ t = String a (s +:+ t).
Proof. reflexivity. Qed.

Lemma append_nil_l (s : string) : "" +:+ s = s.
Proof. reflexivity. Qed.

Lemma append_nil_r (s : string) : s +:+ "" = s.
Proof.
  induction s as [|a s IH]; [reflexivity |]. now rewrite append_cons, IH.
Qed.

Lemma append_assoc (a b c : string) : (a +:+ b) +:+ c = a +:+ b +:+ c.
Proof.
  induction a as [|x a IH]; [reflexivity |]. now rewrite !append_cons, IH.
Qed.

Lemma length_append (a b : string) :
  String.length (a +:+ b) = (String.length a + String.length b)%nat.
Proof.
  induction a as [|x a IH]; [reflexivity |].
  rewrite append_cons. simpl. now rewrite IH.
Qed.

Lemma contains_append (c : ascii) (a b : string) :
  contains c (a +:+ b) = contains c a || contains c b.
Proof.
  induction a as [|x a IH]; [reflexivity |].
  rewrite append_cons. simpl. rewrite IH. now destruct (Ascii.eqb x c).
Qed.

Lemma rsplit_None (c : ascii) (s : string) :
  rsplit c s = None <-> contains c s = false.
Proof.
  induction s as [|a s IH]; simpl; [tauto |].
  destruct (rsplit c s) as [[l r]|].
  - split; [discriminate |]. intros H.
    apply orb_false_iff in H as [_ H]. apply IH in H. discriminate.
  - destruct IH as [IH _]. rewrite (IH eq_refl), orb_false_r.
    destruct (Ascii.eqb a c); split; congruence.
Qed.

Lemma rsplit_Some (c : ascii) (s l r : string) :
  rsplit c s = Some (l, r) ->
  s = l +:+ String c r /\ contains c r = false.
Proof.
  revert l. induction s as [|a s IH]; intros l; simpl; [discriminate |].
  destruct (rsplit c s) as [[l' r']|] eqn:E.
  - intros [= <- <-]. destruct (IH l' eq_refl) as [-> Hr]. now split.
  - destruct (Ascii.eqb a c) eqn:Ea; [|discriminate].
    intros [= <- <-]. apply Ascii.eqb_eq in Ea as ->.
    split; [reflexivity |]. now apply rsplit_None.
Qed.

Lemma split_not_nil (c : ascii) (s : string) : split c s <> [].
Proof.
  destruct s as [|a s]; simpl; [discriminate |].
  destruct (Ascii.eqb a c); [discriminate |].
  destruct (split c s); discriminate.
Qed.

Lemma split_sep (c : ascii) (l r : string) :
  split c (l +:+ String c r) = split c l ++ split c r.
Proof.
  induction l as [|a l IH].
  - rewrite append_nil_l. simpl. now rewrite Ascii.eqb_refl.
  - rewrite append_cons. simpl. rewrite IH.
    destruct (Ascii.eqb a c); [reflexivity |].
    destruct (split c l) as [|w ws] eqn:E; [|reflexivity].
    now apply split_not_nil in E.
Qed.

Lemma split_whole (c : ascii) (s : string) :
  contains c s = false -> split c s = [s].
Proof.
  induction s as [|a s IH]; simpl; [reflexivity |].
  intros H. apply orb_false_iff in H as [-> H]. now rewrite (IH H).
Qed.

Lemma split_Forall (c : ascii) (s : string) :
  Forall (fun w => contains c w = false) (split c s).
Proof.
  induction s as [|a s IH]; simpl; [repeat constructor |].
  destruct (Ascii.eqb a c) eqn:Ea; [now constructor |].
  destruct (split c s) as [|w ws]; [repeat constructor; simpl; now rewrite Ea |].
  inversion IH; subst. constructor; [simpl; now rewrite Ea | assumption].
Qed.

(** A path is its directory prefix followed by its final component, and
    the final component holds no slash. *)
Lemma dirprefix_basename (p : string) :
  p = dirprefix p +:+ basename p /\ contains "/" (basename p) = false.
Proof.
  unfold dirprefix, basename.
  destruct (rsplit "/" p) as [[l r]|] eqn:E.
  - apply rsplit_Some in E as [-> Hr]. now rewrite append_assoc.
  - now apply rsplit_None in E.
Qed.

Lemma split_dirprefix (p n : string) :
  contains "/" n = false ->
  split "/" (dirprefix p +:+ n)
  = match rsplit "/" p with
    | Some (l, _) => split "/" l ++ [n]
    | None => [n]
    end.
Proof.
  intros Hn. unfold dirprefix.
  destruct (rsplit "/" p) as [[l r]|].
  - rewrite append_assoc. change ("/" +:+ n) with (String "/" n).
    now rewrite split_sep, (split_whole _ _ Hn).
  - now apply split_whole.
Qed.

Lemma startswith_dirprefix (p n : string) :
  contains "/" n = false ->
  startswith (dirprefix p +:+ n) "/" = startswith (dirprefix p) "/".
Proof.
  intros Hn. unfold dirprefix.
  destruct (rsplit "/" p) as [[l r]|].
  - destruct l as [|a l]; [reflexivity |].
    rewrite !append_cons. simpl. now destruct (Ascii.eqb "/" a).
  - rewrite append_nil_l. destruct n as [|a n]; [reflexivity |].
    simpl in *. apply orb_false_iff in Hn as [Ha _].
    now rewrite Ascii.eqb_sym, Ha.
Qed.

End PyFacts.

(** ** Facts about path resolution *)

Section ResolveFacts.

Import Py.

Lemma proper_name_long (n : string) :
  (2 < String.length n)%nat -> FS.proper_name n = true.
Proof.
  intros H. unfold FS.proper_name.
  apply negb_true_iff. rewrite !orb_false_iff.
  repeat split; apply String.eqb_neq; intros ->; simpl in H; lia.
Qed.

Lemma step_proper (acc : list string) (n : string) :
  FS.proper_name n = true -> FS.step acc n = acc ++ [n].
Proof.
  unfold FS.proper_name, FS.step. intros H.
  apply negb_true_iff, orb_false_iff in H as [H ->].
  now rewrite H.
Qed.

(** A proper name appended to a directory prefix resolves to an entry of
    the directory that the prefix resolves to. *)
Lemma resolve_in_dir (cwd : list string) (p n : string) :
  contains "/" n = false -> FS.proper_name n = true ->
  FS.resolve cwd (dirprefix p +:+ n) = FS.resolve cwd (dirprefix p) ++ [n].
Proof.
  intros Hn Hp. unfold FS.resolve, FS.is_absolute.
  rewrite (startswith_dirprefix p n Hn), (split_dirprefix p n Hn).
  unfold dirprefix. destruct (rsplit "/" p) as [[l r]|].
  - change (l +:+ "/") with (l +:+ String "/" "").
    rewrite split_sep, !fold_left_app. simpl.
    now rewrite (step_proper _ _ Hp).
  - simpl. now rewrite (step_proper _ _ Hp).
Qed.

Lemma resolve_file_Some (cwd : list string) (p : string) (k : list string) :
  FS.resolve_file cwd p = Some k ->
  FS.proper_name (basename p) = true /\
  k = FS.resolve cwd (dirprefix p) ++ [basename p].
Proof.
  unfold FS.resolve_file. destruct (FS.proper_name (basename p)) eqn:Hp;
    [|discriminate].
  intros [= <-]. split; [reflexivity |].
  destruct (dirprefix_basename p) as [Hsplit Hn].
  rewrite Hsplit at 1. now apply resolve_in_dir.
Qed.

Lemma resolve_file_in_dir (cwd : list string) (p n : string) :
  contains "/" n = false -> FS.proper_name n = true ->
  FS.resolve_file cwd (dirprefix p +:+ n)
  = Some (FS.resolve cwd (dirprefix p) ++ [n]).
Proof.
  intros Hn Hp. unfold FS.resolve_file.
  assert (basename (dirprefix p +:+ n) = n) as Hb.
  { unfold basename, dirprefix. destruct (rsplit "/" p) as [[l r]|].
    - rewrite append_assoc. change ("/" +:+ n) with (String "/" n).
      destruct (rsplit "/" (l +:+ String "/" n)) as [[l' r']|] eqn:E.
      + apply rsplit_Some in E as [E Hr'].
        assert (split "/" (l +:+ String "/" n)
                = split "/" (l' +:+ String "/" r')) as Hs by now rewrite E.
        rewrite !split_sep, (split_whole _ _ Hn), (split_whole _ _ Hr') in Hs.
        now apply app_inj_tail in Hs as [_ [= ->]].
      + apply rsplit_None in E. rewrite contains_append in E.
        simpl in E. rewrite ?Ascii.eqb_refl in E.
        destruct (contains "/" l); discriminate.
    - rewrite append_nil_l. apply rsplit_None in Hn. now rewrite Hn. }
  rewrite Hb, Hp. f_equal. now apply resolve_in_dir.
Qed.

(** A name without a slash, used as a relative path, lands in the current
    working directory. *)
Lemma resolve_file_relative (cwd : list string) (n : string) :
  contains "/" n = false -> FS.proper_name n = true ->
  FS.resolve_file cwd n = Some (cwd ++ [n]).
Proof.
  intros Hn Hp.
  pose proof (resolve_file_in_dir cwd "" n Hn Hp) as H.
  exact H.
Qed.

End ResolveFacts.

(** ** Facts about the names of the parts *)

Section NameFacts.

Import Py.

Lemma digit_val_char (x : N) :
  (x < 10)%N -> digit_val (pretty_N_char x) = x.
Proof.
  intros H.
  assert (x = 0 \/ x = 1 \/ x = 2 \/ x = 3 \/ x = 4 \/ x = 5 \/ x = 6
          \/ x = 7 \/ x = 8 \/ x = 9)%N as Hx by lia.
  repeat (destruct Hx as [-> | Hx]; [reflexivity |]). now subst.
Qed.

Lemma pretty_N_char_not (c : ascii) (x : N) :
  (nat_of_ascii c < 48 \/ 57 < nat_of_ascii c)%nat ->
  Ascii.eqb (pretty_N_char x) c = false.
Proof.
  intros H. apply Ascii.eqb_neq. intros <-.
  unfold pretty_N_char in H.
  repeat case_match; vm_compute in H; lia.
Qed.

Lemma digits_val_go (x : N) (s : string) :
  digits_val (pretty_N_go x s)
  = (x * 10 ^ N.of_nat (String.length s) + digits_val s)%N.
Proof.
  revert s. induction (N.lt_wf_0 x) as [x _ IH]. intros s.
  destruct (decide (x = 0%N)) as [-> | Hx].
  - now rewrite pretty_N_go_0.
  - rewrite pretty_N_go_step by lia.
    rewrite IH by (apply N.div_lt; lia).
    cbn [digits_val String.length].
    rewrite digit_val_char by (apply N.mod_lt; lia).
    rewrite Nat2N.inj_succ, N.pow_succ_r'.
    pose proof (N.div_mod x 10 ltac:(lia)) as Hd.
    set (q := (x `div` 10)%N) in *. set (m := (x `mod` 10)%N) in *.
    set (t := (10 ^ N.of_nat (String.length s))%N). lia.
Qed.

Lemma digits_val_pretty (x : N) : digits_val (pretty x) = x.
Proof.
  unfold pretty, pretty_N. case_decide as Hx; [now subst |].
  rewrite digits_val_go. simpl. lia.
Qed.

Lemma digits_val_zeros (k : nat) (s : string) :
  digits_val (String.concat "" (replicate k "0") +:+ s) = digits_val s.
Proof.
  induction k as [|k IH]; [reflexivity |].
  assert (String.concat "" (replicate (S k) "0") +:+ s
          = String "0" (String.concat "" (replicate k "0") +:+ s)) as ->.
  { simpl. destruct (replicate k "0") eqn:E; [|reflexivity].
    destruct k; [reflexivity | discriminate]. }
  cbn [digits_val]. rewrite IH. reflexivity.
Qed.

(** [str(i).zfill(2)] determines [i]. *)
Lemma zfill_str_inj (w i j : nat) :
  zfill w (str i) = zfill w (str j) -> i = j.
Proof.
  intros H. apply (f_equal digits_val) in H.
  unfold zfill, str, pretty, pretty_nat in H.
  rewrite !digits_val_zeros, !digits_val_pretty in H. lia.
Qed.

Lemma contains_go (c : ascii) (x : N) (s : string) :
  (nat_of_ascii c < 48 \/ 57 < nat_of_ascii c)%nat ->
  contains c (pretty_N_go x s) = contains c s.
Proof.
  intros Hc. revert s. induction (N.lt_wf_0 x) as [x _ IH]. intros s.
  destruct (decide (x = 0%N)) as [-> | Hx].
  - now rewrite pretty_N_go_0.
  - rewrite pretty_N_go_step by lia.
    rewrite IH by (apply N.div_lt; lia).
    simpl. now rewrite pretty_N_char_not.
Qed.

Lemma contains_str (c : ascii) (i : nat) :
  (nat_of_ascii c < 48 \/ 57 < nat_of_ascii c)%nat ->
  contains c (str i) = false.
Proof.
  intros Hc. unfold str, pretty, pretty_nat, pretty, pretty_N.
  case_decide.
  - simpl. rewrite orb_false_r.
    apply Ascii.eqb_neq. intros <-. vm_compute in Hc. lia.
  - now rewrite contains_go.
Qed.

Lemma contains_zfill (c : ascii) (w i : nat) :
  (nat_of_ascii c < 48 \/ 57 < nat_of_ascii c)%nat ->
  contains c (zfill w (str i)) = false.
Proof.
  intros Hc. unfold zfill. rewrite contains_append, (contains_str c i Hc).
  rewrite orb_false_r.
  induction (w - String.length (str i))%nat as [|k IH]; [reflexivity |].
  assert (String.concat "" (replicate (S k) "0")
          = String "0" (String.concat "" (replicate k "0"))) as ->.
  { simpl. destruct (replicate k "0") eqn:E; [|reflexivity].
    destruct k; [reflexivity | discriminate]. }
  simpl. rewrite IH, orb_false_r.
  apply Ascii.eqb_neq. intros <-. vm_compute in Hc. lia.
Qed.

End NameFacts.

Section PartNames.

Import Py.

Lemma splitext_fst (p : string) :
  fst (splitext p) = dirprefix p +:+ splitext_root p.
Proof.
  unfold splitext, splitext_root.
  destruct (rsplit "." (basename p)) as [[l r]|];
    [destruct (all_char "." l) |]; simpl;
    try reflexivity; apply dirprefix_basename.
Qed.

Lemma splitext_root_cases (p : string) :
  basename p = splitext_root p \/
  exists r, basename p = splitext_root p +:+ String "." r
            /\ contains "." r = false.
Proof.
  unfold splitext_root.
  destruct (rsplit "." (basename p)) as [[l r]|] eqn:E; [|now left].
  destruct (all_char "." l); [now left |].
  right. exists r. now apply rsplit_Some.
Qed.

Lemma splitext_root_no_slash (p : string) :
  contains "/" (splitext_root p) = false.
Proof.
  destruct (dirprefix_basename p) as [_ Hb].
  destruct (splitext_root_cases p) as [<- | (r & Hr & _)]; [exact Hb |].
  rewrite Hr, contains_append in Hb. now apply orb_false_iff in Hb.
Qed.

(** A stem followed by a suffix with two dots is never the name that the
    stem was cut from. *)
Lemma stem_suffix_ne (name stem a b : string) :
  (name = stem \/
   exists r, name = stem +:+ String "." r /\ contains "." r = false) ->
  stem +:+ String "." (a +:+ String "." b) <> name.
Proof.
  intros [-> | (r & -> & Hr)] H.
  - apply (f_equal String.length) in H.
    rewrite length_append in H. simpl in H. lia.
  - apply String.app_inj in H. injection H as <-.
    rewrite contains_append in Hr. simpl in Hr.
    rewrite ?Ascii.eqb_refl in Hr.
    destruct (contains "." a); discriminate.
Qed.

Lemma iso_part_name_eq (p : string) (i : nat) :
  Splitter.iso_part_name p i = dirprefix p +:+ Splitter.iso_name p i.
Proof.
  unfold Splitter.iso_part_name, Splitter.iso_name.
  now rewrite splitext_fst, append_assoc.
Qed.

Lemma iso_name_no_slash (p : string) (i : nat) :
  contains "/" (Splitter.iso_name p i) = false.
Proof.
  unfold Splitter.iso_name. rewrite !contains_append, splitext_root_no_slash.
  rewrite contains_str by (vm_compute; lia). reflexivity.
Qed.

Lemma iso_name_proper (p : string) (i : nat) :
  FS.proper_name (Splitter.iso_name p i) = true.
Proof.
  apply proper_name_long. unfold Splitter.iso_name.
  rewrite !length_append. simpl. lia.
Qed.

(** Where [SplitIsoThread] puts part [i]: beside the source. *)
Lemma iso_part_key (cwd : list string) (p : string) (i : nat) :
  FS.resolve_file cwd (Splitter.iso_part_name p i)
  = Some (FS.resolve cwd (dirprefix p) ++ [Splitter.iso_name p i]).
Proof.
  rewrite iso_part_name_eq.
  apply resolve_file_in_dir; [apply iso_name_no_slash | apply iso_name_proper].
Qed.

Lemma iso_name_inj (p : string) (i j : nat) :
  Splitter.iso_name p i = Splitter.iso_name p j -> i = j.
Proof.
  unfold Splitter.iso_name, str. intros H.
  apply String.app_inj, String.app_inj in H.
  now apply (inj pretty) in H.
Qed.

Lemma iso_name_ne_source (p : string) (i : nat) :
  Splitter.iso_name p i <> basename p.
Proof.
  unfold Splitter.iso_name.
  change (".iso." +:+ str i) with (String "." ("iso" +:+ String "." (str i))).
  apply stem_suffix_ne, splitext_root_cases.
Qed.

Lemma last_Forall {A} (P : A -> Prop) (l : list A) (d : A) :
  Forall P l -> P d -> P (List.last l d).
Proof.
  intros Hl Hd. induction Hl as [|x l Hx Hl IH]; [exact Hd |].
  destruct l; [exact Hx | exact IH].
Qed.

Lemma path_name_no_slash (p : string) : contains "/" (path_name p) = false.
Proof.
  unfold path_name, pure_parts.
  apply (last_Forall (fun w => contains "/" w = false)); [|reflexivity].
  apply Forall_forall. intros w Hw.
  apply list_elem_of_filter in Hw as [_ Hw].
  pose proof (split_Forall "/" p) as HF.
  rewrite Forall_forall in HF. now apply HF.
Qed.

Lemma path_name_basename (p : string) :
  FS.proper_name (basename p) = true -> path_name p = basename p.
Proof.
  intros Hp. unfold path_name, pure_parts.
  destruct (dirprefix_basename p) as [Hsplit Hn].
  rewrite Hsplit at 1. rewrite (split_dirprefix p _ Hn).
  assert (basename p <> "" /\ basename p <> ".") as Hkeep.
  { unfold FS.proper_name in Hp.
    apply negb_true_iff in Hp. rewrite !orb_false_iff in Hp.
    destruct Hp as [[H1 H2] _]. now apply String.eqb_neq in H1, H2. }
  destruct (rsplit "/" p) as [[l r]|].
  - rewrite filter_app, filter_cons_True by exact Hkeep.
    rewrite filter_nil. apply last_last.
  - now rewrite filter_cons_True by exact Hkeep.
Qed.

Lemma path_stem_cases (p : string) :
  path_name p = path_stem p \/
  exists r, path_name p = path_stem p +:+ String "." r
            /\ contains "." r = false.
Proof.
  unfold path_stem.
  destruct (rsplit "." (path_name p)) as [[l r]|] eqn:E; [|now left].
  destruct (String.eqb l "" || String.eqb r ""); [now left |].
  right. exists r. now apply rsplit_Some.
Qed.

Lemma path_stem_no_slash (p : string) : contains "/" (path_stem p) = false.
Proof.
  pose proof (path_name_no_slash p) as Hb.
  destruct (path_stem_cases p) as [<- | (r & Hr & _)]; [exact Hb |].
  rewrite Hr, contains_append in Hb. now apply orb_false_iff in Hb.
Qed.

Lemma pkg_part_no_slash (p : string) (i : nat) :
  contains "/" (Splitter.pkg_part_name p i) = false.
Proof.
  unfold Splitter.pkg_part_name.
  rewrite !contains_append, path_stem_no_slash.
  rewrite contains_zfill by (vm_compute; lia). reflexivity.
Qed.

Lemma pkg_part_proper (p : string) (i : nat) :
  FS.proper_name (Splitter.pkg_part_name p i) = true.
Proof.
  apply proper_name_long. unfold Splitter.pkg_part_name.
  rewrite !length_append. simpl. lia.
Qed.

(** Where [SplitPkgThread] puts part [i]: in the current working
    directory, whatever the directory of the source. *)
Lemma pkg_part_key (cwd : list string) (p : string) (i : nat) :
  FS.resolve_file cwd (Splitter.pkg_part_name p i)
  = Some (cwd ++ [Splitter.pkg_part_name p i]).
Proof.
  apply resolve_file_relative; [apply pkg_part_no_slash | apply pkg_part_proper].
Qed.

Lemma pkg_part_inj (p : string) (i j : nat) :
  Splitter.pkg_part_name p i = Splitter.pkg_part_name p j -> i = j.
Proof.
  unfold Splitter.pkg_part_name. intros H.
  apply String.app_inj, String.app_inj in H.
  now apply zfill_str_inj in H.
Qed.

Lemma pkg_part_ne_source (p : string) (i : nat) :
  FS.proper_name (basename p) = true ->
  Splitter.pkg_part_name p i <> basename p.
Proof.
  intros Hp. rewrite <- (path_name_basename p Hp).
  unfold Splitter.pkg_part_name.
  change (".pkg.666" +:+ zfill 2 (str i))
    with (String "." ("pkg" +:+ String "." ("666" +:+ zfill 2 (str i)))).
  apply stem_suffix_ne, path_stem_cases.
Qed.

End PartNames.

(** ** Reading a list in chunks *)

Section Chunks.

Context {A : Type}.
Implicit Types l : list A.

Import Splitter.

Lemma chunks_go_fuel (fuel fuel' n : nat) l :
  (0 < n)%nat -> (length l <= fuel)%nat -> (length l <= fuel')%nat ->
  chunks_go fuel n l = chunks_go fuel' n l.
Proof.
  intros Hn. revert fuel' l.
  induction fuel as [|fuel IH]; intros fuel' l Hl Hl'.
  - destruct l; [now destruct fuel' | simpl in Hl; lia].
  - destruct l as [|x l]; [now destruct fuel' |].
    cbn [length] in Hl, Hl'. destruct fuel' as [|fuel']; [lia |].
    cbn [chunks_go]. f_equal.
    assert (length (drop n (x :: l)) <= length l)%nat as Hd.
    { rewrite length_drop. cbn [length]. lia. }
    apply IH; lia.
Qed.

Lemma chunks_go_enough (fuel n : nat) l :
  (0 < n)%nat -> (length l <= fuel)%nat ->
  chunks_go fuel n l = chunks n l.
Proof. intros Hn Hl. now apply chunks_go_fuel. Qed.

Lemma chunks_nil (n : nat) : chunks n (@nil A) = [].
Proof. reflexivity. Qed.

Lemma chunks_cons (n : nat) l :
  (0 < n)%nat -> l <> [] ->
  chunks n l = take n l :: chunks n (drop n l).
Proof.
  intros Hn Hl. destruct l as [|x l]; [congruence |].
  unfold chunks at 1. cbn [chunks_go length]. f_equal.
  apply chunks_go_enough; [exact Hn |].
  rewrite length_drop. cbn [length]. lia.
Qed.

(** Induction on a list, [n] items at a time. *)
Lemma chunk_ind (n : nat) (Hn : (0 < n)%nat) (P : list A -> Prop) :
  P [] ->
  (forall l, l <> [] -> P (drop n l) -> P l) ->
  forall l, P l.
Proof.
  intros Hnil Hstep l.
  remember (length l) as m eqn:Hm. revert l Hm.
  induction (lt_wf m) as [m _ IH]. intros l ->.
  destruct l as [|x l]; [exact Hnil |].
  apply Hstep; [discriminate |].
  apply (IH (length (drop n (x :: l)))); [|reflexivity].
  rewrite length_drop. cbn [length]. lia.
Qed.

Lemma concat_chunks (n : nat) l : (0 < n)%nat -> concat (chunks n l) = l.
Proof.
  intros Hn. induction l as [|l Hl IH] using (chunk_ind n Hn);
    [reflexivity |].
  rewrite (chunks_cons n l Hn Hl). cbn [concat].
  rewrite IH. apply take_drop.
Qed.

(** Chunk [j] is the [n] items from position [j * n] on. *)
Lemma chunks_lookup (n : nat) l (j : nat) (c : list A) :
  (0 < n)%nat -> chunks n l !! j = Some c ->
  c = take n (drop (j * n) l) /\ c <> [].
Proof.
  intros Hn. revert j.
  induction l as [|l Hl IH] using (chunk_ind n Hn); intros j.
  - rewrite chunks_nil. intros H. inversion H.
  - rewrite (chunks_cons n l Hn Hl). destruct j as [|j]; cbn [lookup list_lookup].
    + intros [= <-]. split; [reflexivity |].
      destruct l; [congruence |]. destruct n; [lia | discriminate].
    + intros H. apply IH in H as [-> Hc]. split; [|exact Hc].
      rewrite drop_drop. do 2 f_equal; lia.
Qed.

Lemma length_chunks (n : nat) l :
  (0 < n)%nat ->
  Z.of_nat (length (chunks n l))
  = - (- Z.of_nat (length l) / Z.of_nat n).
Proof.
  intros Hn. induction l as [|l Hl IH] using (chunk_ind n Hn);
    [reflexivity |].
  rewrite (chunks_cons n l Hn Hl). cbn [length].
  rewrite Nat2Z.inj_succ, IH, length_drop.
  assert (0 < length l)%nat as Hpos by (destruct l; [congruence | simpl; lia]).
  set (c := Z.of_nat n). set (x := Z.of_nat (length l)).
  assert (0 < c) as Hc by lia. assert (0 < x) as Hx by lia.
  destruct (decide (length l <= n)%nat) as [Hle | Hgt].
  - replace (Z.of_nat (length l - n)) with 0 by lia.
    rewrite Z.div_0_l by lia.
    assert (- x / c = -1) as ->; [|lia].
    symmetry. apply (Z.div_unique_pos _ _ _ (c - x)); lia.
  - replace (Z.of_nat (length l - n)) with (x - c) by lia.
    replace (- x) with (- (x - c) + (-1) * c) by lia.
    rewrite Z.div_add by lia. lia.
Qed.

End Chunks.

(** ** The splitting loop *)

Section SplitLoop.

Import Splitter.

Variable cwd : list string.
Variable file_path : string.
Variable part_name : nat -> string.
Variable key : nat -> list string.
Variables chunk_size num_parts : Z.
Variable f : list string.
Variable data : list byte.

Hypothesis part_key : forall i, FS.resolve_file cwd (part_name i) = Some (key i).
Hypothesis key_inj : forall i j, key i = key j -> i = j.
Hypothesis key_ne_source : forall i, key i <> f.
Hypothesis chunk_size_pos : 0 < chunk_size.

Lemma write_parts_other (i : nat) (cs : list (list byte)) (fs : FS.files)
    (k : list string) :
  (forall j, k <> key j) -> write_parts key i cs fs !! k = fs !! k.
Proof.
  intros Hk. revert i fs. induction cs as [|c cs IH]; intros i fs;
    [reflexivity |].
  cbn [write_parts]. rewrite IH. apply lookup_insert_ne. auto.
Qed.

Lemma write_parts_before (i j : nat) (cs : list (list byte))
    (fs : FS.files) :
  (j < i)%nat -> write_parts key i cs fs !! key j = fs !! key j.
Proof.
  revert i fs. induction cs as [|c cs IH]; intros i fs Hj; [reflexivity |].
  cbn [write_parts]. rewrite IH by lia. apply lookup_insert_ne.
  intros H. apply key_inj in H. lia.
Qed.

Lemma write_parts_lookup (i j : nat) (cs : list (list byte))
    (fs : FS.files) (c : list byte) :
  cs !! j = Some c -> write_parts key i cs fs !! key (i + j)%nat = Some c.
Proof.
  revert i j fs. induction cs as [|c0 cs IH]; intros i j fs H;
    [inversion H |].
  cbn [write_parts]. destruct j as [|j].
  - injection H as ->. rewrite Nat.add_0_r, write_parts_before by lia.
    apply lookup_insert_eq.
  - replace (i + S j)%nat with (S i + j)%nat by lia. now apply IH.
Qed.

Lemma write_parts_source (i : nat) (cs : list (list byte)) (fs : FS.files) :
  write_parts key i cs fs !! f = fs !! f.
Proof. apply write_parts_other. intros j H. now apply (key_ne_source j). Qed.

Lemma drop_length_take (n : nat) (l : list byte) :
  drop (length (take n l)) l = drop n l.
Proof.
  rewrite length_take. destruct (decide (n <= length l)%nat).
  - now rewrite Nat.min_l.
  - rewrite Nat.min_r by lia. now rewrite !drop_ge by lia.
Qed.

(** The loop writes the chunks of what is left of the source, one part
    each, and reports each part; it ends within [fuel] iterations. *)
Lemma split_loop_chunks (fuel : nat) (fs : FS.files) (offset i : nat) :
  fs !! f = Some data ->
  (length data - offset < fuel)%nat ->
  let cs := chunks (Z.to_nat chunk_size) (drop offset data) in
  split_loop fuel cwd file_path part_name chunk_size num_parts f fs offset i
  = Some (LoopState (write_parts key i cs fs)
            (map part_name (seq i (length cs)))
            (map (fun j => progress_msg file_path j num_parts)
               (seq i (length cs)))
            None).
Proof.
  assert (0 < Z.to_nat chunk_size)%nat as Hn by lia.
  revert fs offset i. induction fuel as [|fuel IH]; intros fs offset i Hf Hfuel;
    [lia |].
  cbv zeta. cbn [split_loop]. unfold FS.read. rewrite Hf.
  change (default [] (Some data)) with data.
  destruct (drop offset data) as [|b rest] eqn:Hrest.
  - rewrite take_nil. reflexivity.
  - set (l := b :: rest) in *.
    assert (l <> []) as Hl by discriminate.
    rewrite (chunks_cons _ l Hn Hl).
    destruct (take (Z.to_nat chunk_size) l) as [|b' chunk'] eqn:Hchunk.
    { subst l. destruct (Z.to_nat chunk_size); [lia | discriminate]. }
    rewrite <- Hchunk. set (chunk := take (Z.to_nat chunk_size) l) in *.
    unfold FS.write_wb. rewrite part_key.
    assert (drop (offset + length chunk) data
            = drop (Z.to_nat chunk_size) l) as Hdrop.
    { rewrite <- drop_drop, Hrest.
      subst chunk. apply drop_length_take. }
    assert (0 < length chunk)%nat as Hlen by (rewrite Hchunk; simpl; lia).
    rewrite (IH (<[key i := chunk]> fs) (offset + length chunk)%nat (S i)).
    + rewrite Hdrop. reflexivity.
    + rewrite lookup_insert_ne by apply key_ne_source. exact Hf.
    + apply (f_equal length) in Hrest. rewrite length_drop in Hrest.
      subst l. cbn [length] in Hrest. lia.
Qed.

End SplitLoop.

(** ** The two splitter threads *)

Section SplitThreads.

Import Splitter.

Lemma read_all_parts (cwd : list string) (part_name : nat -> string)
    (key : nat -> list string) (fs : FS.files) (cs : list (list byte))
    (i : nat) :
  (forall j, FS.resolve_file cwd (part_name j) = Some (key j)) ->
  (forall j c, cs !! j = Some c -> fs !! key (i + j)%nat = Some c) ->
  read_all cwd fs (map part_name (seq i (length cs))) = Some cs.
Proof.
  intros Hkey. revert i. induction cs as [|c cs IH]; intros i Hfs;
    [reflexivity |].
  unfold read_all in *. cbn [length seq map mapM].
  rewrite Hkey. cbn [mbind option_bind].
  rewrite <- (Nat.add_0_r i) at 1. rewrite (Hfs 0%nat c eq_refl).
  cbn [mbind option_bind].
  rewrite (IH (S i)); [reflexivity |].
  intros j c' Hj. replace (S i + j)%nat with (i + S j)%nat by lia.
  now apply Hfs.
Qed.

Lemma ceiling_bounds (size c : Z) :
  0 < c ->
  (- (- size / c) - 1) * c < size <= - (- size / c) * c.
Proof.
  intros Hc. pose proof (Z.div_mod (- size) c ltac:(lia)) as Hd.
  pose proof (Z.mod_pos_bound (- size) c Hc) as Hm. nia.
Qed.

Variable cwd : list string.
Variable fs : FS.files.
Variable file_path : string.
Variable k : list string.
Variable data : list byte.

Hypothesis source_key : FS.resolve_file cwd file_path = Some k.
Hypothesis source_data : fs !! k = Some data.

Lemma getsize_source :
  FS.getsize cwd fs file_path = Ok (Z.of_nat (length data)).
Proof. unfold FS.getsize. now rewrite source_key, source_data. Qed.

(** The [else] branch, for any positive chunk size and any naming policy
    whose names are distinct files other than the source. *)
Lemma split_with_chunks (chunk_size : Z) (part_name : nat -> string)
    (key : nat -> list string) :
  0 < chunk_size ->
  (forall i, FS.resolve_file cwd (part_name i) = Some (key i)) ->
  (forall i j, key i = key j -> i = j) ->
  (forall i, key i <> k) ->
  let cs := chunks (Z.to_nat chunk_size) data in
  let total := - (- Z.of_nat (length data) / chunk_size) in
  split_with chunk_size part_name cwd fs file_path (Z.of_nat (length data))
  = Some (LoopState (write_parts key 0 cs fs)
            (map part_name (seq 0 (length cs)))
            (map (fun j => progress_msg file_path j total)
               (seq 0 (length cs)))
            None).
Proof.
  intros Hc Hkey Hinj Hne. cbv zeta. unfold split_with, FS.open_rb.
  rewrite source_key, source_data, Nat2Z.id.
  rewrite (split_loop_chunks cwd file_path part_name key chunk_size _ k data
             Hkey Hne Hc (S (length data)) fs 0 0 source_data)
    by lia.
  reflexivity.
Qed.

Lemma iso_keys :
  (forall i, FS.resolve_file cwd (iso_part_name file_path i)
             = Some (FS.resolve cwd (Py.dirprefix file_path)
                       ++ [iso_name file_path i])) /\
  (forall i j, FS.resolve cwd (Py.dirprefix file_path)
                 ++ [iso_name file_path i]
               = FS.resolve cwd (Py.dirprefix file_path)
                   ++ [iso_name file_path j] -> i = j) /\
  (forall i, FS.resolve cwd (Py.dirprefix file_path)
               ++ [iso_name file_path i] <> k).
Proof.
  split; [|split].
  - intros i. apply iso_part_key.
  - intros i j H. apply app_inv_head in H. injection H as H.
    now apply iso_name_inj in H.
  - intros i H. destruct (resolve_file_Some _ _ _ source_key) as [_ Hk].
    rewrite Hk in H. apply app_inv_head in H. injection H as H.
    now apply iso_name_ne_source in H.
Qed.

Lemma pkg_keys :
  (forall i, FS.resolve_file cwd (pkg_part_name file_path i)
             = Some (cwd ++ [pkg_part_name file_path i])) /\
  (forall i j, cwd ++ [pkg_part_name file_path i]
               = cwd ++ [pkg_part_name file_path j] -> i = j) /\
  (forall i, cwd ++ [pkg_part_name file_path i] <> k).
Proof.
  split; [|split].
  - intros i. apply pkg_part_key.
  - intros i j H. apply app_inv_head in H. injection H as H.
    now apply pkg_part_inj in H.
  - intros i H.
    destruct (resolve_file_Some _ _ _ source_key) as [Hp Hk].
    rewrite Hk in H. apply app_inj_tail in H as [_ H].
    now apply pkg_part_ne_source in H.
Qed.

End SplitThreads.

Section SplitOutcomes.

Import Splitter.

Variable cwd : list string.
Variable fs : FS.files.
Variable file_path : string.
Variable k : list string.
Variable data : list byte.

Hypothesis source_key : FS.resolve_file cwd file_path = Some k.
Hypothesis source_data : fs !! k = Some data.

(** What [SplitIsoThread.run] does to a file of at least the threshold. *)
Lemma SplitIsoThread_run_split :
  4294967295 <= Z.of_nat (length data) ->
  let cs := chunks (Z.to_nat 4294967295) data in
  let total := - (- Z.of_nat (length data) / 4294967295) in
  let names := map (iso_part_name file_path) (seq 0 (length cs)) in
  let key i := FS.resolve cwd (Py.dirprefix file_path)
                 ++ [iso_name file_path i] in
  SplitIsoThread_run cwd fs file_path
  = Some (Outcome (write_parts key 0 cs fs)
            (map (fun j => progress (progress_msg file_path j total))
               (seq 0 (length cs))
             ++ [status true; finished names])
            None).
Proof.
  intros Hsize. cbv zeta. unfold SplitIsoThread_run.
  rewrite (getsize_source cwd fs file_path k data source_key source_data).
  destruct (Z.ltb_spec (Z.of_nat (length data)) 4294967295) as [|_]; [lia |].
  destruct (iso_keys cwd file_path k source_key) as (Hkey & Hinj & Hne).
  rewrite (split_with_chunks cwd fs file_path k data source_key source_data
             4294967295 _ _ ltac:(lia) Hkey Hinj Hne).
  cbn [ls_raised ls_progress ls_fs ls_parts]. now rewrite map_map.
Qed.

(** What [SplitPkgThread.run] does to a file of at least the threshold. *)
Lemma SplitPkgThread_run_split :
  4294967295 <= Z.of_nat (length data) ->
  let cs := chunks (Z.to_nat 4294967295) data in
  let total := - (- Z.of_nat (length data) / 4294967295) in
  let key i := cwd ++ [pkg_part_name file_path i] in
  SplitPkgThread_run cwd fs file_path
  = Some (Outcome (delete k (write_parts key 0 cs fs))
            (map (fun j => progress (progress_msg file_path j total))
               (seq 0 (length cs))
             ++ [status true])
            None).
Proof.
  intros Hsize. cbv zeta. unfold SplitPkgThread_run.
  rewrite (getsize_source cwd fs file_path k data source_key source_data).
  destruct (Z.ltb_spec (Z.of_nat (length data)) 4294967295) as [|_]; [lia |].
  destruct (pkg_keys cwd file_path k source_key) as (Hkey & Hinj & Hne).
  rewrite (split_with_chunks cwd fs file_path k data source_key source_data
             4294967295 _ _ ltac:(lia) Hkey Hinj Hne).
  cbn [ls_raised ls_progress ls_fs ls_parts]. unfold FS.remove.
  rewrite source_key, (write_parts_source _ k Hne), source_data.
  now rewrite map_map.
Qed.

End SplitOutcomes.

(** ** C2: the round trip of the chunked splitters *)

(** C2.  A file of at least 4294967295 bytes is read sequentially in
    chunks of exactly 4294967295 bytes: part [j] holds the bytes from
    position [j * 4294967295] on, there are [ceil(size / 4294967295)]
    parts, and the parts concatenated in order are the file.  Both threads
    write these parts, in this order, to the files named by their policy
    (the PKG thread then removes the source, the ISO thread keeps it and
    reports the names of the parts). *)
Theorem split_round_trip (cwd : list string) (fs : FS.files)
    (file_path : string) (k : list string) (data : list byte) :
  FS.resolve_file cwd file_path = Some k ->
  fs !! k = Some data ->
  4294967295 <= Z.of_nat (length data) ->
  let size := Z.of_nat (length data) in
  let parts := Splitter.chunks (Z.to_nat 4294967295) data in
  let total := - (- size / 4294967295) in
  let iso_names :=
    map (Splitter.iso_part_name file_path) (seq 0 (length parts)) in
  let pkg_names :=
    map (Splitter.pkg_part_name file_path) (seq 0 (length parts)) in
  let reports :=
    map (fun j => Splitter.progress
                    (Splitter.progress_msg file_path j total))
      (seq 0 (length parts)) in
  concat parts = data /\
  (forall j c, parts !! j = Some c ->
     c = take (Z.to_nat 4294967295) (drop (j * Z.to_nat 4294967295) data)) /\
  Z.of_nat (length parts) = total /\
  (total - 1) * 4294967295 < size <= total * 4294967295 /\
  (exists fs',
     Splitter.SplitIsoThread_run cwd fs file_path
     = Some (Splitter.Outcome fs'
               (reports ++ [Splitter.status true;
                            Splitter.finished iso_names])
               None) /\
     Splitter.read_all cwd fs' iso_names = Some parts /\
     fs' !! k = Some data) /\
  (exists fs',
     Splitter.SplitPkgThread_run cwd fs file_path
     = Some (Splitter.Outcome fs' (reports ++ [Splitter.status true]) None) /\
     Splitter.read_all cwd fs' pkg_names = Some parts /\
     fs' !! k = None).
Proof.
  intros Hkey Hdata Hsize. cbv zeta.
  assert (0 < Z.to_nat 4294967295)%nat as Hn by lia.
  split; [now apply concat_chunks |].
  split; [intros j c Hj; now apply chunks_lookup in Hj as [-> _] |].
  split; [rewrite length_chunks by exact Hn; now rewrite Z2Nat.id by lia |].
  split; [apply ceiling_bounds; lia |].
  split.
  - destruct (iso_keys cwd file_path k Hkey) as (Hk & Hinj & Hne).
    eexists. split;
      [exact (SplitIsoThread_run_split cwd fs file_path k data Hkey Hdata
                Hsize) |].
    split.
    + apply (read_all_parts cwd _ _ _ _ 0 Hk).
      intros j c Hj. exact (write_parts_lookup _ Hinj 0 j _ fs c Hj).
    + now rewrite (write_parts_source _ k Hne).
  - destruct (pkg_keys cwd file_path k Hkey) as (Hk & Hinj & Hne).
    eexists. split;
      [exact (SplitPkgThread_run_split cwd fs file_path k data Hkey Hdata
                Hsize) |].
    split.
    + apply (read_all_parts cwd _ _ _ _ 0 Hk).
      intros j c Hj. rewrite lookup_delete_ne by (symmetry; apply Hne).
      exact (write_parts_lookup _ Hinj 0 j _ fs c Hj).
    + apply lookup_delete_eq.
Qed.

Lemma big_file_length : Z.of_nat (length Splitter.big_file) = 4294967295.
Proof.
  unfold Splitter.big_file, Splitter.threshold.
  rewrite length_replicate. apply Z2Nat.id. lia.
Qed.

(** A file of exactly the threshold size is split into one part. *)
Lemma split_round_trip_witness :
  let fs : FS.files := {[ ["w"; "processing"; "game.iso"] := Splitter.big_file ]} in
  exists fs',
    Splitter.SplitIsoThread_run ["w"] fs "processing/game.iso"
    = Some (Splitter.Outcome fs'
              (map (fun j => Splitter.progress
                      (Splitter.progress_msg "processing/game.iso" j
                         (- (- Z.of_nat (length Splitter.big_file)
                             / 4294967295))))
                 (seq 0 (length (Splitter.chunks (Z.to_nat 4294967295)
                                   Splitter.big_file)))
               ++ [Splitter.status true;
                   Splitter.finished
                     (map (Splitter.iso_part_name "processing/game.iso")
                        (seq 0 (length (Splitter.chunks
                                          (Z.to_nat 4294967295)
                                          Splitter.big_file))))])
              None) /\
    Splitter.read_all ["w"] fs'
      (map (Splitter.iso_part_name "processing/game.iso")
         (seq 0 (length (Splitter.chunks (Z.to_nat 4294967295)
                           Splitter.big_file))))
    = Some (Splitter.chunks (Z.to_nat 4294967295) Splitter.big_file) /\
    fs' !! ["w"; "processing"; "game.iso"] = Some Splitter.big_file.
Proof.
  intros fs.
  refine (proj1 (proj2 (proj2 (proj2 (proj2
            (split_round_trip ["w"] fs "processing/game.iso"
               ["w"; "processing"; "game.iso"] Splitter.big_file
               _ _ _)))))).
  - reflexivity.
  - apply lookup_singleton_eq.
  - rewrite big_file_length. lia.
Defined.

(** ** C3: a file below the threshold *)

(** C3, as stated, fails: for a seven-byte file [SplitIsoThread.run]
    reports the empty list of paths, not the one-element list that holds
    the input path. *)
Lemma small_file_returns_no_path :
  let fs : FS.files :=
    {[ ["w"; "processing"; "game.iso"] := Splitter.small_file ]} in
  ~ exists out,
      Splitter.SplitIsoThread_run ["w"] fs "processing/game.iso" = Some out
      /\ Splitter.finished ["processing/game.iso"]
         ∈ Splitter.out_signals out.
Proof.
  intros fs (out & Hrun & Hin).
  assert (Splitter.SplitIsoThread_run ["w"] fs "processing/game.iso"
          = Some (Splitter.Outcome fs
                    [Splitter.status false; Splitter.finished []] None))
    as Hval by (vm_compute; reflexivity).
  rewrite Hval in Hrun. injection Hrun as <-.
  cbn [Splitter.out_signals] in Hin.
  apply elem_of_cons in Hin as [Hin | Hin]; [discriminate |].
  apply elem_of_cons in Hin as [Hin | Hin]; [discriminate |].
  inversion Hin.
Qed.

(** C3, amended.  A file below 4294967295 bytes is not split: neither
    thread writes or removes a file, both report [status False], and the
    ISO thread reports the empty list of split files, not a list that
    holds the input path.  The callers go on with the original path.  The
    ISO pipeline does not start the thread for such a file; were it
    started, [finalize_ps3_files] would be entered with the empty list,
    and entered with the empty list it queues, first, the move of the
    original image to the output directory.  The PKG pipeline waits for
    the thread and searches for [file_path.666*]: when the search finds
    nothing it queues the move of the original PKG and nothing else; when
    it finds files, which an earlier run must have left, it queues their
    moves and then the removal of the original PKG, or the move of the
    original PKG when the unsplit PKG is to be kept. *)
Theorem below_threshold_no_split (fnmatch : string -> string -> bool)
    (env : EventLoop.environment) (cwd : list string)
    (systems_data : Z -> option GUI.system) (boxes : GUI.checkboxes)
    (current_index : Z) (quote : string -> string)
    (head_content_length : string -> option Z) (windows : bool)
    (cpu_count : Z) (ps3dec_binary : string)
    (fs : FS.files) (g : GUI.gui)
    (file_path base_name output_dir queue_position : string)
    (k : list string) (data : list byte) (sys : GUI.system) :
  FS.resolve_file cwd file_path = Some k ->
  fs !! k = Some data ->
  Z.of_nat (length data) < 4294967295 ->
  systems_data current_index = Some sys ->
  let whole :=
    FileOps.move file_path (Py.join output_dir (Py.basename file_path)) in
  Splitter.SplitIsoThread_run cwd fs file_path
  = Some (Splitter.Outcome fs
            [Splitter.status false; Splitter.finished []] None) /\
  Splitter.SplitPkgThread_run cwd fs file_path
  = Some (Splitter.Outcome fs [Splitter.status false] None) /\
  GUI.after_decryption cwd boxes fs (Some file_path) base_name output_dir
    queue_position
  = GUI.call (GUI.cb_finalize_ps3_files (Some file_path) base_name
                queue_position []) /\
  (forall on_finished,
     EventLoop.turn env cwd systems_data boxes current_index quote
       head_content_length windows cpu_count ps3dec_binary
       (GUI.start_SplitIsoThread file_path on_finished) fs g
     = Some (EventLoop.enter_method env cwd systems_data boxes current_index
               quote head_content_length windows cpu_count ps3dec_binary
               (on_finished []) fs g)) /\
  (exists rest,
     GUI.finalize_ps3_files cwd systems_data boxes current_index fs
       (Some file_path) base_name queue_position []
     = GUI.start_FileOperationsThread
         (FileOps.move file_path
            (Py.join (GUI.output_dir sys) (Py.basename file_path)) :: rest)
         (GUI.cb_ps3_file_operations_finished queue_position base_name)) /\
  GUI.split_pkg cwd fs file_path = Some fs /\
  (FS.glob fnmatch cwd fs (file_path +:+ ".666*") = [] ->
   GUI.pkg_operations fnmatch cwd boxes fs file_path output_dir = [whole]) /\
  (FS.glob fnmatch cwd fs (file_path +:+ ".666*") <> [] ->
   GUI.pkg_operations fnmatch cwd boxes fs file_path output_dir
   = map (fun split_file =>
            FileOps.move split_file
              (Py.join output_dir (Py.basename split_file)))
       (FS.glob fnmatch cwd fs (file_path +:+ ".666*"))
     ++ [if GUI.keep_unsplit_pkg_checkbox boxes then whole
         else FileOps.remove file_path]).
Proof.
  intros Hkey Hdata Hsize Hsys whole.
  assert (Splitter.SplitIsoThread_run cwd fs file_path
          = Some (Splitter.Outcome fs
                    [Splitter.status false; Splitter.finished []] None)
          /\ Splitter.SplitPkgThread_run cwd fs file_path
             = Some (Splitter.Outcome fs [Splitter.status false] None))
    as [Hiso Hpkg].
  { unfold Splitter.SplitIsoThread_run, Splitter.SplitPkgThread_run.
    rewrite (getsize_source cwd fs file_path k data Hkey Hdata).
    destruct (Z.ltb_spec (Z.of_nat (length data)) 4294967295) as [_ | Hge];
      [split; reflexivity | lia]. }
  split; [exact Hiso |]. split; [exact Hpkg |].
  split.
  { unfold GUI.after_decryption.
    rewrite (getsize_source cwd fs file_path k data Hkey Hdata).
    destruct (Z.leb_spec 4294967295 (Z.of_nat (length data))) as [Hge | _];
      [lia |].
    now destruct (GUI.split_checkbox boxes). }
  split.
  { intros on_finished. unfold EventLoop.turn. now rewrite Hiso. }
  split.
  { unfold GUI.finalize_ps3_files. rewrite Hsys. cbn [app].
    eexists. reflexivity. }
  split; [unfold GUI.split_pkg; now rewrite Hpkg |].
  unfold GUI.pkg_operations.
  destruct (FS.glob fnmatch cwd fs (file_path +:+ ".666*")) as [|x found].
  - split; [reflexivity | intros H; now contradiction H].
  - split; [discriminate |]. intros _.
    now destruct (GUI.keep_unsplit_pkg_checkbox boxes).
Qed.

Lemma below_threshold_no_split_witness :
  let fs : FS.files :=
    {[ ["w"; "processing"; "game.pkg"] := Splitter.small_file;
       ["w"; "processing"; "game.pkg.66600"] := Splitter.small_file ]} in
  let boxes := GUI.Checkboxes false true true false false false true false in
  let fnmatch (name pat : string) := Py.startswith name "game.pkg.666" in
  Splitter.SplitIsoThread_run ["w"] fs "processing/game.pkg"
  = Some (Splitter.Outcome fs
            [Splitter.status false; Splitter.finished []] None) /\
  Splitter.SplitPkgThread_run ["w"] fs "processing/game.pkg"
  = Some (Splitter.Outcome fs [Splitter.status false] None) /\
  GUI.pkg_operations fnmatch ["w"] boxes fs "processing/game.pkg" "out"
  = [FileOps.move "processing/game.pkg.66600" "out/game.pkg.66600";
     FileOps.remove "processing/game.pkg"].
Proof.
  intros fs boxes fnmatch.
  destruct (below_threshold_no_split fnmatch
              (EventLoop.Environment (fun _ _ => 0) (fun _ => 0%Q)
                 (fun _ _ _ => Downloader.no_response ClientPayloadError)
                 (fun _ _ => Ok []) (fun _ fs => (fs, 0)))
              ["w"] (fun _ => Some (GUI.System "u" "out" ".pkg" false true
                                      false))
              boxes 0 (fun s => s) (fun _ => None) false 4 "ps3dec"
              fs (GUI.Gui [] None 0 0 true)
              "processing/game.pkg" "game" "out" "1/1"
              ["w"; "processing"; "game.pkg"] Splitter.small_file
              (GUI.System "u" "out" ".pkg" false true false))
    as (Hiso & Hpkg & _ & _ & _ & _ & _ & Hfound).
  - reflexivity.
  - apply lookup_insert_eq.
  - simpl. lia.
  - reflexivity.
  - split; [exact Hiso |]. split; [exact Hpkg |].
    rewrite Hfound; [vm_compute; reflexivity | vm_compute; discriminate].
Defined.

(** ** C10: where the PKG parts go, and what the search finds *)

Section Glob.

Import Py.

Lemma append_cancel_r (a b t : string) : a +:+ t = b +:+ t -> a = b.
Proof.
  revert b. induction a as [|x a IH]; intros [|y b] E.
  - reflexivity.
  - apply (f_equal String.length) in E.
    rewrite append_nil_l, append_cons in E. simpl in E.
    rewrite length_append in E. lia.
  - apply (f_equal String.length) in E.
    rewrite append_nil_l, append_cons in E. simpl in E.
    rewrite length_append in E. lia.
  - rewrite !append_cons in E. injection E as -> E.
    f_equal. now apply IH.
Qed.

Lemma basename_in_dir (p n : string) :
  contains "/" n = false ->
  basename (dirprefix p +:+ n) = n /\
  dirprefix (dirprefix p +:+ n) = dirprefix p.
Proof.
  intros Hn. unfold basename, dirprefix.
  destruct (rsplit "/" p) as [[l r]|].
  - rewrite append_assoc. change ("/" +:+ n) with (String "/" n).
    destruct (rsplit "/" (l +:+ String "/" n)) as [[l' r']|] eqn:E.
    + apply rsplit_Some in E as [E Hr'].
      assert (split "/" (l +:+ String "/" n)
              = split "/" (l' +:+ String "/" r')) as Hs by now rewrite E.
      rewrite !split_sep, (split_whole _ _ Hn), (split_whole _ _ Hr') in Hs.
      apply app_inj_tail in Hs as [_ [= <-]].
      split; [reflexivity |].
      now apply append_cancel_r in E as <-.
    + apply rsplit_None in E. rewrite contains_append in E.
      simpl in E. rewrite ?Ascii.eqb_refl in E.
      destruct (contains "/" l); discriminate.
  - rewrite append_nil_l. apply rsplit_None in Hn. now rewrite Hn.
Qed.

Lemma elem_of_keys (fs : FS.files) (k : list string) :
  k ∈ map fst (map_to_list fs) <-> is_Some (fs !! k).
Proof.
  rewrite list_elem_of_fmap. split.
  - intros ([k' v] & -> & H). apply elem_of_map_to_list in H. now exists v.
  - intros [v H]. exists (k, v). split; [reflexivity |].
    now apply elem_of_map_to_list.
Qed.

Lemma has_magic_append (a b : string) :
  has_magic (a +:+ b) = has_magic a || has_magic b.
Proof.
  induction a as [|x a IH]; [reflexivity |].
  rewrite append_cons. cbn [has_magic]. rewrite IH.
  now rewrite !orb_assoc.
Qed.

Lemma startswith_slash (n : string) :
  contains "/" n = false -> startswith n "/" = false.
Proof.
  destruct n as [|a n]; [reflexivity |]. simpl.
  intros H. apply orb_false_iff in H as [H _].
  now rewrite Ascii.eqb_sym, H.
Qed.

Lemma join_processing (n : string) :
  contains "/" n = false ->
  join GUI.processing_dir n = "processing/" +:+ n.
Proof.
  intros Hn. unfold join. now rewrite (startswith_slash n Hn).
Qed.

(** The names of a directory are the next components of the files below
    it. *)
Lemma elem_of_listdir (cwd : list string) (fs : FS.files)
    (dirname n : string) :
  n ∈ FS.listdir cwd fs dirname false <->
  exists k, is_Some (fs !! k) /\
            take (length (FS.resolve cwd dirname)) k = FS.resolve cwd dirname /\
            k !! length (FS.resolve cwd dirname) = Some n.
Proof.
  unfold FS.listdir. cbv beta iota zeta.
  rewrite elem_of_remove_dups, list_elem_of_omap. split.
  - intros (k & Hk & Hn). apply elem_of_keys in Hk. exists k.
    case_bool_decide; [auto | discriminate].
  - intros (k & Hk & Ht & Hn). exists k.
    split; [now apply elem_of_keys |].
    now rewrite bool_decide_eq_true_2.
Qed.

Lemma elem_of_glob1 (fnmatch : string -> string -> bool)
    (cwd : list string) (fs : FS.files) (dirname pattern n : string) :
  n ∈ FS.glob1 fnmatch cwd fs dirname pattern false <->
  n ∈ FS.listdir cwd fs dirname false /\
  (FS.ishidden pattern = false -> FS.ishidden n = false) /\
  fnmatch n pattern = true.
Proof.
  unfold FS.glob1. cbv zeta. rewrite list_elem_of_filter.
  destruct (FS.ishidden pattern); cbn [negb].
  - split; [intros [H1 H2] | intros (H1 & _ & H2)]; auto.
    repeat split; auto. discriminate.
  - rewrite list_elem_of_filter. split.
    + intros (H1 & H2 & H3). auto.
    + intros (H1 & H2 & H3). auto.
Qed.

(** A pattern whose directory part holds no wildcard and whose final
    component holds one is matched against the names of that directory. *)
Lemma glob_in_directory (fnmatch : string -> string -> bool)
    (cwd : list string) (fs : FS.files) (p n : string) :
  contains "/" n = false ->
  has_magic n = true ->
  dirname (dirprefix p +:+ n) <> "" ->
  has_magic (dirname (dirprefix p +:+ n)) = false ->
  FS.glob fnmatch cwd fs (dirprefix p +:+ n)
  = map (join (dirname (dirprefix p +:+ n)))
      (FS.glob1 fnmatch cwd fs (dirname (dirprefix p +:+ n)) n false).
Proof.
  intros Hn Hmagic Hdir Hplain. unfold FS.glob. cbn [FS.iglob].
  destruct (basename_in_dir p n Hn) as [Hb _]. rewrite Hb.
  rewrite has_magic_append, Hmagic, orb_true_r. cbn [negb].
  apply String.eqb_neq in Hdir. rewrite Hdir, Hplain, andb_false_r.
  cbn [flat_map]. apply app_nil_r.
Qed.

End Glob.

Lemma chunks_exact {A : Type} (n : nat) (l : list A) :
  (0 < n)%nat -> length l = n -> Splitter.chunks n l = [l].
Proof.
  intros Hn Hl.
  assert (l <> []) as Hne by (intros ->; simpl in Hl; lia).
  rewrite (chunks_cons n l Hn Hne).
  rewrite take_ge, drop_ge by lia. reflexivity.
Qed.

Section PkgSearch.

Variable fnmatch : string -> string -> bool.
Variable cwd : list string.

(** The search of [handle_psn_files] for the parts of
    [processing/<name>]. *)
Lemma pkg_search (fs : FS.files) (name : string) :
  Py.contains "/" name = false ->
  FS.glob fnmatch cwd fs (Py.join GUI.processing_dir name +:+ ".666*")
  = map (Py.join "processing")
      (FS.glob1 fnmatch cwd fs "processing" (name +:+ ".666*") false).
Proof.
  intros Hname. rewrite (join_processing name Hname), append_assoc.
  assert (Py.contains "/" (name +:+ ".666*") = false) as Hn
    by (rewrite contains_append, Hname; reflexivity).
  assert (Py.has_magic (name +:+ ".666*") = true) as Hmagic
    by (rewrite has_magic_append; apply orb_true_r).
  pose proof (glob_in_directory fnmatch cwd fs "processing/x"
                (name +:+ ".666*") Hn Hmagic) as Hglob.
  destruct (basename_in_dir "processing/x" (name +:+ ".666*") Hn)
    as [_ Hd].
  unfold Py.dirname in Hglob. rewrite Hd in Hglob.
  apply Hglob; [discriminate | reflexivity].
Qed.

Lemma pkg_source_key (name : string) :
  Py.contains "/" name = false ->
  FS.proper_name name = true ->
  FS.resolve_file cwd (Py.join GUI.processing_dir name)
  = Some (cwd ++ ["processing"; name]).
Proof.
  intros Hname Hproper. rewrite (join_processing name Hname).
  change ("processing/" +:+ name)
    with (Py.dirprefix "processing/x" +:+ name).
  rewrite (resolve_file_in_dir cwd "processing/x" name Hname Hproper).
  change (FS.resolve cwd (Py.dirprefix "processing/x"))
    with (cwd ++ ["processing"]).
  now rewrite <- app_assoc.
Qed.

End PkgSearch.

Lemma proper_pkg_name (base_name : string) :
  FS.proper_name (base_name +:+ ".pkg") = true.
Proof.
  apply proper_name_long. rewrite length_append. simpl. lia.
Qed.

(** C10, as stated, fails, whatever [fnmatch] does with other patterns.
    First, a part of an earlier run that was left in [processing] is found
    after the split of [processing/game.pkg], although the new part is
    written to the current working directory.  Second, for the base name
    [../game] the path [processing/../game.pkg] denotes a file of the
    current working directory, the part is written beside it, and the
    search for [processing/../game.pkg.666*] finds it. *)
Lemma pkg_parts_found_beside_source :
  let stale : FS.files :=
    {[ ["w"; "processing"; "game.pkg"] := Splitter.big_file;
       ["w"; "processing"; "game.pkg.66600"] := Splitter.small_file ]} in
  let beside : FS.files :=
    {[ ["w"; "game.pkg"] := Splitter.big_file;
       ["w"; "processing"; "game.zip"] := Splitter.small_file ]} in
  (~ exists fnmatch,
       FS.literal_star fnmatch /\
       forall out,
         Splitter.SplitPkgThread_run ["w"] stale
           (Py.join GUI.processing_dir ("game" +:+ ".pkg")) = Some out ->
         FS.glob fnmatch ["w"] (Splitter.out_fs out)
           (Py.join GUI.processing_dir ("game" +:+ ".pkg") +:+ ".666*")
         = []) /\
  (~ exists fnmatch,
       FS.literal_star fnmatch /\
       forall out,
         Splitter.SplitPkgThread_run ["w"] beside
           (Py.join GUI.processing_dir ("../game" +:+ ".pkg")) = Some out ->
         FS.glob fnmatch ["w"] (Splitter.out_fs out)
           (Py.join GUI.processing_dir ("../game" +:+ ".pkg") +:+ ".666*")
         = []).
Proof.
  intros stale beside.
  assert (4294967295 <= Z.of_nat (length Splitter.big_file)) as Hsize
    by (rewrite big_file_length; lia).
  assert (Splitter.chunks (Z.to_nat 4294967295) Splitter.big_file
          = [Splitter.big_file]) as Hchunks.
  { apply chunks_exact; [lia |].
    apply Nat2Z.inj. rewrite big_file_length. lia. }
  split; intros (fnmatch & Hlaw & H).
  - assert (FS.resolve_file ["w"] "processing/game.pkg"
            = Some ["w"; "processing"; "game.pkg"]) as Hkey by reflexivity.
    assert (stale !! ["w"; "processing"; "game.pkg"]
            = Some Splitter.big_file) as Hdata
      by apply lookup_insert_eq.
    pose proof (SplitPkgThread_run_split ["w"] stale "processing/game.pkg"
                  _ _ Hkey Hdata Hsize) as Hrun.
    cbv zeta in Hrun. rewrite Hchunks in Hrun.
    specialize (H _ Hrun).
    cbn [Splitter.out_fs Splitter.write_parts] in H.
    change (Py.join GUI.processing_dir ("game" +:+ ".pkg") +:+ ".666*")
      with (Py.dirprefix "processing/x" +:+ "game.pkg.666*") in H.
    rewrite glob_in_directory in H;
      [| reflexivity | reflexivity | discriminate | reflexivity].
    apply (f_equal length) in H. rewrite length_map in H.
    apply length_zero_iff_nil in H.
    assert ("game.pkg.66600"
            ∈ FS.glob1 fnmatch ["w"]
                (delete ["w"; "processing"; "game.pkg"]
                   (<[["w"; "game.pkg.66600"] := Splitter.big_file]> stale))
                "processing" "game.pkg.666*" false) as Hin.
    { apply elem_of_glob1. repeat split.
      - apply elem_of_listdir.
        exists ["w"; "processing"; "game.pkg.66600"]. repeat split.
        rewrite lookup_delete_ne by discriminate.
        rewrite lookup_insert_ne by discriminate.
        unfold stale. rewrite lookup_insert_ne by discriminate.
        rewrite lookup_singleton_eq. eauto.
      - change "game.pkg.666*" with ("game.pkg.666" +:+ "*").
        rewrite Hlaw; reflexivity. }
    change (Py.dirname (Py.dirprefix "processing/x" +:+ "game.pkg.666*"))
      with "processing" in H.
    change (Splitter.pkg_part_name "processing/game.pkg" 0)
      with "game.pkg.66600" in H.
    change (["w"] ++ ["game.pkg.66600"]) with ["w"; "game.pkg.66600"] in H.
    rewrite H in Hin. inversion Hin.
  - assert (FS.resolve_file ["w"] "processing/../game.pkg"
            = Some ["w"; "game.pkg"]) as Hkey by reflexivity.
    assert (beside !! ["w"; "game.pkg"] = Some Splitter.big_file) as Hdata
      by apply lookup_insert_eq.
    pose proof (SplitPkgThread_run_split ["w"] beside
                  "processing/../game.pkg" _ _ Hkey Hdata Hsize) as Hrun.
    cbv zeta in Hrun. rewrite Hchunks in Hrun.
    specialize (H _ Hrun).
    cbn [Splitter.out_fs Splitter.write_parts] in H.
    change (Py.join GUI.processing_dir ("../game" +:+ ".pkg") +:+ ".666*")
      with (Py.dirprefix "processing/../x" +:+ "game.pkg.666*") in H.
    rewrite glob_in_directory in H;
      [| reflexivity | reflexivity | discriminate | reflexivity].
    apply (f_equal length) in H. rewrite length_map in H.
    apply length_zero_iff_nil in H.
    assert ("game.pkg.66600"
            ∈ FS.glob1 fnmatch ["w"]
                (delete ["w"; "game.pkg"]
                   (<[["w"; "game.pkg.66600"] := Splitter.big_file]> beside))
                "processing/.." "game.pkg.666*" false) as Hin.
    { apply elem_of_glob1. repeat split.
      - apply elem_of_listdir.
        exists ["w"; "game.pkg.66600"]. repeat split.
        rewrite lookup_delete_ne by discriminate.
        rewrite lookup_insert_eq. eauto.
      - change "game.pkg.666*" with ("game.pkg.666" +:+ "*").
        rewrite Hlaw; reflexivity. }
    change (Py.dirname (Py.dirprefix "processing/../x" +:+ "game.pkg.666*"))
      with "processing/.." in H.
    change (Splitter.pkg_part_name "processing/../game.pkg" 0)
      with "game.pkg.66600" in H.
    change (["w"] ++ ["game.pkg.66600"]) with ["w"; "game.pkg.66600"] in H.
    rewrite H in Hin. inversion Hin.
Qed.

(** C10, amended.  Let [processing/<base>.pkg], for a base name without a
    slash, hold at least 4294967295 bytes.  [SplitPkgThread] names each
    part by the stem of the path only, so every part is created in the
    current working directory and not beside the source; the source is
    removed.  The search for [processing/<base>.pkg.666*] that follows
    finds none of the new parts: every path it returns it would have
    returned before the split, every path it would have returned before
    the split, other than the source itself, it still returns, and so it
    finds nothing when no matching file was in [processing] before. *)
Theorem pkg_parts_land_in_cwd (fnmatch : string -> string -> bool)
    (cwd : list string) (fs : FS.files) (base_name : string)
    (data : list byte) :
  Py.contains "/" base_name = false ->
  fs !! (cwd ++ ["processing"; base_name +:+ ".pkg"]) = Some data ->
  4294967295 <= Z.of_nat (length data) ->
  let new_file_path := Py.join GUI.processing_dir (base_name +:+ ".pkg") in
  let parts := Splitter.chunks (Z.to_nat 4294967295) data in
  let names :=
    map (Splitter.pkg_part_name new_file_path) (seq 0 (length parts)) in
  exists fs' signals,
    Splitter.SplitPkgThread_run cwd fs new_file_path
    = Some (Splitter.Outcome fs' signals None) /\
    (0 < length parts)%nat /\
    (forall i, FS.resolve_file cwd (Splitter.pkg_part_name new_file_path i)
               = Some (cwd ++ [Py.path_stem new_file_path +:+ ".pkg.666"
                                 +:+ Py.zfill 2 (Py.str i)])) /\
    Splitter.read_all cwd fs' names = Some parts /\
    FS.resolve_file cwd new_file_path
    = Some (cwd ++ ["processing"; base_name +:+ ".pkg"]) /\
    fs' !! (cwd ++ ["processing"; base_name +:+ ".pkg"]) = None /\
    (forall x, x ∈ FS.glob fnmatch cwd fs' (new_file_path +:+ ".666*") ->
               x ∈ FS.glob fnmatch cwd fs (new_file_path +:+ ".666*")) /\
    (forall x, x ∈ FS.glob fnmatch cwd fs (new_file_path +:+ ".666*") ->
               x <> new_file_path ->
               x ∈ FS.glob fnmatch cwd fs' (new_file_path +:+ ".666*")) /\
    (FS.glob fnmatch cwd fs (new_file_path +:+ ".666*") = [] ->
     FS.glob fnmatch cwd fs' (new_file_path +:+ ".666*") = []).
Proof.
  intros Hbase Hdata Hsize. cbv zeta.
  set (name := base_name +:+ ".pkg").
  set (k := cwd ++ ["processing"; name]) in *.
  assert (Py.contains "/" name = false) as Hname
    by (unfold name; rewrite contains_append, Hbase; reflexivity).
  pose proof (pkg_source_key cwd name Hname (proper_pkg_name base_name))
    as Hkey. fold k in Hkey.
  set (new_file_path := Py.join GUI.processing_dir name) in *.
  destruct (pkg_keys cwd new_file_path k Hkey) as (Hk & Hinj & Hne).
  set (fs' := delete k (Splitter.write_parts
                          (fun i => cwd ++ [Splitter.pkg_part_name
                                              new_file_path i])
                          0 (Splitter.chunks (Z.to_nat 4294967295) data) fs)).
  assert (FS.resolve cwd "processing" = cwd ++ ["processing"]) as Hd
    by reflexivity.
  assert (forall k' m,
            take (length (cwd ++ ["processing"])) k' = cwd ++ ["processing"] ->
            k' !! length (cwd ++ ["processing"]) = Some m ->
            k' <> k -> fs' !! k' = fs !! k') as Hframe.
  { intros k' m Htake Hm Hneq. unfold fs'.
    rewrite lookup_delete_ne by congruence.
    apply write_parts_other. intros j ->.
    rewrite lookup_ge_None_2 in Hm; [discriminate |].
    rewrite !length_app. simpl. lia. }
  assert (forall m,
            m ∈ FS.listdir cwd fs' "processing" false ->
            m ∈ FS.listdir cwd fs "processing" false) as Hsub.
  { intros m Hm. apply elem_of_listdir in Hm as (k' & Hsome & Htake & Hm).
    rewrite Hd in Htake, Hm. apply elem_of_listdir. exists k'.
    rewrite Hd. split; [|now split].
    destruct (decide (k' = k)) as [-> | Hneq].
    - unfold fs' in Hsome. rewrite lookup_delete_eq in Hsome.
      now destruct Hsome.
    - now rewrite <- (Hframe k' m Htake Hm Hneq). }
  assert (forall m,
            m ∈ FS.listdir cwd fs "processing" false -> m <> name ->
            m ∈ FS.listdir cwd fs' "processing" false) as Hsup.
  { intros m Hm Hneq. apply elem_of_listdir in Hm as (k' & Hsome & Htake & Hm).
    rewrite Hd in Htake, Hm. apply elem_of_listdir. exists k'.
    rewrite Hd. split; [|now split].
    rewrite (Hframe k' m Htake Hm); [exact Hsome |].
    intros ->. unfold k in Hm.
    change (cwd ++ ["processing"; name])
      with (cwd ++ ["processing"] ++ [name]) in Hm.
    rewrite app_assoc, lookup_app_r, Nat.sub_diag in Hm by lia.
    injection Hm as <-. now apply Hneq. }
  assert (forall x,
            x ∈ FS.glob fnmatch cwd fs' (new_file_path +:+ ".666*") ->
            x ∈ FS.glob fnmatch cwd fs (new_file_path +:+ ".666*")) as Hglob.
  { intros x. unfold new_file_path.
    rewrite !(pkg_search fnmatch cwd _ name Hname), !list_elem_of_fmap.
    intros (m & -> & Hm). exists m. split; [reflexivity |].
    apply elem_of_glob1 in Hm as (Hm & Hhid & Hmatch).
    apply elem_of_glob1. auto. }
  exists fs'. eexists.
  split; [exact (SplitPkgThread_run_split cwd fs new_file_path k data Hkey
                   Hdata Hsize) |].
  split.
  { assert (0 < Z.to_nat 4294967295)%nat as Hn by lia.
    pose proof (length_chunks (Z.to_nat 4294967295) data Hn) as Hlen.
    rewrite Z2Nat.id in Hlen by lia.
    pose proof (ceiling_bounds (Z.of_nat (length data)) 4294967295
                  ltac:(lia)) as Hceil.
    nia. }
  split; [exact Hk |].
  split.
  { apply (read_all_parts cwd _ _ _ _ 0 Hk).
    intros j c Hj. unfold fs'.
    rewrite lookup_delete_ne by (symmetry; apply Hne).
    exact (write_parts_lookup _ Hinj 0 j _ fs c Hj). }
  split; [exact Hkey |].
  split; [apply lookup_delete_eq |].
  split; [exact Hglob |].
  split.
  { intros x. unfold new_file_path.
    rewrite !(pkg_search fnmatch cwd _ name Hname), !list_elem_of_fmap.
    intros (m & -> & Hm) Hx. exists m. split; [reflexivity |].
    apply elem_of_glob1 in Hm as (Hm & Hhid & Hmatch).
    apply elem_of_glob1. repeat split; auto.
    apply Hsup; [exact Hm |]. intros ->. now apply Hx. }
  intros Hnone. apply elem_of_nil_inv. intros x Hx.
  apply Hglob in Hx. rewrite Hnone in Hx. inversion Hx.
Qed.

Lemma pkg_parts_land_in_cwd_witness :
  let fs : FS.files :=
    {[ ["w"; "processing"; "game.pkg"] := Splitter.big_file ]} in
  exists fs' signals,
    Splitter.SplitPkgThread_run ["w"] fs "processing/game.pkg"
    = Some (Splitter.Outcome fs' signals None) /\
    fs' !! ["w"; "processing"; "game.pkg"] = None /\
    FS.glob (fun name _ => Py.startswith name "game.pkg.666") ["w"] fs'
      "processing/game.pkg.666*" = [].
Proof.
  intros fs.
  destruct (pkg_parts_land_in_cwd
              (fun name _ => Py.startswith name "game.pkg.666") ["w"] fs
              "game" Splitter.big_file)
    as (fs' & signals & Hrun & _ & _ & _ & _ & Hgone & _ & _ & Hnone).
  - reflexivity.
  - apply lookup_singleton_eq.
  - rewrite big_file_length. lia.
  - exists fs', signals. split; [exact Hrun |]. split; [exact Hgone |].
    apply Hnone. subst fs. generalize Splitter.big_file. intros d.
    vm_compute. reflexivity.
Defined.

(** ** C6: the file-system operation executor *)

Section ExecutorFacts.

Import FileOps.

Variable world : Type.
Variable os_rename : string -> string -> world -> world * option exn.
Variable shutil_move : string -> string -> world -> world * option exn.
Variable os_path_isdir : string -> world -> bool.
Variable shutil_rmtree : string -> world -> world * option exn.
Variable os_remove : string -> world -> world * option exn.
Variable exn_str : exn -> string.

Local Abbreviation do_perform :=
  (perform os_rename shutil_move os_path_isdir shutil_rmtree os_remove).
Local Abbreviation do_run_all :=
  (run_all os_rename shutil_move os_path_isdir shutil_rmtree os_remove
     exn_str).
Local Abbreviation do_run :=
  (run os_rename shutil_move os_path_isdir shutil_rmtree os_remove exn_str).
Local Abbreviation report := (FileOps.report exn_str).

Lemma attempts_operations (ops : list operation) (w : world) :
  map fst (attempts do_perform ops w) = ops.
Proof.
  revert w. induction ops as [|op ops IH]; intros w; [reflexivity |].
  cbn [attempts]. destruct (do_perform op w) as [w' r].
  cbn [map fst]. now rewrite IH.
Qed.

Lemma run_all_signals (ops : list operation) (w : world) :
  snd (do_run_all ops w) = concat (map report (attempts do_perform ops w)).
Proof.
  revert w. induction ops as [|op ops IH]; intros w; [reflexivity |].
  cbn [run_all attempts]. unfold run_one.
  destruct (do_perform op w) as [w' r].
  specialize (IH w').
  destruct r as [e|];
    destruct (do_run_all ops w') as [w2 sigs2];
    cbn [snd] in *; rewrite IH; reflexivity.
Qed.

Lemma report_acknowledgments (a : operation * option exn) :
  length (filter (fun s => is_acknowledgment s = true) (report a))
  = if a.2 is Some _ then 0%nat else 1%nat.
Proof.
  destruct a as [op [e|]]; destruct op; reflexivity.
Qed.

Lemma acknowledgments_count (l : list (operation * option exn)) :
  length (filter (fun s => is_acknowledgment s = true)
            (concat (map report l)))
  = length (filter (fun a => a.2 = None) l).
Proof.
  induction l as [|a l IH]; [reflexivity |].
  cbn [map concat]. rewrite filter_app, length_app, IH.
  rewrite report_acknowledgments.
  destruct a as [op [e|]]; cbn [snd].
  - rewrite filter_cons_False by discriminate. reflexivity.
  - rewrite filter_cons_True by reflexivity. reflexivity.
Qed.

Lemma report_errors (a : operation * option exn) :
  length (filter (fun s => is_error_report s = true) (report a))
  = if a.2 is Some _ then 1%nat else 0%nat.
Proof.
  destruct a as [op [e|]]; destruct op; reflexivity.
Qed.

Lemma errors_count (l : list (operation * option exn)) :
  length (filter (fun s => is_error_report s = true)
            (concat (map report l)))
  = length (filter (fun a => a.2 <> None) l).
Proof.
  induction l as [|a l IH]; [reflexivity |].
  cbn [map concat]. rewrite filter_app, length_app, IH.
  rewrite report_errors.
  destruct a as [op [e|]]; cbn [snd].
  - rewrite filter_cons_True by discriminate. reflexivity.
  - rewrite filter_cons_False by (intros H; now apply H). reflexivity.
Qed.

Lemma perform_attempted (op : operation) (w : world) :
  attempted os_rename shutil_move os_path_isdir shutil_rmtree os_remove op w
    (do_perform op w).1 (do_perform op w).2.
Proof.
  destruct op as [src dst | src dst | src]; cbn [perform];
    [constructor | constructor |].
  destruct (os_path_isdir src w) eqn:Hdir; now constructor.
Qed.

Lemma run_all_best_effort (ops : list operation) (w : world) :
  best_effort os_rename shutil_move os_path_isdir shutil_rmtree os_remove
    ops w (do_run_all ops w).1 (attempts do_perform ops w).
Proof.
  revert w. induction ops as [|op ops IH]; intros w; [constructor |].
  cbn [run_all attempts]. unfold run_one.
  pose proof (perform_attempted op w) as Hop. specialize (IH (do_perform op w).1).
  destruct (do_perform op w) as [w1 r]. cbn [fst snd] in *.
  destruct r as [e|]; destruct (do_run_all ops w1) as [w2 sigs2];
    cbn [fst] in *; econstructor; eassumption.
Qed.

Lemma successes_failures (l : list (operation * option exn)) :
  (length (filter (fun a => a.2 = None) l)
   + length (filter (fun a => a.2 <> None) l) = length l)%nat.
Proof.
  induction l as [|[op [e|]] l IH]; [reflexivity | |]; cbn [length].
  - rewrite filter_cons_False by discriminate.
    rewrite filter_cons_True by discriminate. cbn [length]. lia.
  - rewrite filter_cons_True by reflexivity.
    rewrite filter_cons_False by (intros H; now apply H). cbn [length]. lia.
Qed.

(** C6.  Whatever the library calls do, [FileOperationsThread.run]
    returns, having attempted every operation of the list in list order:
    the library call of each operation is made on what the call before it
    left behind, whether that one raised or not, and the executor leaves
    what the last call leaves.  The signals are, for each operation in
    turn, its announcement followed by the acknowledgment when its call
    succeeded or by the error message when it raised, and then
    [finished_signal]: there are as many acknowledgments as successful
    operations and as many error messages as failed ones.  In particular,
    of three operations of which one fails, all three are attempted, two
    are acknowledged and one error is reported. *)
Theorem file_operations_best_effort (ops : list operation) (w : world) :
  exists outcomes,
    best_effort os_rename shutil_move os_path_isdir shutil_rmtree os_remove
      ops w (fst (do_run ops w)) outcomes /\
    map fst outcomes = ops /\
    snd (do_run ops w) = concat (map report outcomes) ++ [finished_signal] /\
    last (snd (do_run ops w)) = Some finished_signal /\
    length (filter (fun s => is_acknowledgment s = true) (snd (do_run ops w)))
    = length (filter (fun a => a.2 = None) outcomes) /\
    length (filter (fun s => is_error_report s = true) (snd (do_run ops w)))
    = length (filter (fun a => a.2 <> None) outcomes) /\
    (length ops = 3%nat ->
     length (filter (fun a => a.2 <> None) outcomes) = 1%nat ->
     length outcomes = 3%nat /\
     length (filter (fun s => is_acknowledgment s = true)
               (snd (do_run ops w))) = 2%nat /\
     length (filter (fun s => is_error_report s = true)
               (snd (do_run ops w))) = 1%nat).
Proof.
  exists (attempts do_perform ops w).
  assert (snd (do_run ops w)
          = concat (map report (attempts do_perform ops w))
            ++ [finished_signal]) as Hsig.
  { unfold run. rewrite <- run_all_signals.
    now destruct (do_run_all ops w). }
  assert (fst (do_run ops w) = fst (do_run_all ops w)) as Hfst.
  { unfold run. now destruct (do_run_all ops w). }
  assert (length (filter (fun s => is_acknowledgment s = true)
                    (snd (do_run ops w)))
          = length (filter (fun a => a.2 = None)
                      (attempts do_perform ops w))) as Hack.
  { rewrite Hsig, filter_app, length_app, acknowledgments_count.
    rewrite filter_cons_False by discriminate.
    rewrite filter_nil. cbn [length]. lia. }
  assert (length (filter (fun s => is_error_report s = true)
                    (snd (do_run ops w)))
          = length (filter (fun a => a.2 <> None)
                      (attempts do_perform ops w))) as Herr.
  { rewrite Hsig, filter_app, length_app, errors_count.
    rewrite filter_cons_False by discriminate.
    rewrite filter_nil. cbn [length]. lia. }
  split; [rewrite Hfst; apply run_all_best_effort |].
  split; [apply attempts_operations |].
  split; [exact Hsig |].
  split; [rewrite Hsig; apply last_snoc |].
  split; [exact Hack |]. split; [exact Herr |].
  intros Hthree Hone.
  assert (length (attempts do_perform ops w) = 3%nat) as Hlen.
  { rewrite <- Hthree. rewrite <- (attempts_operations ops w) at 2.
    now rewrite length_map. }
  pose proof (successes_failures (attempts do_perform ops w)) as Hsum.
  split; [exact Hlen |]. rewrite Hack, Herr. lia.
Qed.

End ExecutorFacts.

(** One operation that fails and two that succeed: all three are tried,
    the two valid ones are performed, and the run finishes. *)
Example file_operations_one_failure :
  let fs : FS.files :=
    <[ ["w"; "processing"; "a.bin"] := [x01] ]>
      {[ ["w"; "processing"; "g.zip"] := [x02] ]} in
  EventLoop.file_operations ["w"]
    [FileOps.move "processing/missing.iso" "out/missing.iso";
     FileOps.rename "processing/a.bin" "processing/b.bin";
     FileOps.remove "processing/g.zip"] fs
  = ({[ ["w"; "processing"; "b.bin"] := [x01] ]},
     [FileOps.progress_signal
        "Moving processing/missing.iso to out/missing.iso";
      FileOps.progress_signal
        "Error during move: [Errno 2] No such file or directory: 'processing/missing.iso'";
      FileOps.progress_signal
        "Renaming processing/a.bin to processing/b.bin";
      FileOps.progress_signal "Performed rename operation";
      FileOps.progress_signal "Removing processing/g.zip";
      FileOps.progress_signal "Performed remove operation";
      FileOps.finished_signal]).
Proof. vm_compute. reflexivity. Qed.

(** A rename whose source is missing is reported with both paths. *)
Example file_operations_rename_failure :
  EventLoop.file_operations ["w"]
    [FileOps.rename "processing/a.bin" "processing/b.bin"] ∅
  = (∅,
     [FileOps.progress_signal
        "Renaming processing/a.bin to processing/b.bin";
      FileOps.progress_signal
        "Error during rename: [Errno 2] No such file or directory: 'processing/a.bin' -> 'processing/b.bin'";
      FileOps.finished_signal]).
Proof. vm_compute. reflexivity. Qed.

(** ** C9: archives whose entries are all empty *)

Section UnzipFacts.

Import Unzip.

Variable percent : Z -> Z -> Z.
Variable stops : nat -> bool.
Variable zip_extract : FS.files -> zipinfo -> string -> FS.files * option exn.

(** C9, amended.  For an archive with at least one entry whose entries'
    uncompressed sizes add up to zero, and a runner that is not stopped
    before the first entry: when the library extracts the first entry
    without error, [UnzipRunner.run] records it and then raises
    [ZeroDivisionError] in the progress computation, so that no progress
    and no [finished_signal] is emitted; when the extraction of the first
    entry raises, the run ends with that error instead, and no file is
    recorded. *)
Theorem unzip_zero_total_raises (info : zipinfo) (rest : list zipinfo)
    (zip_path output_path : string) (fs fs1 : FS.files) :
  Py.endswith (Py.lower zip_path) ".zip" = true ->
  sum_sizes (info :: rest) = 0 ->
  stops 0%nat = false ->
  (zip_extract fs info output_path = (fs1, None) ->
   run_with percent stops zip_extract (Ok (info :: rest))
     (init zip_path output_path) fs
   = (State (Runner zip_path output_path
               [Py.join output_path (zi_filename info)] true)
        fs1 [],
      Some ZeroDivisionError)) /\
  (forall e,
     zip_extract fs info output_path = (fs1, Some e) ->
     run_with percent stops zip_extract (Ok (info :: rest))
       (init zip_path output_path) fs
     = (State (Runner zip_path output_path [] true) fs1 [], Some e)).
Proof.
  intros Hzip Hsum Hstop. unfold run_with, init. cbn [Unzip.zip_path].
  rewrite Hzip. cbn [negb]. rewrite Hsum. cbn [entries_with].
  rewrite Hstop. cbn [st_runner running negb st_fs Unzip.output_path].
  split; [intros -> | intros e ->]; reflexivity.
Qed.

End UnzipFacts.

Lemma unzip_zero_total_raises_witness :
  Unzip.run (fun a b => 100 * a / b) (fun _ => false) ["w"]
    (Ok [Unzip.ZipInfo "empty.txt" 0 []])
    (Unzip.init "processing/game.zip" "processing") ∅
  = (Unzip.State
       (Unzip.Runner "processing/game.zip" "processing"
          [Py.join "processing" "empty.txt"] true)
       (Unzip.extract ["w"] ∅ (Unzip.ZipInfo "empty.txt" 0 []) "processing")
       [],
     Some ZeroDivisionError).
Proof.
  apply (unzip_zero_total_raises (fun a b => 100 * a / b) (fun _ => false)
           (fun fs info path => (Unzip.extract ["w"] fs info path, None)));
    reflexivity.
Defined.

(** C9, as stated, fails on the empty archive: its total uncompressed size
    is zero, yet no entry is there to divide for, so the run completes and
    emits the empty list of extracted files. *)
Lemma empty_archive_completes :
  ~ (Unzip.sum_sizes [] = 0 ->
     snd (Unzip.run (fun a b => 100 * a / b) (fun _ => false) ["w"] (Ok [])
            (Unzip.init "processing/game.zip" "processing") ∅)
     = Some ZeroDivisionError).
Proof.
  intros H. specialize (H eq_refl). vm_compute in H. discriminate H.
Qed.

Example empty_archive_outcome :
  Unzip.run (fun a b => 100 * a / b) (fun _ => false) ["w"] (Ok [])
    (Unzip.init "processing/game.zip" "processing") ∅
  = (Unzip.State (Unzip.init "processing/game.zip" "processing") ∅
       [Unzip.finished_signal []],
     None).
Proof. vm_compute. reflexivity. Qed.

(** ** The resumable downloader *)

Section DownloadFacts.

Import Downloader.

Variable percent : Z -> Z -> Z.
Variable jitter : nat -> Q.
Variable stops : nat -> bool.
Variable cwd : list string.
Variable net : network.

Local Abbreviation read_chunks := (Downloader.read_chunks percent stops).
Local Abbreviation attempt := (Downloader.attempt percent stops cwd net).
Local Abbreviation attempts :=
  (Downloader.attempts percent jitter stops cwd net).
Local Abbreviation download :=
  (Downloader.download percent jitter stops cwd net).

Lemma sleeps_app (a b : list event) : sleeps (a ++ b) = sleeps a ++ sleeps b.
Proof. apply omap_app. Qed.

Lemma requests_app (a b : list event) :
  requests (a ++ b) = requests a ++ requests b.
Proof. apply omap_app. Qed.

Lemma written_app (a b : list event) :
  written (a ++ b) = written a ++ written b.
Proof. apply omap_app. Qed.

(** Reading a response neither sleeps nor sends a request, and leaves the
    retry budget alone. *)
Lemma read_chunks_quiet (total_size : Z) (k : list string)
    (body : list (list byte)) (ending : body_end) (j : nat) (s : state) :
  let r := read_chunks total_size k body ending j s in
  sleeps (st_events r.1.1) = sleeps (st_events s) /\
  requests (st_events r.1.1) = requests (st_events s) /\
  retries (st_thread r.1.1) = retries (st_thread s) /\
  filename (st_thread r.1.1) = filename (st_thread s).
Proof.
  revert j s. induction body as [|chunk body IH]; intros j s; cbv zeta.
  - cbn [Downloader.read_chunks].
    destruct (stops j), ending; cbn; auto.
  - cbn [Downloader.read_chunks].
    destruct (total_size =? 0)%Z.
    + destruct (stops j); cbn;
        rewrite ?sleeps_app, ?requests_app, ?app_nil_r; auto.
    + match goal with
      | |- context [Downloader.read_chunks _ _ _ _ _ _ _ ?s'] =>
          destruct (IH (S j) s') as (H1 & H2 & H3 & H4)
      end.
      rewrite H1, H2, H3, H4.
      destruct (stops j); cbn;
        rewrite ?sleeps_app, ?requests_app, ?app_nil_r; auto.
Qed.

(** The delay before the retry that follows attempt [i]. *)
Local Abbreviation backoff :=
  (fun i : nat => (inject_Z (2 ^ Z.of_nat i) + jitter i)%Q).

(** The trace of [n] refused attempts from index [i] on: a request and a
    sleep each. *)
Local Abbreviation retried range i n :=
  (flat_map (fun x : nat => [request range; slept (backoff x)]) (seq i n)).

Lemma sleeps_retried (range : option Z) (i n : nat) :
  sleeps (retried range i n) = map backoff (seq i n).
Proof.
  revert i. induction n as [|n IH]; intros i; [reflexivity |].
  cbn [seq flat_map map]. rewrite sleeps_app, IH. reflexivity.
Qed.

Lemma requests_retried (range : option Z) (i n : nat) :
  requests (retried range i n) = replicate n range.
Proof.
  revert i. induction n as [|n IH]; intros i; [reflexivity |].
  cbn [seq flat_map replicate]. rewrite requests_app, IH. reflexivity.
Qed.

Lemma refusal_transient (x : exchange) (e : exn) :
  refusal x = Some e -> transient e = true.
Proof.
  destruct x as [e0 | r]; cbn.
  - destruct (transient e0) eqn:H; [intros [= <-]; exact H | discriminate].
  - destruct (negb _); [intros [= <-]; reflexivity | discriminate].
Qed.

(** A refused attempt sends its request and ends in the transient error;
    it writes nothing. *)
Lemma attempt_refused (i j : nat) (s : state) (e : exn) :
  refusal (net i (st_range (resume_header cwd s))) = Some e ->
  attempt i j s
  = (emit (resume_header cwd s) [request (st_range (resume_header cwd s))],
     j, Some e).
Proof.
  unfold Downloader.attempt, resume_header. cbv zeta.
  set (s1 := if FS.exists_ cwd (st_fs s) (filename (st_thread s))
             then _ else s).
  change (st_range (emit s1 [request (st_range s1)])) with (st_range s1).
  destruct (net i (st_range s1)) as [e0 | r]; cbn [refusal].
  - destruct (transient e0); [now intros [= <-] | discriminate].
  - destruct (negb _); [now intros [= <-] | discriminate].
Qed.

(** An attempt whose exchange fails for good sends its request and ends in
    that error. *)
Lemma attempt_no_response (i j : nat) (s : state) (e : exn) :
  net i (st_range (resume_header cwd s)) = no_response e ->
  attempt i j s
  = (emit (resume_header cwd s) [request (st_range (resume_header cwd s))],
     j, Some e).
Proof.
  unfold Downloader.attempt, resume_header. cbv zeta.
  set (s1 := if FS.exists_ cwd (st_fs s) (filename (st_thread s))
             then _ else s).
  change (st_range (emit s1 [request (st_range s1)])) with (st_range s1).
  now intros ->.
Qed.

Lemma read_chunks_end (total_size : Z) (k : list string)
    (body : list (list byte)) (j : nat) (s : state) :
  forall e,
    (read_chunks total_size k body end_of_stream j s).2 = Some e ->
    transient e = false.
Proof.
  revert j s. induction body as [|chunk body IH]; intros j s e;
    cbn [Downloader.read_chunks].
  - discriminate.
  - destruct (total_size =? 0)%Z; [now intros [= <-] |]. apply IH.
Qed.

(** An attempt that is answered with status 200 or 206 and whose payload
    ends normally sends one request with the current range and ends
    without a transient error. *)
Lemma attempt_served (i j : nat) (s : state) (r0 : response) :
  net i (st_range (resume_header cwd s)) = responds r0 ->
  resp_status r0 = 200 \/ resp_status r0 = 206 ->
  resp_end r0 = end_of_stream ->
  let r := attempt i j s in
  sleeps (st_events r.1.1) = sleeps (st_events s) /\
  requests (st_events r.1.1)
  = requests (st_events s) ++ [st_range (resume_header cwd s)] /\
  (forall e, r.2 = Some e -> transient e = false).
Proof.
  intros Hnet Hstatus Hend. cbv zeta. revert Hnet.
  unfold Downloader.attempt, resume_header. cbv zeta.
  set (s1 := if FS.exists_ cwd (st_fs s) (filename (st_thread s))
             then _ else s).
  assert (st_events s1 = st_events s) as He.
  { subst s1. destruct (FS.exists_ _ _ _); [|reflexivity].
    now destruct (FS.getsize _ _ _). }
  change (st_range (emit s1 [request (st_range s1)])) with (st_range s1).
  intros ->.
  assert (negb ((resp_status r0 =? 200)%Z || (resp_status r0 =? 206)%Z)
          = false) as ->
    by (destruct Hstatus as [-> | ->]; reflexivity).
  assert (sleeps (st_events (emit s1 [request (st_range s1)]))
          = sleeps (st_events s)) as Hs
    by (cbn; now rewrite sleeps_app, He, app_nil_r).
  assert (requests (st_events (emit s1 [request (st_range s1)]))
          = requests (st_events s) ++ [st_range s1]) as Hq
    by (cbn; now rewrite requests_app, He).
  destruct (match content_range_total r0 with
            | Some n => Some n
            | None => content_length r0
            end) as [total_size|];
    [|cbn [fst snd]; split; [exact Hs |]; split; [exact Hq |];
      now intros e [= <-]].
  destruct (FS.resolve_file cwd _) as [k|];
    [|cbn [fst snd]; split; [exact Hs |]; split; [exact Hq |];
      now intros e [= <-]].
  rewrite Hend.
  match goal with
  | |- context [Downloader.read_chunks _ _ ?t ?k ?b ?e ?j ?s'] =>
      destruct (read_chunks_quiet t k b e j s') as (H1 & H2 & _ & _);
      pose proof (read_chunks_end t k b j s') as H3
  end.
  rewrite H1, H2. split; [exact Hs |]. split; [exact Hq |]. exact H3.
Qed.

(** Once the range header agrees with the file, the existence test of a
    later attempt changes nothing as long as nothing is written. *)
Lemma resume_header_steady (s : state) (t0 : thread) (fs : FS.files)
    (range : option Z) :
  resume_header cwd s = State t0 fs range (st_events s) ->
  forall evs,
    resume_header cwd (State t0 fs range evs) = State t0 fs range evs.
Proof.
  destruct s as [ts fss rs es]. unfold resume_header.
  cbn [st_thread st_fs st_range st_events].
  destruct (FS.exists_ cwd fss (filename ts)) eqn:Hex.
  - destruct (FS.getsize cwd fss (filename ts)) as [n | e] eqn:Hsize.
    + intros [= <- <- <-] evs. cbn [filename set_existing].
      now rewrite Hex, Hsize.
    + intros [= <- <- <-] evs. now rewrite Hex, Hsize.
  - intros [= <- <- <-] evs. now rewrite Hex.
Qed.

(** The retry loop over attempts that are refused one after the other:
    each is followed by its sleep; when they use up the budget the error
    of the last one is raised, and otherwise the loop goes on with the
    next attempt. *)
Lemma attempts_refused (t0 : thread) (fs : FS.files) (range : option Z)
    (errs : list exn) :
  forall (m i j : nat) (s : state),
    resume_header cwd s = State t0 fs range (st_events s) ->
    (i + m)%nat = retries t0 ->
    (retries t0 <= 1024)%nat ->
    (length errs <= m)%nat ->
    (forall x e, errs !! x = Some e ->
                 refusal (net (i + x)%nat range) = Some e) ->
    exists s',
      resume_header cwd s' = State t0 fs range (st_events s') /\
      st_events s' = st_events s ++ retried range i (length errs) /\
      ((length errs = m /\ attempts m i j s = (s', last errs)) \/
       ((length errs < m)%nat /\
        attempts m i j s
        = attempts (m - length errs) (i + length errs) j s')).
Proof.
  induction errs as [|e errs IH]; intros m i j s Hsteady Hbudget Hmax Hlen
    Hrefused.
  - exists s. split; [exact Hsteady |].
    split; [cbn; now rewrite app_nil_r |].
    destruct m as [|m]; [left; now split |].
    right. split; [cbn; lia |]. cbn [length].
    now rewrite Nat.sub_0_r, Nat.add_0_r.
  - cbn [length] in *. destruct m as [|m]; [lia |].
    cbn [Downloader.attempts].
    pose proof (Hrefused 0%nat e eq_refl) as He.
    rewrite Nat.add_0_r in He.
    pose proof (refusal_transient _ _ He) as Htransient.
    rewrite (attempt_refused i j s e) by (rewrite Hsteady; exact He).
    rewrite Hsteady. cbn [st_range emit st_thread st_fs st_events].
    rewrite Htransient.
    destruct (Z.leb_spec 1024 (Z.of_nat i)) as [Hbig | _]; [lia |].
    set (s2 := emit (emit (State t0 fs range (st_events s))
                       [request range])
                 [slept (inject_Z (2 ^ Z.of_nat i) + jitter i)%Q]).
    assert (resume_header cwd s2 = State t0 fs range (st_events s2))
      as Hsteady2
      by exact (resume_header_steady s t0 fs range Hsteady (st_events s2)).
    assert (st_events s2 ++ retried range (S i) (length errs)
            = st_events s ++ retried range i (S (length errs))) as Hevents.
    { unfold s2. cbn [emit st_events st_thread st_fs st_range].
      rewrite <- !app_assoc. reflexivity. }
    destruct (Z.eqb_spec (Z.of_nat i) (Z.of_nat (retries t0) - 1))
      as [Hlast | Hmore].
    + assert (m = 0%nat) as -> by lia.
      destruct errs as [|e' errs]; [|cbn in Hlen; lia].
      exists s2. split; [exact Hsteady2 |].
      split; [rewrite <- Hevents; cbn; now rewrite app_nil_r |].
      left. now split.
    + destruct (IH m (S i) j s2 Hsteady2) as (s' & Hs' & Hev & Hres);
        [lia | exact Hmax | lia | |].
      { intros x e' Hx. replace (S i + x)%nat with (i + S x)%nat by lia.
        now apply Hrefused. }
      exists s'. split; [exact Hs' |].
      split; [now rewrite Hev, Hevents |].
      destruct Hres as [[Hn Hres] | [Hn Hres]].
      * left. split; [lia |]. rewrite Hres. f_equal.
        destruct errs as [|e' errs]; [cbn in Hn; lia | reflexivity].
      * right. split; [lia |]. rewrite Hres. cbn [Nat.sub].
        now replace (S i + length errs)%nat with (i + S (length errs))%nat
          by lia.
Qed.

(** The first existence test of a download. *)
Lemma resume_header_initial (t : thread) (fs : FS.files) :
  let range :=
    (fun data => Z.of_nat (length data))
      <$> (FS.resolve_file cwd (filename t) ≫= fun k => fs !! k) in
  exists t0,
    resume_header cwd (State t fs None []) = State t0 fs range [] /\
    retries t0 = retries t.
Proof.
  cbv zeta. unfold resume_header, FS.exists_, FS.getsize.
  cbn [st_thread st_fs st_range st_events].
  destruct (FS.resolve_file cwd (filename t)) as [k|];
    cbn [mbind option_bind fmap option_fmap option_map];
    [|exists t; now split].
  destruct (fs !! k) as [data|] eqn:Hk;
    cbn [fmap option_fmap option_map].
  - rewrite bool_decide_eq_true_2 by eauto. eexists. split; reflexivity.
  - rewrite bool_decide_eq_false_2 by (intros [? H]; discriminate).
    exists t. now split.
Qed.

(** [DownloadThread.download] retries after a transient failure,
    sleeping in between.  Let the first [n] attempts be refused before any
    byte arrives (the transport fails with a payload error or a timeout,
    or the status is neither 200 nor 206), with [n] at most [retries] and
    [retries] at most 1024.  Each of these attempts sends its request,
    with the range of the file as it is on disk, and is followed by one
    sleep; the sleep after attempt [i] lasts [2^i] plus the jitter, which
    is between [2^i] and [2^i + 1] seconds.  Nothing is written.  If that
    was the whole budget ([n = retries]), nothing else happens and the
    error of the last attempt is raised.  Otherwise attempt [n] is made:
    if it fails with an error that is not transient, that error is raised
    at once, without a sleep; if it is answered with status 200 or 206 and
    its payload ends normally, there is no further request and no further
    sleep, and no transient error is raised. *)
Theorem retry_backoff (t : thread) (fs : FS.files) (errs : list exn) :
  let range :=
    (fun data => Z.of_nat (length data))
      <$> (FS.resolve_file cwd (filename t) ≫= fun k => fs !! k) in
  let n := length errs in
  (retries t <= 1024)%nat ->
  (n <= retries t)%nat ->
  (forall i e, errs !! i = Some e -> refusal (net i range) = Some e) ->
  (forall i, 0 <= jitter i <= 1)%Q ->
  let r := download t fs in
  (forall i : nat,
     (inject_Z (2 ^ Z.of_nat i) <= backoff i <= inject_Z (2 ^ Z.of_nat i) + 1)%Q)
  /\
  (n = retries t ->
   st_events r.1 = retried range 0 n /\ st_fs r.1 = fs /\ r.2 = last errs) /\
  (forall e,
     (n < retries t)%nat -> net n range = no_response e ->
     transient e = false ->
     st_events r.1 = retried range 0 n ++ [request range] /\
     st_fs r.1 = fs /\ r.2 = Some e) /\
  (forall r0,
     (n < retries t)%nat -> net n range = responds r0 ->
     resp_status r0 = 200 \/ resp_status r0 = 206 ->
     resp_end r0 = end_of_stream ->
     sleeps (st_events r.1) = map backoff (seq 0 n) /\
     requests (st_events r.1) = replicate (S n) range /\
     (forall e, r.2 = Some e -> transient e = false)).
Proof.
  intros range n Hmax Hn Hrefused Hjitter r.
  split.
  { intros i. destruct (Hjitter i) as [Hlo Hhi]. split; lra. }
  destruct (resume_header_initial t fs) as (t0 & Hinit & Hretries).
  fold range in Hinit.
  destruct (attempts_refused t0 fs range errs (retries t) 0 0
              (State t fs None []))
    as (s' & Hsteady & Hevents & Hres);
    [exact Hinit | now rewrite Hretries | now rewrite Hretries | exact Hn
    | exact Hrefused |].
  cbn [st_events app] in Hevents. fold n in Hevents, Hres.
  assert (st_fs s' = fs) as Hfs.
  { apply (f_equal st_fs) in Hsteady. cbn [st_fs] in Hsteady.
    rewrite <- Hsteady. unfold resume_header.
    destruct (FS.exists_ _ _ _); [|reflexivity].
    now destruct (FS.getsize _ _ _). }
  assert (st_range (resume_header cwd s') = range) as Hrange
    by now rewrite Hsteady.
  unfold r, Downloader.download.
  split; [|split].
  - intros Hall. destruct Hres as [[_ ->] | [Hlt _]]; [|lia].
    cbn [fst snd]. now rewrite Hevents, Hfs.
  - intros e Hlt Hnet Hfatal. destruct Hres as [[Heq _] | [_ ->]]; [lia |].
    destruct (retries t - n)%nat as [|q] eqn:Hq; [lia |].
    cbn [Downloader.attempts Nat.add].
    rewrite (attempt_no_response n 0 s' e) by (rewrite Hrange; exact Hnet).
    rewrite Hfatal, Hsteady.
    cbn [fst snd emit st_events st_fs st_range st_thread].
    now rewrite Hevents.
  - intros r0 Hlt Hnet Hstatus Hend.
    destruct Hres as [[Heq _] | [_ ->]]; [lia |].
    destruct (retries t - n)%nat as [|q] eqn:Hq; [lia |].
    cbn [Downloader.attempts Nat.add].
    destruct (attempt_served n 0 s' r0) as (Hs & Hr & Hnone);
      [rewrite Hrange; exact Hnet | exact Hstatus | exact Hend |].
    rewrite Hevents, sleeps_retried in Hs.
    rewrite Hrange, Hevents, requests_retried in Hr.
    destruct (attempt n 0 s') as [[s1 j1] [e|]]; cbn [fst snd] in *.
    + rewrite (Hnone e eq_refl). cbn [fst snd].
      split; [exact Hs |].
      split; [rewrite Hr; symmetry; apply replicate_S_end |].
      intros e' [= <-]. now apply Hnone.
    + split; [exact Hs |].
      split; [rewrite Hr; symmetry; apply replicate_S_end |].
      discriminate.
Qed.

End DownloadFacts.

Lemma retry_backoff_witness :
  let r :=
    Downloader.download (fun a b => 100 * a / b) (fun _ => 1 # 2)
      (fun _ => false) ["w"]
      (fun _ _ => Downloader.no_response TimeoutError)
      (Downloader.init "https://host/g.zip" "processing/g.zip" 3) ∅ in
  Downloader.st_events r.1
  = flat_map
      (fun x : nat =>
         [Downloader.request None;
          Downloader.slept (inject_Z (2 ^ Z.of_nat x) + (1 # 2))%Q])
      (seq 0 3) /\
  Downloader.st_fs r.1 = ∅ /\
  r.2 = Some TimeoutError.
Proof.
  destruct (retry_backoff (fun a b => 100 * a / b) (fun _ => 1 # 2)
              (fun _ => false) ["w"]
              (fun _ _ => Downloader.no_response TimeoutError)
              (Downloader.init "https://host/g.zip" "processing/g.zip" 3) ∅
              [TimeoutError; TimeoutError; TimeoutError])
    as (_ & Hall & _).
  - cbn. lia.
  - cbn. lia.
  - intros [|[|[|i]]] e [= <-]; reflexivity.
  - intros i. split; discriminate.
  - exact (Hall eq_refl).
Defined.

(** Three attempts that all time out: three requests, the delays
    [1 + 1/2], [2 + 1/2] and [4 + 1/2], and the timeout reaches the
    caller. *)
Example retries_exhausted :
  let r :=
    Downloader.download (fun a b => 100 * a / b) (fun _ => 1 # 2)
      (fun _ => false) ["w"]
      (fun _ _ => Downloader.no_response TimeoutError)
      (Downloader.init "https://host/g.zip" "processing/g.zip" 3) ∅ in
  Downloader.st_events r.1
  = [Downloader.request None; Downloader.slept (1 + (1 # 2));
     Downloader.request None; Downloader.slept (2 + (1 # 2));
     Downloader.request None; Downloader.slept (4 + (1 # 2))]
  /\ r.2 = Some TimeoutError.
Proof. vm_compute. split; reflexivity. Qed.

(** ** The stop flag of the downloader *)

Section StopFlag.

Import Downloader.

Variable percent : Z -> Z -> Z.
Variable jitter : nat -> Q.
Variable cwd : list string.
Variable net : network.

(** Two schedules of [stop()] calls. *)
Variables stops stops' : nat -> bool.

Lemma erase_running_eq (s s' : state) :
  erase_running s = erase_running s' <->
  url (st_thread s) = url (st_thread s') /\
  filename (st_thread s) = filename (st_thread s') /\
  retries (st_thread s) = retries (st_thread s') /\
  existing_file_size (st_thread s) = existing_file_size (st_thread s') /\
  total_downloaded (st_thread s) = total_downloaded (st_thread s') /\
  st_fs s = st_fs s' /\ st_range s = st_range s' /\
  st_events s = st_events s'.
Proof.
  destruct s as [[] ? ? ?], s' as [[] ? ? ?]. unfold erase_running. cbn.
  split.
  - intros [= -> -> -> -> -> -> -> ->]. repeat split.
  - intros (-> & -> & -> & -> & -> & -> & -> & ->). reflexivity.
Qed.

Lemma read_chunks_oblivious (total_size : Z) (k : list string)
    (body : list (list byte)) (ending : body_end) (j : nat)
    (s s' : state) :
  erase_running s = erase_running s' ->
  let r := read_chunks percent stops total_size k body ending j s in
  let r' := read_chunks percent stops' total_size k body ending j s' in
  erase_running r.1.1 = erase_running r'.1.1 /\
  r.1.2 = r'.1.2 /\ r.2 = r'.2.
Proof.
  revert j s s'. induction body as [|chunk body IH]; intros j s s' Hs;
    cbv zeta; cbn [read_chunks].
  - apply erase_running_eq in Hs.
    destruct (stops j), (stops' j), ending; cbn [fst snd];
      (split; [apply erase_running_eq; cbn; tauto | auto]).
  - destruct (total_size =? 0)%Z.
    + apply erase_running_eq in Hs.
      destruct Hs as (H1 & H2 & H3 & H4 & H5 & H6 & H7 & H8).
      destruct (stops j), (stops' j); cbn [fst snd];
        (split; [apply erase_running_eq; cbn;
                 rewrite ?H1, ?H2, ?H3, ?H4, ?H5, ?H6, ?H7, ?H8; tauto
                | auto]).
    + apply IH. apply erase_running_eq in Hs.
      destruct Hs as (H1 & H2 & H3 & H4 & H5 & H6 & H7 & H8).
      apply erase_running_eq.
      destruct (stops j), (stops' j); cbn;
        rewrite ?H1, ?H2, ?H3, ?H4, ?H5, ?H6, ?H7, ?H8; tauto.
Qed.

Lemma attempt_oblivious (i j : nat) (s s' : state) :
  erase_running s = erase_running s' ->
  let r := attempt percent stops cwd net i j s in
  let r' := attempt percent stops' cwd net i j s' in
  erase_running r.1.1 = erase_running r'.1.1 /\
  r.1.2 = r'.1.2 /\ r.2 = r'.2.
Proof.
  intros Hs. cbv zeta.
  destruct s as [[u f n e t b] fs range evs],
           s' as [[u' f' n' e' t' b'] fs' range' evs'].
  unfold erase_running in Hs. cbn in Hs.
  injection Hs as <- <- <- <- <- <- <- <-.
  unfold attempt. cbn [st_thread st_fs filename].
  destruct (FS.exists_ cwd fs f);
    [destruct (FS.getsize cwd fs f) as [size|]|];
    cbn [emit st_range st_events st_thread st_fs set_existing];
    match goal with
    | |- context [net i ?r] => destruct (net i r) as [err | resp]
    end;
    try (cbn [fst snd]; split; [reflexivity | auto]);
    (destruct (negb _); [cbn [fst snd]; split; [reflexivity | auto] |]);
    (destruct (match content_range_total resp with
               | Some n => Some n
               | None => content_length resp
               end) as [total_size|];
       [|cbn [fst snd]; split; [reflexivity | auto]]);
    cbn [filename set_existing set_total st_thread];
    (destruct (FS.resolve_file cwd f) as [k|];
       [|cbn [fst snd]; split; [reflexivity | auto]]);
    apply read_chunks_oblivious; reflexivity.
Qed.

Lemma attempts_oblivious (n i j : nat) (s s' : state) :
  erase_running s = erase_running s' ->
  let r := attempts percent jitter stops cwd net n i j s in
  let r' := attempts percent jitter stops' cwd net n i j s' in
  erase_running r.1 = erase_running r'.1 /\ r.2 = r'.2.
Proof.
  revert i j s s'. induction n as [|n IH]; intros i j s s' Hs; cbv zeta;
    cbn [attempts]; [now split |].
  destruct (attempt_oblivious i j s s' Hs) as (H1 & H2 & H3).
  destruct (attempt percent stops cwd net i j s) as [[s1 j1] r1],
           (attempt percent stops' cwd net i j s') as [[s1' j1'] r1'].
  cbn [fst snd] in H1, H2, H3. subst j1' r1'.
  destruct r1 as [e|]; [|now split].
  destruct (transient e); [|now split].
  destruct (1024 <=? Z.of_nat i)%Z; [now split |].
  pose proof H1 as H1'. apply erase_running_eq in H1'.
  destruct H1' as (_ & _ & Hr & _).
  cbn [emit st_thread]. rewrite <- Hr.
  assert (erase_running
            (emit s1 [slept (inject_Z (2 ^ Z.of_nat i) + jitter i)])
          = erase_running
              (emit s1' [slept (inject_Z (2 ^ Z.of_nat i) + jitter i)]))
    as Hemit.
  { apply erase_running_eq in H1. apply erase_running_eq. cbn.
    destruct H1 as (-> & -> & -> & -> & -> & -> & -> & ->). repeat split. }
  destruct (Z.of_nat i =? Z.of_nat (retries (st_thread s1)) - 1)%Z;
    [now split |].
  now apply IH.
Qed.

(** [DownloadThread.download] never reads the stop flag: whatever calls of
    [stop()] are made while it runs, it sends the same requests, writes
    the same chunks, sleeps as long and ends the same way. *)
Lemma download_oblivious_to_stop (t : thread) (fs : FS.files) :
  let r := download percent jitter stops cwd net t fs in
  let r' := download percent jitter stops' cwd net t fs in
  st_events r.1 = st_events r'.1 /\ st_fs r.1 = st_fs r'.1 /\ r.2 = r'.2.
Proof.
  cbv zeta. unfold download.
  destruct (attempts_oblivious (retries t) 0 0 (State t fs None [])
              (State t fs None []) eq_refl) as [H1 H2].
  apply erase_running_eq in H1. tauto.
Qed.

End StopFlag.

(** ** Resuming a partial download *)

Section Resume.

Import Downloader.

Variable percent : Z -> Z -> Z.
Variable jitter : nat -> Q.
Variable stops : nat -> bool.
Variable cwd : list string.
Variable net : network.

(** A response that ends with the end of the stream, for a non-zero total
    size: every chunk is appended to the file, and nothing is raised. *)
Lemma read_chunks_appends (total_size : Z) (k : list string)
    (body : list (list byte)) (j : nat) (s : state) (old : list byte) :
  total_size <> 0 ->
  st_fs s !! k = Some old ->
  let r := read_chunks percent stops total_size k body end_of_stream j s in
  r.2 = None /\
  st_fs r.1.1 !! k = Some (old ++ concat body) /\
  written (st_events r.1.1) = written (st_events s) ++ body.
Proof.
  intros Htotal. revert j s old.
  induction body as [|chunk body IH]; intros j s old Hold; cbv zeta;
    cbn [read_chunks].
  - destruct (stops j); cbn; rewrite !app_nil_r; auto.
  - destruct (Z.eqb_spec total_size 0) as [|_]; [congruence |].
    match goal with
    | |- context [read_chunks _ _ _ _ _ _ _ ?s'] =>
        destruct (IH (S j) s' (old ++ chunk)) as (H1 & H2 & H3)
    end.
    { destruct (stops j); cbn; unfold append; cbn;
        rewrite lookup_insert_eq, Hold; reflexivity. }
    rewrite H1, H2, H3. split; [reflexivity |].
    split; [now rewrite <- app_assoc |].
    destruct (stops j); cbn; rewrite !written_app; cbn;
      rewrite ?app_nil_r, <- ?app_assoc; reflexivity.
Qed.

Variable url_ filename_ : string.
Variable k : list string.
Variable fs : FS.files.
Variables local content : list byte.

Hypothesis file_key : FS.resolve_file cwd filename_ = Some k.
Hypothesis partial_file : fs !! k = Some local.
Hypothesis smaller : (length local < length content)%nat.
Hypothesis server : honours_range net content.

(** A partial file and a server that honours byte ranges: the first
    attempt asks for the bytes from the local size on, appends them, and
    the file then holds the local bytes followed by the rest of the remote
    content, as many bytes as the remote file has.  Nothing is requested
    twice and nothing already on disk is fetched again. *)
Theorem download_resumes (retries_ : nat) :
  (0 < retries_)%nat ->
  let r := download percent jitter stops cwd net
             (init url_ filename_ retries_) fs in
  r.2 = None /\
  requests (st_events r.1) = [Some (Z.of_nat (length local))] /\
  sleeps (st_events r.1) = [] /\
  concat (written (st_events r.1)) = drop (length local) content /\
  file_of cwd r.1 = local ++ drop (length local) content /\
  length (file_of cwd r.1) = length content.
Proof.
  intros Hretries. cbv zeta. unfold download.
  destruct retries_ as [|n]; [lia |]. unfold init.
  cbn [attempts retries]. unfold attempt.
  cbn [st_thread st_fs filename].
  assert (FS.exists_ cwd fs filename_ = true) as ->.
  { unfold FS.exists_. rewrite file_key, partial_file.
    apply bool_decide_eq_true. eauto. }
  assert (FS.getsize cwd fs filename_ = Ok (Z.of_nat (length local))) as ->.
  { unfold FS.getsize. now rewrite file_key, partial_file. }
  cbn [emit st_range st_events st_thread st_fs set_existing filename].
  destruct (server 0%nat (length local) smaller) as (body & -> & Hbody & _).
  cbn [resp_status content_range_total negb Z.eqb orb Pos.eqb].
  rewrite file_key.
  cbn [resp_body resp_end set_total existing_file_size total_downloaded].
  match goal with
  | |- context [read_chunks _ _ ?t ?k' ?b _ ?j ?s'] =>
      destruct (read_chunks_appends t k' b j s' local) as (H1 & H2 & H3);
        [lia
        |cbn; unfold append; rewrite lookup_insert_eq, partial_file;
         cbn; now rewrite app_nil_r
        |];
      destruct (read_chunks_quiet percent stops t k' b end_of_stream j s')
        as (Hs & Hq & _ & Hf);
      destruct (read_chunks percent stops t k' b end_of_stream j s')
        as [[s1 j1] res] eqn:Hread
  end.
  cbn [fst snd] in *. subst res. cbn [fst snd].
  split; [reflexivity |].
  split; [exact Hq |]. split; [exact Hs |].
  split; [rewrite H3; cbn; exact Hbody |].
  assert (file_of cwd s1 = local ++ drop (length local) content) as Hfile.
  { unfold file_of. rewrite Hf. cbn. rewrite file_key, H2, Hbody.
    reflexivity. }
  split; [exact Hfile |].
  rewrite Hfile, length_app, length_drop. lia.
Qed.

End Resume.

Lemma chunks_nonempty {A : Type} (n : nat) (l : list A) :
  (0 < n)%nat -> Forall (fun c => c <> []) (Splitter.chunks n l).
Proof.
  intros Hn. apply Forall_lookup. intros j c Hj.
  now apply chunks_lookup in Hj as [_ Hc].
Qed.

(** A server that sends the requested bytes [n] at a time honours byte
    ranges. *)
Lemma range_server_honours (n : nat) (content : list byte) :
  (0 < n)%nat ->
  Downloader.honours_range (Downloader.range_server n content) content.
Proof.
  intros Hn i start Hstart. unfold Downloader.range_server.
  rewrite bool_decide_eq_true_2 by lia.
  rewrite Nat2Z.id. eexists. split.
  - repeat f_equal. lia.
  - split; [now apply concat_chunks | now apply chunks_nonempty].
Qed.

Lemma download_resumes_witness :
  let fs : FS.files := {[ ["w"; "processing"; "g.zip"] := [x01; x02; x03] ]} in
  let content := [x01; x02; x03; x04; x05; x06; x07] in
  let r :=
    Downloader.download (fun a b => 100 * a / b) (fun _ => 1 # 2)
      (fun _ => false) ["w"] (Downloader.range_server 2 content)
      (Downloader.init "https://host/g.zip" "processing/g.zip" 50) fs in
  r.2 = None /\
  Downloader.requests (Downloader.st_events r.1) = [Some 3] /\
  Downloader.file_of ["w"] r.1 = content.
Proof.
  intros fs content.
  destruct (download_resumes (fun a b => 100 * a / b) (fun _ => 1 # 2)
              (fun _ => false) ["w"] (Downloader.range_server 2 content)
              "https://host/g.zip" "processing/g.zip"
              ["w"; "processing"; "g.zip"] fs [x01; x02; x03] content)
    with (retries_ := 50%nat)
    as (H1 & H2 & _ & _ & H5 & _).
  - reflexivity.
  - apply lookup_singleton_eq.
  - simpl. lia.
  - apply range_server_honours. lia.
  - lia.
  - split; [exact H1 |]. split; [exact H2 | exact H5].
Defined.

(** ** The extractor: complete and cancelled runs *)

Section UnzipRuns.

Import Unzip.

Variable percent : Z -> Z -> Z.
Variable stops : nat -> bool.
Variable zip_extract : FS.files -> zipinfo -> string -> FS.files * option exn.

Lemma extract_each_count (path : string) (infos : list zipinfo)
    (fs : FS.files) :
  ((extract_each zip_extract path infos fs).1.2 <= length infos)%nat.
Proof.
  revert fs. induction infos as [|info infos IH]; intros fs;
    cbn [extract_each]; [cbn; lia |].
  destruct (zip_extract fs info path) as [fs1 [e|]]; [cbn; lia |].
  specialize (IH fs1).
  destruct (extract_each zip_extract path infos fs1) as [[fs2 n] r].
  cbn in *. lia.
Qed.

(** The loop over the entries when [stop()] is first seen at entry
    [j + k], or never ([k] entries are left): the first [k] entries are
    extracted until one of them raises, each one that is extracted being
    followed by its progress signal, and nothing else happens. *)
Lemma entries_until_stop (total_size : Z) (infos : list zipinfo) :
  total_size <> 0 ->
  forall (k j : nat) (extracted_size : Z) (s : state),
    running (st_runner s) = true ->
    (forall i, (i < k)%nat -> stops (j + i)%nat = false) ->
    k = length infos \/ ((k < length infos)%nat /\ stops (j + k)%nat = true) ->
    let e := extract_each zip_extract (output_path (st_runner s))
               (take k infos) (st_fs s) in
    entries_with percent stops zip_extract total_size extracted_size infos j s
    = (State
         (Runner (zip_path (st_runner s)) (output_path (st_runner s))
            (extracted_files (st_runner s)
             ++ extracted_paths (output_path (st_runner s))
                  (take e.1.2 infos))
            (if e.2 is Some _ then true
             else bool_decide (k = length infos)))
         e.1.1
         (st_signals s
          ++ progress_trace percent total_size extracted_size
               (take e.1.2 infos)),
       e.2).
Proof.
  intros Htotal. induction infos as [|info infos IH];
    intros k j extracted_size s Hrun Hbefore Hk; cbv zeta.
  - assert (k = 0%nat) as -> by (destruct Hk as [-> | [Hlt _]];
                                  [reflexivity | simpl in Hlt; lia]).
    cbn. rewrite !app_nil_r. destruct s as [[] ? ?]. cbn in *.
    now subst.
  - cbn [entries_with]. destruct k as [|k].
    + destruct Hk as [Hk | [_ Hstop]]; [discriminate |].
      rewrite Nat.add_0_r in Hstop. rewrite Hstop.
      cbn. rewrite !app_nil_r. reflexivity.
    + assert (stops j = false) as ->
        by (rewrite <- (Nat.add_0_r j); apply Hbefore; lia).
      rewrite Hrun. cbn [negb take extract_each].
      destruct (zip_extract (st_fs s) info (output_path (st_runner s)))
        as [fs1 [err|]].
      * destruct s as [[] ? ?]. cbn in *. rewrite !app_nil_r. now subst.
      * destruct (Z.eqb_spec total_size 0) as [|_]; [congruence |].
        rewrite (IH k (S j)).
        -- cbn [st_runner st_fs st_signals zip_path output_path
                extracted_files].
           destruct (extract_each zip_extract (output_path (st_runner s))
                       (take k infos) fs1) as [[fs2 n] r].
           cbn [fst snd take progress_trace].
           unfold extracted_paths. cbn [map length].
           rewrite <- !app_assoc. cbn [app].
           repeat f_equal.
           destruct r; [reflexivity |]. apply bool_decide_ext. lia.
        -- reflexivity.
        -- intros i Hi. replace (S j + i)%nat with (j + S i)%nat by lia.
           apply Hbefore. lia.
        -- cbn [length] in Hk.
           replace (S j + k)%nat with (j + S k)%nat by lia.
           destruct Hk as [Hk | [Hlt Hstop]];
             [left; lia | right; split; [lia | exact Hstop]].
Qed.

(** A run over a zip archive with a non-zero total size.  The entries
    before the first [stop()] are handed to the library in archive order,
    each on what the one before it left on disk, until one raises.  Each
    entry that is extracted without error is recorded, under the output
    directory joined with its name as the archive gives it, and followed
    by one progress signal.  If none raises, the run then emits
    [finished_signal] with exactly the recorded paths; if one raises, the
    run ends with that error and emits no [finished_signal].  The entries
    from the stop on, and those after one that raised, are never handed
    to the library. *)
Theorem unzip_extracts_until_stopped (infolist : list zipinfo)
    (zip_path_ output_path_ : string) (fs : FS.files) (k : nat) :
  Py.endswith (Py.lower zip_path_) ".zip" = true ->
  sum_sizes infolist <> 0 ->
  (forall i, (i < k)%nat -> stops i = false) ->
  k = length infolist \/ ((k < length infolist)%nat /\ stops k = true) ->
  let r := run_with percent stops zip_extract (Ok infolist)
             (init zip_path_ output_path_) fs in
  let e := extract_each zip_extract output_path_ (take k infolist) fs in
  let done := take e.1.2 infolist in
  (e.1.2 <= k)%nat /\
  r.2 = e.2 /\
  st_fs r.1 = e.1.1 /\
  extracted_files (st_runner r.1) = extracted_paths output_path_ done /\
  st_signals r.1
  = progress_trace percent (sum_sizes infolist) 0 done
    ++ (if e.2 is Some _ then []
        else [finished_signal (extracted_paths output_path_ done)]) /\
  running (st_runner r.1)
  = (if e.2 is Some _ then true else bool_decide (k = length infolist)).
Proof.
  intros Hzip Htotal Hbefore Hk. cbv zeta. unfold run_with, init.
  cbn [Unzip.zip_path]. rewrite Hzip. cbn [negb].
  rewrite (entries_until_stop (sum_sizes infolist) infolist Htotal k 0 0
             (State (Runner zip_path_ output_path_ [] true) fs []));
    [|reflexivity | exact Hbefore | exact Hk].
  cbn [st_runner st_fs st_signals output_path zip_path extracted_files app].
  pose proof (extract_each_count output_path_ (take k infolist) fs) as Hn.
  rewrite length_take in Hn.
  destruct (extract_each zip_extract output_path_ (take k infolist) fs)
    as [[fs2 n] [err|]]; cbn [fst snd] in *.
  - split; [lia |]. rewrite app_nil_r. repeat split.
  - split; [lia |]. repeat split.
Qed.

End UnzipRuns.

Lemma unzip_extracts_until_stopped_witness :
  let archive :=
    [Unzip.ZipInfo "a.iso" 2 [x01; x02]; Unzip.ZipInfo "b.txt" 1 [x03];
     Unzip.ZipInfo "c.txt" 1 [x04]] in
  let r :=
    Unzip.run (fun a b => 100 * a / b) (fun j => bool_decide (j = 2%nat))
      ["w"] (Ok archive) (Unzip.init "processing/g.zip" "processing") ∅ in
  r.2 = None /\
  Unzip.extracted_files (Unzip.st_runner r.1)
  = ["processing/a.iso"; "processing/b.txt"] /\
  Unzip.running (Unzip.st_runner r.1) = false.
Proof.
  intros archive.
  destruct (unzip_extracts_until_stopped (fun a b => 100 * a / b)
              (fun j => bool_decide (j = 2%nat))
              (fun fs info path => (Unzip.extract ["w"] fs info path, None))
              archive "processing/g.zip" "processing" ∅ 2)
    as (_ & H1 & _ & H2 & _ & H5).
  - reflexivity.
  - discriminate.
  - intros i Hi. apply bool_decide_eq_false. lia.
  - right. split; [simpl; lia | reflexivity].
  - split; [exact H1 |]. split; [exact H2 | exact H5].
Defined.

(** An archive whose second entry fails its check: the first entry is
    extracted and reported, the run ends with the error of the second, and
    the third entry is never touched. *)
Example unzip_stops_at_failing_entry :
  let archive :=
    [Unzip.ZipInfo "a.iso" 2 [x01; x02]; Unzip.ZipInfo "b.txt" 1 [x03];
     Unzip.ZipInfo "c.txt" 1 [x04]] in
  let zip_extract fs info path :=
    if String.eqb (Unzip.zi_filename info) "b.txt"
    then (fs, Some (BadZipFile "b.txt"))
    else (Unzip.extract ["w"] fs info path, None) in
  Unzip.run_with (fun a b => 100 * a / b) (fun _ => false) zip_extract
    (Ok archive) (Unzip.init "processing/g.zip" "processing") ∅
  = (Unzip.State
       (Unzip.Runner "processing/g.zip" "processing" ["processing/a.iso"]
          true)
       {[ ["w"; "processing"; "a.iso"] := [x01; x02] ]}
       [Unzip.progress_signal 50],
     Some (BadZipFile "b.txt")).
Proof. vm_compute. reflexivity. Qed.

(** ** The queue *)

Section QueueFacts.

Import GUI.

Lemma duplicate_spec (q : list queue_item) (name : string) (idx : Z) :
  duplicate q name idx = true <-> (name, idx) ∈ q.
Proof.
  unfold duplicate. rewrite existsb_exists. split.
  - intros ([n i] & Hin & H). cbn in H.
    apply andb_prop in H as [Hn Hi].
    apply String.eqb_eq in Hn as ->. apply Z.eqb_eq in Hi as ->.
    now apply list_elem_of_In.
  - intros Hin. exists (name, idx). split; [now apply list_elem_of_In |].
    cbn. now rewrite String.eqb_refl, Z.eqb_refl.
Qed.

(** What [add_to_queue] does to the queue: the old queue stays in front,
    in order, and the selected names that were not queued yet follow,
    once each. *)
Lemma add_to_queue_spec (selected_items : list (Z * string)) (idx : Z)
    (g : gui) :
  let g' := add_to_queue selected_items idx g in
  queue_txt g' = queue_txt g /\
  processed_items g' = processed_items g /\
  total_items g' = total_items g /\
  clickables_enabled g' = clickables_enabled g /\
  (exists added,
     queue_list g' = queue_list g ++ map (fun n => (n, idx)) added /\
     NoDup added /\
     (forall n, n ∈ added <->
                n ∈ selected_names selected_items
                /\ (n, idx) ∉ queue_list g)).
Proof.
  revert g. induction selected_items as [|[column name] rest IH];
    intros g; cbv zeta.
  - cbn. repeat split; try reflexivity.
    exists []. cbn. rewrite app_nil_r.
    split; [reflexivity |]. split; [constructor |].
    intros n. split; [intros H; inversion H | intros [H _]; inversion H].
  - cbn [add_to_queue]. unfold selected_names.
    destruct (Z.eqb_spec column 0) as [-> | Hcol].
    + rewrite filter_cons_True by reflexivity. cbn [map snd].
      destruct (duplicate (queue_list g) name idx) eqn:Hdup.
      * apply duplicate_spec in Hdup.
        destruct (IH g) as (H1 & H2 & H3 & H4 & added & Hq & Hnd & Hin).
        repeat split; try assumption.
        exists added. split; [exact Hq |]. split; [exact Hnd |].
        intros n. rewrite Hin. unfold selected_names.
        rewrite elem_of_cons. split; [tauto |].
        intros [[-> | H] Hn]; [contradiction | tauto].
      * assert ((name, idx) ∉ queue_list g) as Hnew.
        { intros H. apply duplicate_spec in H. congruence. }
        destruct (IH (set_queue g (queue_list g ++ [(name, idx)])))
          as (H1 & H2 & H3 & H4 & added & Hq & Hnd & Hin).
        cbn [set_queue queue_list queue_txt processed_items total_items
             clickables_enabled] in *.
        repeat split; try assumption.
        exists (name :: added).
        split; [rewrite Hq, <- app_assoc; reflexivity |].
        assert (name ∉ added) as Hfresh.
        { intros H. apply Hin in H as [_ H]. apply H.
          apply elem_of_app. right. apply list_elem_of_here. }
        split; [now constructor |].
        intros n. rewrite elem_of_cons, Hin. unfold selected_names.
        rewrite elem_of_cons, elem_of_app, list_elem_of_singleton.
        split.
        -- intros [-> | [Hsel Hn]]; [tauto |].
           split; [tauto |]. intros H. apply Hn. now left.
        -- intros [[-> | Hsel] Hn]; [now left |].
           destruct (decide (n = name)) as [-> | Hne]; [now left |].
           right. split; [exact Hsel |].
           intros [H | [= H]]; [contradiction | contradiction].
    + rewrite filter_cons_False by exact Hcol. apply IH.
Qed.

End QueueFacts.

Section QueueProperties.

Import GUI.

Lemma add_to_queue_present (selected_items : list (Z * string)) (idx : Z)
    (g : gui) :
  (forall n, n ∈ selected_names selected_items -> (n, idx) ∈ queue_list g) ->
  add_to_queue selected_items idx g = g.
Proof.
  induction selected_items as [|[column name] rest IH]; intros Hall;
    [reflexivity |].
  cbn [add_to_queue]. unfold selected_names in *.
  destruct (Z.eqb_spec column 0) as [-> | Hcol].
  - rewrite filter_cons_True in Hall by reflexivity. cbn [map snd] in Hall.
    assert (duplicate (queue_list g) name idx = true) as ->.
    { apply duplicate_spec, Hall, list_elem_of_here. }
    apply IH. intros n Hn. apply Hall. now apply list_elem_of_further.
  - rewrite filter_cons_False in Hall by exact Hcol. now apply IH.
Qed.

(** Adding to the queue never introduces a duplicate: a queue without
    repeated (file name, system) pairs stays without them, the items that
    were queued keep their places at the front, and every selected file
    name of the first column is in the queue afterwards. *)
Theorem add_to_queue_unique (selected_items : list (Z * string)) (idx : Z)
    (g : gui) :
  NoDup (queue_list g) ->
  let g' := add_to_queue selected_items idx g in
  NoDup (queue_list g') /\
  queue_list g `prefix_of` queue_list g' /\
  (forall n, n ∈ selected_names selected_items ->
             (n, idx) ∈ queue_list g').
Proof.
  intros Hnd g'.
  destruct (add_to_queue_spec selected_items idx g)
    as (_ & _ & _ & _ & added & Hq & Hadded & Hin).
  fold g' in Hq. rewrite Hq. split; [|split].
  - apply NoDup_app. split; [exact Hnd |]. split.
    + intros x Hx Hx'. apply list_elem_of_fmap in Hx' as (n & -> & Hn).
      apply Hin in Hn as [_ Hn]. contradiction.
    + apply NoDup_fmap_2; [|exact Hadded]. intros a b [= ->]. reflexivity.
  - now exists (map (fun n => (n, idx)) added).
  - intros n Hn. apply elem_of_app.
    destruct (decide ((n, idx) ∈ queue_list g)) as [H | H]; [now left |].
    right. apply list_elem_of_fmap. exists n. split; [reflexivity |].
    apply Hin. now split.
Qed.

(** Adding the same selection a second time changes nothing. *)
Theorem add_to_queue_idempotent (selected_items : list (Z * string))
    (idx : Z) (g : gui) :
  add_to_queue selected_items idx (add_to_queue selected_items idx g)
  = add_to_queue selected_items idx g.
Proof.
  apply add_to_queue_present. intros n Hn.
  destruct (add_to_queue_spec selected_items idx g)
    as (_ & _ & _ & _ & added & Hq & _ & Hin).
  rewrite Hq. apply elem_of_app.
  destruct (decide ((n, idx) ∈ queue_list g)) as [H | H]; [now left |].
  right. apply list_elem_of_fmap. exists n. split; [reflexivity |].
  apply Hin. now split.
Qed.

(** [add_to_queue] does not write [queue.txt]: when the file agreed with
    the queue and a selected file name is new, the file still holds the
    old queue afterwards, and reading it back does not give the queue that
    is on screen. *)
Theorem add_to_queue_not_saved (selected_items : list (Z * string))
    (idx : Z) (g : gui) (n : string) :
  queue_txt g = Some (queue_list g) ->
  n ∈ selected_names selected_items ->
  (n, idx) ∉ queue_list g ->
  let g' := add_to_queue selected_items idx g in
  queue_txt g' = Some (queue_list g) /\
  load_queue (queue_txt g') <> queue_list g'.
Proof.
  intros Hsaved Hsel Hnew g'.
  destruct (add_to_queue_spec selected_items idx g)
    as (Htxt & _ & _ & _ & added & Hq & _ & Hin).
  fold g' in Htxt, Hq. rewrite Htxt, Hsaved. split; [reflexivity |].
  unfold load_queue. change (default [] (Some ?x)) with x.
  rewrite Hq. intros Heq.
  assert (n ∈ added) as Hn by (apply Hin; now split).
  apply (f_equal length) in Heq.
  rewrite length_app, length_map in Heq.
  destruct added; [inversion Hn | cbn in Heq; lia].
Qed.

Lemma drop_rows_sublist (selected_rows : list nat) (row : nat)
    (q : list queue_item) :
  sublist (drop_rows selected_rows row q) q.
Proof.
  revert row. induction q as [|it q IH]; intros row; cbn; [constructor |].
  destruct (bool_decide (row ∈ selected_rows)).
  - apply sublist_cons, IH.
  - apply sublist_skip, IH.
Qed.

Lemma drop_rows_elem (selected_rows : list nat) (row : nat)
    (q : list queue_item) (x : queue_item) :
  x ∈ drop_rows selected_rows row q <->
  exists i, q !! i = Some x /\ (row + i)%nat ∉ selected_rows.
Proof.
  revert row. induction q as [|it q IH]; intros row; cbn.
  - split; [intros H; inversion H | intros (i & H & _); discriminate].
  - destruct (bool_decide_reflect (row ∈ selected_rows)) as [Hsel | Hsel].
    + rewrite IH. split.
      * intros (i & Hi & Hn). exists (S i). split; [exact Hi |].
        now replace (row + S i)%nat with (S row + i)%nat by lia.
      * intros ([|i] & Hi & Hn).
        -- rewrite Nat.add_0_r in Hn. contradiction.
        -- exists i. split; [exact Hi |].
           now replace (S row + i)%nat with (row + S i)%nat by lia.
    + rewrite elem_of_cons, IH. split.
      * intros [-> | (i & Hi & Hn)].
        -- exists 0%nat. split; [reflexivity |]. now rewrite Nat.add_0_r.
        -- exists (S i). split; [exact Hi |].
           now replace (row + S i)%nat with (S row + i)%nat by lia.
      * intros ([|i] & Hi & Hn).
        -- left. cbn in Hi. congruence.
        -- right. exists i. split; [exact Hi |].
           now replace (S row + i)%nat with (row + S i)%nat by lia.
Qed.

Lemma drop_rows_length (selected_rows : list nat) (row : nat)
    (q : list queue_item) :
  length (drop_rows selected_rows row q)
  = length (filter (fun i => i ∉ selected_rows) (seq row (length q))).
Proof.
  revert row. induction q as [|it q IH]; intros row; [reflexivity |].
  cbn [drop_rows].
  change (seq row (length (it :: q))) with (row :: seq (S row) (length q)).
  destruct (bool_decide_reflect (row ∈ selected_rows)) as [Hsel | Hsel].
  - rewrite filter_cons_False by tauto. apply IH.
  - rewrite filter_cons_True by exact Hsel. cbn [length]. now rewrite IH.
Qed.

(** [remove_from_queue] keeps exactly the items of the rows that were not
    selected, in their order, and leaves [queue.txt] holding the queue as
    it now is. *)
Theorem remove_from_queue_spec (selected_rows : list nat) (g : gui) :
  let g' := remove_from_queue selected_rows g in
  sublist (queue_list g') (queue_list g) /\
  (forall x, x ∈ queue_list g' <->
             exists i, queue_list g !! i = Some x /\ i ∉ selected_rows) /\
  length (queue_list g')
  = length (filter (fun i => i ∉ selected_rows)
              (seq 0 (length (queue_list g)))) /\
  load_queue (queue_txt g') = queue_list g'.
Proof.
  cbn. split; [apply drop_rows_sublist |].
  split; [intros x; apply (drop_rows_elem selected_rows 0) |].
  split; [apply drop_rows_length | reflexivity].
Qed.

End QueueProperties.

Lemma add_to_queue_unique_witness :
  let g := GUI.Gui [("a.zip", 1)] None 0 0 true in
  let g' := GUI.add_to_queue [(0, "a.zip"); (1, "9 MiB"); (0, "b.zip");
                              (0, "b.zip")] 1 g in
  NoDup (GUI.queue_list g') /\
  GUI.queue_list g `prefix_of` GUI.queue_list g' /\
  (forall n, n ∈ GUI.selected_names [(0, "a.zip"); (1, "9 MiB");
                                     (0, "b.zip"); (0, "b.zip")] ->
             (n, 1) ∈ GUI.queue_list g').
Proof.
  intros g g'.
  apply (add_to_queue_unique
           [(0, "a.zip"); (1, "9 MiB"); (0, "b.zip"); (0, "b.zip")] 1 g).
  cbn. apply NoDup_singleton.
Defined.

Lemma add_to_queue_not_saved_witness :
  let g := GUI.Gui [("a.zip", 1)] (Some [("a.zip", 1)]) 0 0 true in
  let g' := GUI.add_to_queue [(0, "b.zip")] 1 g in
  GUI.queue_txt g' = Some [("a.zip", 1)] /\
  GUI.load_queue (GUI.queue_txt g') <> GUI.queue_list g'.
Proof.
  intros g g'.
  apply (add_to_queue_not_saved [(0, "b.zip")] 1 g "b.zip").
  - reflexivity.
  - unfold GUI.selected_names. rewrite filter_cons_True by reflexivity.
    cbn. apply list_elem_of_here.
  - cbn. intros H. apply list_elem_of_singleton in H. discriminate.
Defined.

(** ** The dispatcher and the event loop *)

Section LoopFacts.

Import GUI EventLoop.

Variable env : environment.
Variable cwd : list string.
Variable systems_data : Z -> option system.
Variable boxes : checkboxes.
Variable current_index : Z.
Variable quote : string -> string.
Variable head_content_length : string -> option Z.
Variable windows : bool.
Variable cpu_count : Z.
Variable ps3dec_binary : string.

Local Abbreviation loop :=
  (EventLoop.loop env cwd systems_data boxes current_index quote
     head_content_length windows cpu_count ps3dec_binary).
Local Abbreviation turn :=
  (EventLoop.turn env cwd systems_data boxes current_index quote
     head_content_length windows cpu_count ps3dec_binary).
Local Abbreviation enter_method :=
  (EventLoop.enter_method env cwd systems_data boxes current_index quote
     head_content_length windows cpu_count ps3dec_binary).
Local Abbreviation start_download :=
  (EventLoop.start_download env cwd systems_data boxes current_index quote
     head_content_length windows cpu_count ps3dec_binary).

Local Abbreviation passed_over := (GUI.passed_over systems_data boxes).

Lemma loop_call (fuel : nat) (c : callback) (fs : FS.files) (g : gui) :
  loop (S fuel) (call c) fs g
  = let '(fs', g', n') := enter_method c fs g in loop fuel n' fs' g'.
Proof. cbn [EventLoop.loop EventLoop.turn]. now destruct (enter_method c fs g) as [[? ?] ?]. Qed.

Lemma loop_nothing (fuel : nat) (fs : FS.files) (g : gui) :
  loop fuel nothing_scheduled fs g = Some (Halt fs g nothing_scheduled).
Proof. now destruct fuel. Qed.

Lemma loop_unhandled (fuel : nat) (e : exn) (fs : FS.files) (g : gui) :
  loop fuel (unhandled e) fs g = Some (Halt fs g (unhandled e)).
Proof. now destruct fuel. Qed.

(** An item that the dispatcher passes over (its system is unknown, or it
    is a disc image and debug mode is on) is taken off the queue without
    any worker being started and without the file system or [queue.txt]
    being touched: [process_next_item] counts it and either calls itself
    on the rest of the queue at once, or calls the download helper's
    continuation with ["DEBUG_MODE"], which does. *)
Theorem passed_over_item_is_skipped (fs : FS.files) (g : gui)
    (it : queue_item) (q : list queue_item) :
  queue_list g = it :: q ->
  passed_over it ->
  let total :=
    if (processed_items g =? 0)%Z then Z.of_nat (length (queue_list g))
    else total_items g in
  let counted :=
    Gui (queue_list g) (queue_txt g) (processed_items g + 1) total
      (clickables_enabled g) in
  let skipped :=
    Gui q (queue_txt g) (processed_items g + 1) total
      (clickables_enabled g) in
  enter_method cb_process_next_item fs g
  = (fs, skipped, call cb_process_next_item) \/
  exists c,
    enter_method cb_process_next_item fs g = (fs, counted, call c) /\
    enter_method c fs counted = (fs, skipped, call cb_process_next_item).
Proof.
  intros Hq Hit. cbv zeta.
  cbn [EventLoop.enter_method enter]. unfold process_next_item.
  rewrite Hq. destruct it as [name idx].
  destruct Hit as [Hnone | (Hdebug & sys & Hsys & Hdec)]; cbn [snd] in *.
  - rewrite Hnone. left. reflexivity.
  - rewrite Hsys, Hdec. right.
    unfold download_and_process_ps3_iso, downloadhelper. rewrite Hdebug.
    eexists. split; [reflexivity |].
    cbn [EventLoop.enter_method enter]. unfold ps3_after_download.
    rewrite String.eqb_refl. reflexivity.
Qed.

(** A non-zero exit status of the decryption tool ends the run of the
    queue: [CommandRunner.run] raises instead of emitting [finished], so
    [decryption_finished] is never entered, the item stays at the head of
    the queue and no later item is processed. *)
Theorem failed_decryption_halts_queue (fuel : nat) (fs fs' : FS.files)
    (g : gui) (iso_file dkey_file base_name queue_position : string)
    (command : list string) (on_finished : callback) (returncode : Z) :
  decrypt_ps3_iso cwd windows cpu_count ps3dec_binary fs iso_file dkey_file
    base_name queue_position
  = start_CommandRunner command on_finished ->
  process env command fs = (fs', returncode) ->
  returncode <> 0 ->
  loop (S (S fuel))
    (call (cb_decrypt_ps3_iso iso_file dkey_file base_name queue_position))
    fs g
  = Some (Halt fs' g
            (unhandled (CalledProcessError returncode command))).
Proof.
  intros Hcmd Hproc Hcode. rewrite loop_call.
  cbn [EventLoop.enter_method enter]. rewrite Hcmd.
  cbn [EventLoop.loop EventLoop.turn]. rewrite Hproc.
  unfold CommandRunner_run.
  destruct (Z.eqb_spec returncode 0) as [|_]; [contradiction |].
  cbn [negb]. apply loop_unhandled.
Qed.

(** When the disc key is not in the processing directory and neither the
    decryption nor the keep-key box is ticked, [handle_ps3_files] returns
    without scheduling anything: the run of the queue ends there with the
    item still at its head. *)
Theorem missing_dkey_stalls_queue (fuel : nat) (fs : FS.files) (g : gui)
    (extracted_files : list string)
    (base_name output_dir queue_position : string) :
  FS.isfile cwd fs (Py.join processing_dir (base_name +:+ ".dkey")) = false ->
  decrypt_checkbox boxes = false ->
  keep_dkey_checkbox boxes = false ->
  loop (S fuel)
    (call (cb_handle_ps3_files base_name output_dir queue_position
             extracted_files))
    fs g
  = Some (Halt fs g nothing_scheduled).
Proof.
  intros Hkey Hdec Hkeep. rewrite loop_call.
  cbn [EventLoop.enter_method enter]. unfold handle_ps3_files.
  rewrite Hkey, Hdec, Hkeep. cbn [negb orb]. apply loop_nothing.
Qed.

Lemma exists_getsize (fs : FS.files) (p : string) :
  FS.exists_ cwd fs p = true <-> exists n, FS.getsize cwd fs p = Ok n.
Proof.
  unfold FS.exists_, FS.getsize.
  destruct (FS.resolve_file cwd p) as [k|].
  - destruct (fs !! k) as [data|].
    + split; [eauto | reflexivity].
    + split; [discriminate | intros [n H]; discriminate].
  - split; [discriminate | intros [n H]; discriminate].
Qed.

(** The pre-flight check of [downloadhelper], debug mode off: the method
    either goes straight to the continuation or starts a download of the
    archive into the processing directory, and it skips the download
    exactly when the archive is there and the server reports no size or
    the size of the local file. *)
Theorem preflight_decision (fs : FS.files) (selected_iso url : string)
    (callback : string -> callback) :
  debug_checkbox boxes = false ->
  let zip_file_path :=
    Py.join processing_dir (fst (Py.splitext selected_iso) +:+ ".zip") in
  let remote := url +:+ "/" +:+ quote selected_iso in
  let r := downloadhelper cwd boxes quote head_content_length fs
             selected_iso url callback in
  (r = call (callback zip_file_path) \/
   r = start_DownloadThread remote zip_file_path (callback zip_file_path)) /\
  (r = call (callback zip_file_path) <->
   exists local_file_size,
     FS.getsize cwd fs zip_file_path = Ok local_file_size /\
     (head_content_length remote = None \/
      head_content_length remote = Some local_file_size)).
Proof.
  intros Hdebug zip remote r. subst r. unfold downloadhelper.
  rewrite Hdebug. fold zip. fold remote.
  destruct (FS.exists_ cwd fs zip) eqn:Hex.
  - apply exists_getsize in Hex as [n Hn]. rewrite Hn.
    destruct (head_content_length remote) as [m|].
    + destruct (Z.ltb_spec n m) as [Hlt | Hge].
      * split; [now right |]. split; [discriminate |].
        intros (l & [= <-] & [H | [= H]]); [discriminate | lia].
      * destruct (Z.eqb_spec n m) as [-> | Hne].
        -- split; [now left |]. split; [|reflexivity].
           intros _. exists m. split; [reflexivity | now right].
        -- split; [now right |]. split; [discriminate |].
           intros (l & [= <-] & [H | [= H]]); [discriminate | lia].
    + split; [now left |]. split; [|reflexivity].
      intros _. exists n. split; [reflexivity | now left].
  - split; [now right |]. split; [discriminate |].
    intros (l & Hl & _).
    assert (FS.exists_ cwd fs zip = true) by (apply exists_getsize; eauto).
    congruence.
Qed.

End LoopFacts.

Lemma passed_over_item_is_skipped_witness :
  let env :=
    EventLoop.Environment (fun a b => 100 * a / b) (fun _ => 0%Q)
      (fun _ _ _ => Downloader.no_response TimeoutError)
      (fun _ p => Raise (BadZipFile p)) (fun _ fs => (fs, 0)) in
  let systems_data (i : Z) :=
    if (i =? 0)%Z
    then Some (GUI.System "https://host/ps3" "out" ".iso" true false false)
    else None in
  let boxes := GUI.Checkboxes true true true false false false false false in
  let enter_method :=
    EventLoop.enter_method env ["w"] systems_data boxes 0 id (fun _ => None)
      false 4 "ps3dec" in
  let g := GUI.Gui [("b.zip", 0); ("a.zip", 7)] None 0 0 true in
  enter_method GUI.cb_process_next_item ∅ g
  = (∅, GUI.Gui [("a.zip", 7)] None 1 2 true,
     GUI.call GUI.cb_process_next_item) \/
  exists c,
    enter_method GUI.cb_process_next_item ∅ g
    = (∅, GUI.Gui [("b.zip", 0); ("a.zip", 7)] None 1 2 true, GUI.call c) /\
    enter_method c ∅ (GUI.Gui [("b.zip", 0); ("a.zip", 7)] None 1 2 true)
    = (∅, GUI.Gui [("a.zip", 7)] None 1 2 true,
       GUI.call GUI.cb_process_next_item).
Proof.
  intros env systems_data boxes enter_method g.
  apply (passed_over_item_is_skipped env ["w"] systems_data boxes 0 id
           (fun _ => None) false 4 "ps3dec" ∅ g ("b.zip", 0) [("a.zip", 7)]).
  - reflexivity.
  - right. split; [reflexivity |]. eexists. split; reflexivity.
Defined.

Lemma failed_decryption_halts_queue_witness :
  let env :=
    EventLoop.Environment (fun a b => 100 * a / b) (fun _ => 0%Q)
      (fun _ _ _ => Downloader.no_response TimeoutError)
      (fun _ p => Raise (BadZipFile p)) (fun _ fs => (fs, 1)) in
  let boxes := GUI.Checkboxes false true true false false false false false in
  let fs : FS.files := {[ ["w"; "processing"; "g.dkey"] := [x61; x62] ]} in
  let g := GUI.Gui [("g.zip", 0); ("h.zip", 0)] None 1 2 false in
  EventLoop.loop env ["w"] (fun _ => None) boxes 0 id (fun _ => None)
    false 4 "ps3dec" 2
    (GUI.call (GUI.cb_decrypt_ps3_iso "processing/g.iso" "processing/g.dkey"
                 "g" "1/2"))
    fs g
  = Some (EventLoop.Halt fs g
            (GUI.unhandled
               (CalledProcessError 1
                  ["ps3dec"; "d"; "key"; "ab"; "processing/g.iso"]))).
Proof.
  intros env boxes fs g.
  apply (failed_decryption_halts_queue env ["w"] (fun _ => None) boxes 0 id
           (fun _ => None) false 4 "ps3dec" 0 fs fs g "processing/g.iso"
           "processing/g.dkey" "g" "1/2"
           ["ps3dec"; "d"; "key"; "ab"; "processing/g.iso"]
           (GUI.cb_decryption_finished "processing/g.iso" "g" "1/2") 1).
  - vm_compute. reflexivity.
  - reflexivity.
  - discriminate.
Defined.

Lemma missing_dkey_stalls_queue_witness :
  let env :=
    EventLoop.Environment (fun a b => 100 * a / b) (fun _ => 0%Q)
      (fun _ _ _ => Downloader.no_response TimeoutError)
      (fun _ p => Raise (BadZipFile p)) (fun _ fs => (fs, 0)) in
  let boxes :=
    GUI.Checkboxes false false true false false false false false in
  let g := GUI.Gui [("g.zip", 0); ("h.zip", 0)] None 1 2 false in
  EventLoop.loop env ["w"] (fun _ => None) boxes 0 id (fun _ => None)
    false 4 "ps3dec" 1
    (GUI.call (GUI.cb_handle_ps3_files "g" "out" "1/2" ["processing/g.iso"]))
    ∅ g
  = Some (EventLoop.Halt ∅ g GUI.nothing_scheduled).
Proof.
  intros env boxes g.
  apply (missing_dkey_stalls_queue env ["w"] (fun _ => None) boxes 0 id
           (fun _ => None) false 4 "ps3dec" 0 ∅ g ["processing/g.iso"]
           "g" "out" "1/2").
  - vm_compute. reflexivity.
  - reflexivity.
  - reflexivity.
Defined.

Lemma preflight_decision_witness :
  let boxes :=
    GUI.Checkboxes false true true false false false false false in
  let fs : FS.files := {[ ["w"; "processing"; "g.zip"] := [x61; x62] ]} in
  let head_content_length (_ : string) := Some 2 in
  let callback := GUI.cb_ps3_after_download "g" "out" "1/1" in
  let r := GUI.downloadhelper ["w"] boxes id head_content_length fs "g.zip"
             "https://host/ps3" callback in
  (r = GUI.call (callback "processing/g.zip") \/
   r = GUI.start_DownloadThread "https://host/ps3/g.zip" "processing/g.zip"
         (callback "processing/g.zip")) /\
  (r = GUI.call (callback "processing/g.zip") <->
   exists local_file_size,
     FS.getsize ["w"] fs "processing/g.zip" = Ok local_file_size /\
     (head_content_length "https://host/ps3/g.zip" = None \/
      head_content_length "https://host/ps3/g.zip" = Some local_file_size)).
Proof.
  intros boxes fs head_content_length callback.
  apply (preflight_decision ["w"] boxes id head_content_length fs "g.zip"
           "https://host/ps3" callback).
  reflexivity.
Defined.

Section SplitDecision.

Import GUI EventLoop.

Variable env : environment.
Variable cwd : list string.
Variable systems_data : Z -> option system.
Variable boxes : checkboxes.
Variable current_index : Z.
Variable quote : string -> string.
Variable head_content_length : string -> option Z.
Variable windows : bool.
Variable cpu_count : Z.
Variable ps3dec_binary : string.

Local Abbreviation turn :=
  (EventLoop.turn env cwd systems_data boxes current_index quote
     head_content_length windows cpu_count ps3dec_binary).
Local Abbreviation enter_method :=
  (EventLoop.enter_method env cwd systems_data boxes current_index quote
     head_content_length windows cpu_count ps3dec_binary).

(** The size check of [split_ps3_iso] and the one inside
    [SplitIsoThread.run] agree.  With the split box ticked, an image below
    4294967295 bytes goes to [finalize_ps3_files] with no split files and
    no thread is started; for a larger one the thread is started, it does
    split, and [finalize_ps3_files] is entered with the non-empty list of
    the parts, which hold the image in order, the image itself still being
    there. *)
Theorem split_decision_agrees (fs : FS.files) (g : gui)
    (iso_file base_name output_dir queue_position : string)
    (k : list string) (data : list byte) :
  split_checkbox boxes = true ->
  FS.resolve_file cwd iso_file = Some k ->
  fs !! k = Some data ->
  let on_finished :=
    cb_finalize_ps3_files (Some iso_file) base_name queue_position in
  let parts := Splitter.chunks (Z.to_nat 4294967295) data in
  let names :=
    map (Splitter.iso_part_name iso_file) (seq 0 (length parts)) in
  let n := after_decryption cwd boxes fs (Some iso_file) base_name
             output_dir queue_position in
  (Z.of_nat (length data) < 4294967295 -> n = call (on_finished [])) /\
  (4294967295 <= Z.of_nat (length data) ->
   n = start_SplitIsoThread iso_file on_finished /\
   names <> [] /\
   exists fs',
     turn n fs g = Some (enter_method (on_finished names) fs' g) /\
     Splitter.read_all cwd fs' names = Some parts /\
     fs' !! k = Some data).
Proof.
  intros Hbox Hkey Hdata on_finished parts names n.
  assert (n = if (4294967295 <=? Z.of_nat (length data))%Z
              then start_SplitIsoThread iso_file on_finished
              else call (on_finished [])) as Hn.
  { subst n. unfold after_decryption.
    now rewrite Hbox, (getsize_source cwd fs iso_file k data Hkey Hdata). }
  split.
  - intros Hsmall. rewrite Hn.
    now destruct (Z.leb_spec 4294967295 (Z.of_nat (length data))); [lia |].
  - intros Hbig.
    assert (n = start_SplitIsoThread iso_file on_finished) as ->.
    { rewrite Hn.
      now destruct (Z.leb_spec 4294967295 (Z.of_nat (length data)));
        [| lia]. }
    split; [reflexivity |].
    assert (0 < Z.to_nat 4294967295)%nat as Hpos by lia.
    split.
    { subst names. intros Hnil. apply (f_equal length) in Hnil.
      rewrite length_map, length_seq in Hnil. cbn [length] in Hnil.
      assert (concat parts = data) as Hcat by now apply concat_chunks.
      destruct parts; [|discriminate].
      cbn in Hcat. subst data. cbn in Hbig. lia. }
    destruct (iso_keys cwd iso_file k Hkey) as (Hk & Hinj & Hne).
    eexists. split; [|split].
    + cbn [EventLoop.turn].
      rewrite (SplitIsoThread_run_split cwd fs iso_file k data Hkey Hdata
                 Hbig).
      cbn [Splitter.out_raised Splitter.out_signals Splitter.out_fs].
      match goal with
      | |- context [List.last (?l ++ [?a; ?b]) ?d] =>
          change (l ++ [a; b]) with (l ++ [a] ++ [b]);
          rewrite (app_assoc l [a] [b]), (last_last (l ++ [a]) b d)
      end.
      reflexivity.
    + apply (read_all_parts cwd _ _ _ _ 0 Hk).
      intros j c Hj. exact (write_parts_lookup _ Hinj 0 j _ fs c Hj).
    + now rewrite (write_parts_source _ k Hne).
Qed.

End SplitDecision.

Lemma split_decision_agrees_witness :
  let env :=
    EventLoop.Environment (fun a b => 100 * a / b) (fun _ => 0%Q)
      (fun _ _ _ => Downloader.no_response TimeoutError)
      (fun _ p => Raise (BadZipFile p)) (fun _ fs => (fs, 0)) in
  let boxes := GUI.Checkboxes false true true false false false false false in
  let fs : FS.files :=
    {[ ["w"; "processing"; "game.iso"] := Splitter.big_file ]} in
  let g := GUI.Gui [("game.zip", 0)] None 1 1 false in
  let on_finished :=
    GUI.cb_finalize_ps3_files (Some "processing/game.iso") "game" "1/1" in
  let parts := Splitter.chunks (Z.to_nat 4294967295) Splitter.big_file in
  let names :=
    map (Splitter.iso_part_name "processing/game.iso")
      (seq 0 (length parts)) in
  let n := GUI.after_decryption ["w"] boxes fs (Some "processing/game.iso")
             "game" "out" "1/1" in
  n = GUI.start_SplitIsoThread "processing/game.iso" on_finished /\
  names <> [] /\
  exists fs',
    EventLoop.turn env ["w"] (fun _ => None) boxes 0 id (fun _ => None)
      false 4 "ps3dec" n fs g
    = Some (EventLoop.enter_method env ["w"] (fun _ => None) boxes 0 id
              (fun _ => None) false 4 "ps3dec" (on_finished names) fs' g) /\
    Splitter.read_all ["w"] fs' names = Some parts /\
    fs' !! ["w"; "processing"; "game.iso"] = Some Splitter.big_file.
Proof.
  intros env boxes fs g on_finished parts names n.
  refine (proj2 (split_decision_agrees env ["w"] (fun _ => None) boxes 0 id
                   (fun _ => None) false 4 "ps3dec" fs g
                   "processing/game.iso" "game" "out" "1/1"
                   ["w"; "processing"; "game.iso"] Splitter.big_file
                   _ _ _) _).
  - reflexivity.
  - reflexivity.
  - apply lookup_singleton_eq.
  - rewrite big_file_length. lia.
Defined.

Section PipelineFacts.

Import GUI EventLoop.

Variable env : environment.
Variable cwd : list string.
Variable systems_data : Z -> option system.
Variable boxes : checkboxes.
Variable current_index : Z.
Variable quote : string -> string.
Variable head_content_length : string -> option Z.
Variable windows : bool.
Variable cpu_count : Z.
Variable ps3dec_binary : string.

Local Abbreviation loop :=
  (EventLoop.loop env cwd systems_data boxes current_index quote
     head_content_length windows cpu_count ps3dec_binary).
Local Abbreviation decryption_finished :=
  (GUI.decryption_finished cwd systems_data boxes current_index windows).
Local Abbreviation finalize_ps3_files :=
  (GUI.finalize_ps3_files cwd systems_data boxes current_index).

Lemma exists_lookup (fs : FS.files) (p : string) (k : list string) :
  FS.resolve_file cwd p = Some k ->
  FS.exists_ cwd fs p = bool_decide (is_Some (fs !! k)).
Proof. intros H. unfold FS.exists_. now rewrite H. Qed.

(** Away from Windows, with the box that keeps the encrypted image ticked,
    [decryption_finished] destroys the output of the decryption: the name
    it chooses for the final image is the name the tool wrote to, so the
    file is removed as a leftover and the rename that follows raises
    [FileNotFoundError].  No other file is touched and the queue does not
    advance. *)
Theorem kept_encrypted_image_loses_decrypted (fs : FS.files) (g : gui)
    (iso_file base_name queue_position : string) (kd : list string) :
  windows = false ->
  keep_enc_checkbox boxes = true ->
  let decrypted_iso := Py.join processing_dir (base_name +:+ ".iso.dec") in
  FS.resolve_file cwd decrypted_iso = Some kd ->
  is_Some (fs !! kd) ->
  decryption_finished fs g iso_file base_name queue_position
  = (delete kd fs, g, unhandled (FileNotFoundError decrypted_iso)) /\
  FS.exists_ cwd (delete kd fs) decrypted_iso = false.
Proof.
  intros Hwin Hkeep decrypted Hkd [dec Hdec].
  unfold GUI.decryption_finished. rewrite Hwin, Hkeep. cbn [negb].
  fold decrypted. rewrite !(exists_lookup _ _ _ Hkd), Hdec.
  rewrite bool_decide_eq_true_2 by eauto.
  unfold FS.remove, FS.rename. rewrite Hkd, Hdec, lookup_delete_eq.
  split; [reflexivity |].
  apply bool_decide_eq_false_2. intros [? H]. discriminate.
Qed.


Lemma find_iso_none (extracted_files : list string) (acc : option string) :
  Forall (fun file => Py.endswith file ".iso" = false) extracted_files ->
  fold_left (fun acc file => if Py.endswith file ".iso" then Some file
                             else acc)
    extracted_files acc = acc.
Proof.
  intros H. revert acc. induction H as [|f l Hf _ IH]; intros acc;
    [reflexivity |].
  cbn [fold_left]. rewrite Hf. apply IH.
Qed.

(** An archive that holds no [.iso] file ends the run of the queue, the
    disc key being in place: no image path reaches the later stages, and
    the first of them that uses it raises [TypeError] (or does not find the
    current system).  The item is not removed from the queue. *)
Theorem archive_without_iso_halts_queue (fuel : nat) (fs : FS.files)
    (g : gui) (extracted_files : list string)
    (base_name output_dir queue_position : string) :
  Forall (fun file => Py.endswith file ".iso" = false) extracted_files ->
  FS.isfile cwd fs (Py.join processing_dir (base_name +:+ ".dkey")) = true ->
  loop (S (S (S (S fuel))))
    (call (cb_handle_ps3_files base_name output_dir queue_position
             extracted_files))
    fs g
  = Some (Halt fs g
            (unhandled
               (if split_checkbox boxes then TypeError
                else match systems_data current_index with
                     | Some _ => TypeError
                     | None => KeyError "systems_data"
                     end))).
Proof.
  intros Hiso Hkey.
  cbn [EventLoop.loop EventLoop.turn EventLoop.enter_method enter].
  unfold handle_ps3_files, find_iso. rewrite (find_iso_none _ _ Hiso), Hkey.
  cbn [negb EventLoop.turn EventLoop.enter_method enter].
  unfold after_dkey_download. cbv beta iota zeta.
  assert ((if decrypt_checkbox boxes
           then (fs, call (cb_after_decryption None base_name output_dir
                             queue_position))
           else (fs, call (cb_after_decryption None base_name output_dir
                             queue_position)))
          = (fs, call (cb_after_decryption None base_name output_dir
                         queue_position))) as ->
    by now destruct (decrypt_checkbox boxes).
  cbn [EventLoop.turn EventLoop.enter_method enter].
  unfold after_decryption.
  destruct (split_checkbox boxes).
  - now destruct fuel.
  - cbn [EventLoop.turn EventLoop.enter_method enter].
    unfold GUI.finalize_ps3_files.
    destruct (systems_data current_index); now destruct fuel.
Qed.

(** Whatever becomes of the file operations that [finalize_ps3_files]
    queues, the item is finished: the operations are run, the item is
    taken from the head of the queue and [process_next_item] is entered
    for the next one. *)
Theorem file_operation_failures_do_not_halt_queue (fuel : nat)
    (fs : FS.files) (g : gui) (iso_file base_name queue_position : string)
    (split_files : list string) (sys : system) :
  systems_data current_index = Some sys ->
  exists operations,
    finalize_ps3_files fs (Some iso_file) base_name queue_position
      split_files
    = start_FileOperationsThread operations
        (cb_ps3_file_operations_finished queue_position base_name) /\
    (length split_files <= length operations)%nat /\
    loop (S (S fuel))
      (call (cb_finalize_ps3_files (Some iso_file) base_name queue_position
               split_files))
      fs g
    = loop fuel (call cb_process_next_item)
        (file_operations cwd operations fs).1 (takeItem0 g).
Proof.
  intros Hsys.
  assert (exists operations,
            finalize_ps3_files fs (Some iso_file) base_name queue_position
              split_files
            = start_FileOperationsThread operations
                (cb_ps3_file_operations_finished queue_position base_name)
            /\ (length split_files <= length operations)%nat)
    as (operations & Hops & Hlen).
  { unfold GUI.finalize_ps3_files. rewrite Hsys.
    destruct split_files as [|f l].
    - eexists. split; [reflexivity | cbn; lia].
    - eexists. split; [reflexivity |].
      rewrite !length_app, length_map. lia. }
  exists operations. split; [exact Hops |]. split; [exact Hlen |].
  cbn [EventLoop.loop EventLoop.turn EventLoop.enter_method enter].
  rewrite Hops. cbn [EventLoop.turn].
  destruct (file_operations cwd operations fs) as [fs' signals].
  reflexivity.
Qed.

End PipelineFacts.

Lemma kept_encrypted_image_loses_decrypted_witness :
  let boxes := GUI.Checkboxes false true true false true false false false in
  let fs : FS.files :=
    {[ ["w"; "processing"; "g.iso.dec"] := [x61; x62] ]} in
  let g := GUI.Gui [("g.zip", 0)] None 1 1 false in
  GUI.decryption_finished ["w"] (fun _ => None) boxes 0 false fs g
    "processing/g.iso" "g" "1/1"
  = (delete ["w"; "processing"; "g.iso.dec"] fs, g,
     GUI.unhandled (FileNotFoundError "processing/g.iso.dec")) /\
  FS.exists_ ["w"] (delete ["w"; "processing"; "g.iso.dec"] fs)
    "processing/g.iso.dec" = false.
Proof.
  intros boxes fs g.
  apply (kept_encrypted_image_loses_decrypted ["w"] (fun _ => None) boxes 0
           false fs g "processing/g.iso" "g" "1/1"
           ["w"; "processing"; "g.iso.dec"]).
  - reflexivity.
  - reflexivity.
  - reflexivity.
  - exists [x61; x62]. apply lookup_singleton_eq.
Defined.


Lemma archive_without_iso_halts_queue_witness :
  let env :=
    EventLoop.Environment (fun a b => 100 * a / b) (fun _ => 0%Q)
      (fun _ _ _ => Downloader.no_response TimeoutError)
      (fun _ p => Raise (BadZipFile p)) (fun _ fs => (fs, 0)) in
  let boxes := GUI.Checkboxes false true true false false false false false in
  let fs : FS.files := {[ ["w"; "processing"; "g.dkey"] := [x61; x62] ]} in
  let g := GUI.Gui [("g.zip", 0); ("h.zip", 0)] None 1 2 false in
  EventLoop.loop env ["w"] (fun _ => None) boxes 0 id (fun _ => None)
    false 4 "ps3dec" 4
    (GUI.call (GUI.cb_handle_ps3_files "g" "out" "1/2"
                 ["processing/readme.txt"]))
    fs g
  = Some (EventLoop.Halt fs g (GUI.unhandled TypeError)).
Proof.
  intros env boxes fs g.
  apply (archive_without_iso_halts_queue env ["w"] (fun _ => None) boxes 0
           id (fun _ => None) false 4 "ps3dec" 0 fs g
           ["processing/readme.txt"] "g" "out" "1/2").
  - constructor; [reflexivity | constructor].
  - vm_compute. reflexivity.
Defined.

Lemma file_operation_failures_do_not_halt_queue_witness :
  let env :=
    EventLoop.Environment (fun a b => 100 * a / b) (fun _ => 0%Q)
      (fun _ _ _ => Downloader.no_response TimeoutError)
      (fun _ p => Raise (BadZipFile p)) (fun _ fs => (fs, 0)) in
  let boxes := GUI.Checkboxes false true true false false false false false in
  let systems_data (_ : Z) :=
    Some (GUI.System "https://host/ps3" "out" ".iso" true false false) in
  let g := GUI.Gui [("g.zip", 0); ("h.zip", 0)] None 1 2 false in
  exists operations,
    GUI.finalize_ps3_files ["w"] systems_data boxes 0 ∅
      (Some "processing/g.iso") "g" "1/2" []
    = GUI.start_FileOperationsThread operations
        (GUI.cb_ps3_file_operations_finished "1/2" "g") /\
    (length (@nil string) <= length operations)%nat /\
    EventLoop.loop env ["w"] systems_data boxes 0 id (fun _ => None) false 4
      "ps3dec" 2
      (GUI.call (GUI.cb_finalize_ps3_files (Some "processing/g.iso") "g"
                   "1/2" []))
      ∅ g
    = EventLoop.loop env ["w"] systems_data boxes 0 id (fun _ => None) false
        4 "ps3dec" 0 (GUI.call GUI.cb_process_next_item)
        (EventLoop.file_operations ["w"] operations ∅).1 (GUI.takeItem0 g).
Proof.
  intros env boxes systems_data g.
  apply (file_operation_failures_do_not_halt_queue env ["w"] systems_data
           boxes 0 id (fun _ => None) false 4 "ps3dec" 0 ∅ g
           "processing/g.iso" "g" "1/2" []
           (GUI.System "https://host/ps3" "out" ".iso" true false false)).
  reflexivity.
Defined.

(** ** What one successful response leaves on disk *)

Section Appends.

Import Downloader.

Variable percent : Z -> Z -> Z.
Variable jitter : nat -> Q.
Variable stops : nat -> bool.
Variable cwd : list string.
Variable net : network.
Variable url_ filename_ : string.
Variable k : list string.
Variable fs : FS.files.

Hypothesis file_key : FS.resolve_file cwd filename_ = Some k.

(** The destination is opened for appending and the payload of a response
    is written whatever its status line and headers say about ranges.  The
    first request carries a [Range] header exactly when the file exists,
    starting at its size; when the reply has status 200 or 206, announces
    a non-zero total and its payload ends normally, there is no second
    request and no sleep, and the file is what was on disk followed by
    the whole payload.  A server that ignores the range and sends the
    content from its start therefore leaves the local bytes followed by
    the entire content. *)
Theorem download_appends_payload (retries_ : nat) (r0 : response)
    (total_size : Z) :
  (0 < retries_)%nat ->
  let old := default [] (fs !! k) in
  let range := (fun data => Z.of_nat (length data)) <$> fs !! k in
  net 0%nat range = responds r0 ->
  resp_status r0 = 200 \/ resp_status r0 = 206 ->
  match content_range_total r0 with
  | Some n => Some n
  | None => content_length r0
  end = Some total_size ->
  total_size <> 0 ->
  resp_end r0 = end_of_stream ->
  let r := download percent jitter stops cwd net
             (init url_ filename_ retries_) fs in
  r.2 = None /\
  requests (st_events r.1) = [range] /\
  sleeps (st_events r.1) = [] /\
  written (st_events r.1) = resp_body r0 /\
  file_of cwd r.1 = old ++ concat (resp_body r0).
Proof.
  intros Hretries old range Hnet Hstatus Htotal Hnz Hend. cbv zeta.
  unfold download. destruct retries_ as [|n]; [lia |]. unfold init.
  cbn [attempts retries]. unfold attempt.
  cbn [st_thread st_fs filename].
  assert (FS.exists_ cwd fs filename_ = bool_decide (is_Some (fs !! k)))
    as Hex by (unfold FS.exists_; now rewrite file_key).
  assert (FS.getsize cwd fs filename_
          = match fs !! k with
            | Some data => Ok (Z.of_nat (length data))
            | None => Raise (FileNotFoundError filename_)
            end)
    as Hsize by (unfold FS.getsize; now rewrite file_key).
  rewrite Hex, Hsize. subst old range. revert Hnet.
  destruct (fs !! k) as [data|] eqn:Hk; cbn [fmap option_fmap option_map];
    intros Hnet;
    [rewrite bool_decide_eq_true_2 by eauto
    |rewrite bool_decide_eq_false_2 by (intros [? H]; discriminate)];
    cbn [emit st_range st_events st_thread st_fs set_existing filename app].
  all: rewrite Hnet.
  all: assert (negb ((resp_status r0 =? 200)%Z || (resp_status r0 =? 206)%Z)
               = false) as -> by (destruct Hstatus as [-> | ->]; reflexivity).
  all: rewrite Htotal, file_key, Hend.
  all: cbn [set_total existing_file_size total_downloaded].
  all: match goal with
  | |- context [read_chunks _ _ ?t ?k' ?b _ ?j ?s'] =>
      destruct (read_chunks_appends percent stops t k' b j s'
                  (default [] (fs !! k)) Hnz)
        as (H1 & H2 & H3);
        [cbn; unfold append; rewrite lookup_insert_eq, Hk;
         now rewrite app_nil_r
        |];
      destruct (read_chunks_quiet percent stops t k' b end_of_stream j s')
        as (Hs & Hq & _ & Hf);
      destruct (read_chunks percent stops t k' b end_of_stream j s')
        as [[s1 j1] res] eqn:Hread
  end.
  all: cbn [fst snd] in *; subst res; cbn [fst snd].
  all: split; [reflexivity |].
  all: split; [exact Hq |]; split; [exact Hs |].
  all: split; [rewrite H3; reflexivity |].
  all: unfold file_of; rewrite Hf;
    cbn [st_thread set_total set_existing filename];
    rewrite file_key, H2, Hk; reflexivity.
Qed.

End Appends.

Lemma download_appends_payload_witness :
  let fs : FS.files := {[ ["w"; "processing"; "g.zip"] := [x01; x02] ]} in
  let content := [x01; x02; x03] in
  let plain (_ : nat) (_ : option Z) :=
    Downloader.responds
      (Downloader.Response 200 None (Some 3) [content]
         Downloader.end_of_stream) in
  let r :=
    Downloader.download (fun a b => 100 * a / b) (fun _ => 1 # 2)
      (fun _ => false) ["w"] plain
      (Downloader.init "https://host/g.zip" "processing/g.zip" 50) fs in
  r.2 = None /\
  Downloader.requests (Downloader.st_events r.1) = [Some 2] /\
  Downloader.file_of ["w"] r.1 = [x01; x02; x01; x02; x03].
Proof.
  intros fs content plain.
  destruct (download_appends_payload (fun a b => 100 * a / b)
              (fun _ => 1 # 2) (fun _ => false) ["w"] plain
              "https://host/g.zip" "processing/g.zip"
              ["w"; "processing"; "g.zip"] fs eq_refl 50%nat
              (Downloader.Response 200 None (Some 3) [content]
                 Downloader.end_of_stream) 3)
    as (H1 & H2 & _ & _ & H5).
  - lia.
  - reflexivity.
  - now left.
  - reflexivity.
  - discriminate.
  - reflexivity.
  - split; [exact H1 |].
    unfold fs in H2, H5. rewrite lookup_singleton_eq in H2, H5.
    split; [exact H2 | exact H5].
Defined.

(** ** The names of the parts *)

(** Neither splitter can overwrite its source or one of its own parts:
    part [i] is a file other than the source, and two parts with different
    numbers are different files, however many parts there are (the
    two-digit numbering of the PKG parts simply grows a digit at 100). *)
Theorem part_names_never_collide (cwd : list string) (file_path : string)
    (k : list string) (i j : nat) :
  FS.resolve_file cwd file_path = Some k ->
  (exists ki,
     FS.resolve_file cwd (Splitter.iso_part_name file_path i) = Some ki /\
     ki <> k /\
     (FS.resolve_file cwd (Splitter.iso_part_name file_path j) = Some ki ->
      i = j)) /\
  (exists ki,
     FS.resolve_file cwd (Splitter.pkg_part_name file_path i) = Some ki /\
     ki <> k /\
     (FS.resolve_file cwd (Splitter.pkg_part_name file_path j) = Some ki ->
      i = j)).
Proof.
  intros Hkey. split.
  - destruct (iso_keys cwd file_path k Hkey) as (Hk & Hinj & Hne).
    eexists. split; [apply Hk |]. split; [apply Hne |].
    rewrite Hk. intros [= H]. symmetry. now apply Hinj.
  - destruct (pkg_keys cwd file_path k Hkey) as (Hk & Hinj & Hne).
    eexists. split; [apply Hk |]. split; [apply Hne |].
    rewrite Hk. intros [= H]. symmetry. now apply Hinj.
Qed.

Lemma part_names_never_collide_witness :
  (exists ki,
     FS.resolve_file ["w"] (Splitter.iso_part_name "processing/game.iso" 7)
     = Some ki /\
     ki <> ["w"; "processing"; "game.iso"] /\
     (FS.resolve_file ["w"] (Splitter.iso_part_name "processing/game.iso" 8)
      = Some ki -> 7%nat = 8%nat)) /\
  (exists ki,
     FS.resolve_file ["w"] (Splitter.pkg_part_name "processing/game.iso" 7)
     = Some ki /\
     ki <> ["w"; "processing"; "game.iso"] /\
     (FS.resolve_file ["w"] (Splitter.pkg_part_name "processing/game.iso" 8)
      = Some ki -> 7%nat = 8%nat)).
Proof.
  apply (part_names_never_collide ["w"] "processing/game.iso"
           ["w"; "processing"; "game.iso"] 7 8).
  reflexivity.
Defined.

(** ** The catalog and the result table *)

Section SoftwareListFacts.

Import SoftwareList.

Variable unquote : string -> string.
Variable strip : string -> string.
Variable page : option (list link).
Variable running_before_fetch : bool.
Variable running_at_end : bool.

Local Abbreviation run :=
  (SoftwareList.run unquote strip page running_before_fetch running_at_end).

(** Whatever list [GetSoftwareListThread.run] sends to the window is the
    list that the cache file holds when the run ends, [stop()] never being
    undone: the table never shows what the next start would not find in
    the cache. *)
Theorem software_list_signal_is_cached (rebuild : bool) (c : cache)
    (iso_list : list entry) :
  (running_at_end = true -> running_before_fetch = true) ->
  out_signal (run rebuild c) = Some iso_list ->
  out_cache (run rebuild c) = holds iso_list.
Proof.
  intros Hmono. unfold SoftwareList.run.
  assert (forall c',
            out_signal
              match page with
              | None => Outcome c' None None true
              | Some links =>
                  match build unquote strip links with
                  | None => Outcome c' None None true
                  | Some l =>
                      Outcome (holds l)
                        (if running_at_end then Some l else None) None true
                  end
              end = Some iso_list ->
            out_cache
              match page with
              | None => Outcome c' None None true
              | Some links =>
                  match build unquote strip links with
                  | None => Outcome c' None None true
                  | Some l =>
                      Outcome (holds l)
                        (if running_at_end then Some l else None) None true
                  end
              end = holds iso_list) as Hfetch.
  { intros c'. destruct page as [links|]; [|discriminate].
    destruct (build unquote strip links) as [l|]; [|discriminate].
    cbn. destruct running_at_end; [|discriminate]. now intros [= ->]. }
  destruct rebuild; [|destruct c as [| | |[|x l]|text [|]]];
    cbv iota beta zeta;
    try (destruct running_before_fetch; [apply Hfetch |]);
    cbn; destruct running_at_end; try discriminate;
    try (now specialize (Hmono eq_refl));
    intros [= ?]; now subst.
Qed.

End SoftwareListFacts.


Lemma software_list_signal_is_cached_witness :
  let page :=
    Some [SoftwareList.Link (Some "a%20b.zip") (Some " 1 MiB ");
          SoftwareList.Link (Some "../") None] in
  SoftwareList.out_cache
    (SoftwareList.run id id page true true false SoftwareList.not_json)
  = SoftwareList.holds [("a%20b.zip", " 1 MiB ")].
Proof.
  intros page.
  apply (software_list_signal_is_cached id id page true true false
           SoftwareList.not_json [("a%20b.zip", " 1 MiB ")]).
  - reflexivity.
  - reflexivity.
Defined.

Section ResultsFacts.

Import SoftwareList Results.

Lemma is_space_lower (c : ascii) :
  is_space (Py.lower_ascii c) = is_space c.
Proof.
  destruct c as [[] [] [] [] [] [] [] []]; vm_compute; reflexivity.
Qed.

Lemma words_blank (s : string) :
  forallb is_space (list_ascii_of_string s) = true -> words s = [].
Proof.
  induction s as [|c s IH]; [reflexivity |]. cbn [list_ascii_of_string forallb].
  intros H. apply andb_prop in H as [Hc Hs]. cbn [words]. rewrite Hc.
  now apply IH.
Qed.

Lemma lower_blank (s : string) :
  forallb is_space (list_ascii_of_string (Py.lower s))
  = forallb is_space (list_ascii_of_string s).
Proof.
  induction s as [|c s IH]; [reflexivity |].
  cbn [Py.lower list_ascii_of_string forallb].
  now rewrite is_space_lower, IH.
Qed.

Lemma filter_true {A} (f : A -> bool) (l : list A) :
  (forall x, f x = true) -> List.filter f l = l.
Proof.
  intros H. induction l as [|x l IH]; [reflexivity |].
  cbn. now rewrite H, IH.
Qed.

(** A search box that holds nothing but white space filters nothing: the
    table shows every entry of the list, in order. *)
Theorem blank_search_lists_everything (text : string)
    (iso_list : list entry) :
  forallb is_space (list_ascii_of_string text) = true ->
  update_results text (Some (loaded iso_list)) = Some (table iso_list).
Proof.
  intros Hblank. cbn [update_results]. unfold filtered_list.
  rewrite (words_blank (Py.lower text)) by now rewrite lower_blank.
  now rewrite filter_true.
Qed.

Lemma words_cons (c : ascii) (s : string) :
  words (String c s)
  = if is_space c then words s
    else match s with
         | EmptyString => [String c EmptyString]
         | String c' _ =>
             if is_space c' then String c EmptyString :: words s
             else match words s with
                  | w :: ws => String c w :: ws
                  | [] => [String c EmptyString]
                  end
         end.
Proof. reflexivity. Qed.

Lemma words_head (c : ascii) (s : string) :
  is_space c = false -> exists w ws, words (String c s) = String c w :: ws.
Proof.
  intros Hc. revert c Hc. induction s as [|c' s IH]; intros c Hc;
    rewrite words_cons, Hc; [eauto |].
  destruct (is_space c') eqn:Hc'; [eauto |].
  destruct (IH c' Hc') as (w & ws & ->). eauto.
Qed.

Lemma words_append (a b : string) :
  words (a +:+ " " +:+ b) = words a ++ words b.
Proof.
  induction a as [|c a IH]; [reflexivity |].
  rewrite append_cons, !words_cons.
  destruct (is_space c) eqn:Hc; [exact IH |].
  destruct a as [|c' a]; [reflexivity |].
  rewrite append_cons in *.
  destruct (is_space c') eqn:Hc'.
  - now rewrite IH.
  - rewrite IH. destruct (words_head c' a Hc') as (w & ws & ->).
    reflexivity.
Qed.

Lemma lower_append (a b : string) :
  Py.lower (a +:+ b) = Py.lower a +:+ Py.lower b.
Proof.
  induction a as [|c a IH]; [reflexivity |].
  rewrite append_cons. cbn [Py.lower]. now rewrite IH.
Qed.

Lemma filter_filter {A} (f g : A -> bool) (l : list A) :
  List.filter g (List.filter f l) = List.filter (fun x => f x && g x) l.
Proof.
  induction l as [|x l IH]; [reflexivity |]. cbn.
  destruct (f x); cbn; [destruct (g x) |]; now rewrite IH.
Qed.

(** Typing a further word narrows the result: searching for two texts
    separated by a blank gives what searching for the second in the
    result of the first gives, and the order of the two does not matter. *)
Theorem search_narrows (a b : string) (iso_list : list entry) :
  filtered_list (a +:+ " " +:+ b) iso_list
  = filtered_list b (filtered_list a iso_list) /\
  filtered_list (a +:+ " " +:+ b) iso_list
  = filtered_list (b +:+ " " +:+ a) iso_list.
Proof.
  assert (forall x y,
            filtered_list (x +:+ " " +:+ y) iso_list
            = List.filter (fun item => matches (words (Py.lower x)) item.1
                                       && matches (words (Py.lower y)) item.1)
                iso_list) as Hboth.
  { intros x y. unfold filtered_list.
    rewrite !lower_append.
    change (Py.lower " ") with " ". rewrite words_append.
    apply filter_ext. intros item. unfold matches. apply forallb_app. }
  split.
  - rewrite Hboth. unfold filtered_list. now rewrite filter_filter.
  - rewrite !Hboth. apply filter_ext. intros item. apply andb_comm.
Qed.




End ResultsFacts.

Lemma blank_search_lists_everything_witness :
  Results.update_results "  "
    (Some (Results.loaded [("abc.zip", "1 MiB"); ("x.zip", "2 MiB")]))
  = Some (Results.table [("abc.zip", "1 MiB"); ("x.zip", "2 MiB")]).
Proof.
  apply (blank_search_lists_everything "  "
           [("abc.zip", "1 MiB"); ("x.zip", "2 MiB")]).
  reflexivity.
Defined.

(** ** The archive path *)

Section ArchivePath.

Lemma substring_all (s : string) : substring 0 (String.length s) s = s.
Proof. induction s as [|c s IH]; [reflexivity |]. cbn. now rewrite IH. Qed.

Lemma substring_suffix (a s : string) :
  substring (String.length a) (String.length s) (a +:+ s) = s.
Proof.
  induction a as [|c a IH]; [apply substring_all |].
  rewrite append_cons. exact IH.
Qed.

Lemma endswith_append (a s : string) : Py.endswith (a +:+ s) s = true.
Proof.
  unfold Py.endswith. rewrite length_append.
  rewrite bool_decide_eq_true_2 by lia.
  replace (String.length a + String.length s - String.length s)%nat
    with (String.length a) by lia.
  rewrite substring_suffix. apply String.eqb_refl.
Qed.

Lemma join_suffix (a b : string) : exists x, Py.join a b = x +:+ b.
Proof.
  unfold Py.join. destruct (Py.startswith b "/"); [now exists "" |].
  destruct (String.eqb a "" || Py.endswith a "/"); [now exists a |].
  exists (a +:+ "/"). now rewrite append_assoc.
Qed.

(** The path that [downloadhelper] hands to its continuation passes the
    [.zip] test of [UnzipRunner.run], whatever the selected name is: with
    debug mode off the method ends in the continuation or in a download
    whose continuation it is, for a path on which the runner does not take
    its skip branch. *)
Theorem downloaded_archive_is_never_skipped (cwd : list string)
    (boxes : GUI.checkboxes) (quote : string -> string)
    (head_content_length : string -> option Z) (fs : FS.files)
    (selected_iso url : string) (callback : string -> GUI.callback) :
  GUI.debug_checkbox boxes = false ->
  exists zip_file_path,
    (GUI.downloadhelper cwd boxes quote head_content_length fs selected_iso
       url callback
     = GUI.call (callback zip_file_path) \/
     exists remote,
       GUI.downloadhelper cwd boxes quote head_content_length fs
         selected_iso url callback
       = GUI.start_DownloadThread remote zip_file_path
           (callback zip_file_path)) /\
    Py.endswith (Py.lower zip_file_path) ".zip" = true.
Proof.
  intros Hdebug.
  exists (Py.join GUI.processing_dir
            (fst (Py.splitext selected_iso) +:+ ".zip")).
  split.
  - unfold GUI.downloadhelper. rewrite Hdebug.
    destruct (FS.exists_ cwd fs _) eqn:Hex; [|right; eauto].
    apply exists_getsize in Hex as [n Hn]. rewrite Hn.
    destruct (head_content_length _) as [m|]; [|now left].
    destruct (n <? m)%Z; [right; eauto |].
    destruct (n =? m)%Z; [now left | right; eauto].
  - destruct (join_suffix GUI.processing_dir
                (fst (Py.splitext selected_iso) +:+ ".zip")) as [x ->].
    rewrite <- append_assoc, lower_append.
    change (Py.lower ".zip") with ".zip". apply endswith_append.
Qed.

End ArchivePath.

Lemma downloaded_archive_is_never_skipped_witness :
  let boxes :=
    GUI.Checkboxes false true true false false false false false in
  let callback := GUI.cb_ps3_after_download "G" "out" "1/1" in
  exists zip_file_path,
    (GUI.downloadhelper ["w"] boxes id (fun _ => None) ∅ "G.ZIP"
       "https://host/ps3" callback
     = GUI.call (callback zip_file_path) \/
     exists remote,
       GUI.downloadhelper ["w"] boxes id (fun _ => None) ∅ "G.ZIP"
         "https://host/ps3" callback
       = GUI.start_DownloadThread remote zip_file_path
           (callback zip_file_path)) /\
    Py.endswith (Py.lower zip_file_path) ".zip" = true.
Proof.
  intros boxes callback.
  apply (downloaded_archive_is_never_skipped ["w"] boxes id (fun _ => None)
           ∅ "G.ZIP" "https://host/ps3" callback).
  reflexivity.
Defined.

(** ** The destination of an extracted folder *)

Section FolderFacts.

Import MultiFile.

Variable path_exists : string -> bool.

Lemma new_dest_dir_least (dest_dir : string) (n : nat) :
  path_exists (candidate dest_dir n) = false ->
  forall (fuel count : nat),
    (count <= n < count + fuel)%nat ->
    exists m,
      (count <= m <= n)%nat /\
      new_dest_dir path_exists fuel dest_dir count
      = Some (candidate dest_dir m) /\
      path_exists (candidate dest_dir m) = false /\
      (forall i, (count <= i < m)%nat ->
                 path_exists (candidate dest_dir i) = true).
Proof.
  intros Hfree. induction fuel as [|fuel IH]; intros count Hn; [lia |].
  cbn [new_dest_dir].
  destruct (path_exists (candidate dest_dir count)) eqn:Hc.
  - assert (count <> n) by (intros ->; congruence).
    destruct (IH (S count)) as (m & Hm & Hrun & Hm' & Hbelow); [lia |].
    exists m. split; [lia |]. split; [exact Hrun |]. split; [exact Hm' |].
    intros i Hi. destruct (decide (i = count)) as [-> | Hne]; [exact Hc |].
    apply Hbelow. lia.
  - exists count. split; [lia |]. split; [reflexivity |].
    split; [exact Hc |]. intros i Hi. lia.
Qed.

(** [handle_extracted_folder] never moves the extracted folder onto a path
    that exists.  If some numbered name is free, the search for one ends;
    the folder then goes to the plain destination when that is free, and
    otherwise to the free name with the least number, every name with a
    smaller number being taken.  The move of the folder is the first
    operation queued; it is followed by the removal of the archive
    [processing/<base>.zip], once, when the archive exists, and by nothing
    when it does not. *)
Theorem extracted_folder_goes_to_free_path (fuel n : nat)
    (extract_dir base_name output_dir : string) :
  (1 <= n <= fuel)%nat ->
  let dest_dir := Py.join output_dir base_name in
  let zip_file := Py.join GUI.processing_dir (base_name +:+ ".zip") in
  path_exists (candidate dest_dir n) = false ->
  exists chosen,
    handle_extracted_folder path_exists fuel extract_dir base_name
      output_dir
    = Some (FileOps.move extract_dir chosen
            :: (if path_exists zip_file then [FileOps.remove zip_file]
                else [])) /\
    path_exists chosen = false /\
    (chosen = dest_dir \/
     path_exists dest_dir = true /\
     exists m, (1 <= m <= n)%nat /\ chosen = candidate dest_dir m /\
               forall i, (1 <= i < m)%nat ->
                         path_exists (candidate dest_dir i) = true).
Proof.
  intros Hn dest_dir zip_file Hfree. unfold handle_extracted_folder.
  fold dest_dir. fold zip_file.
  destruct (path_exists dest_dir) eqn:Hdest.
  - destruct (new_dest_dir_least dest_dir n Hfree fuel 1)
      as (m & Hm & -> & Hm' & Hbelow); [lia |].
    eexists. split; [reflexivity |]. split; [exact Hm' |].
    right. split; [reflexivity |]. eauto.
  - eexists. split; [reflexivity |]. split; [exact Hdest |]. now left.
Qed.

End FolderFacts.

Lemma extracted_folder_goes_to_free_path_witness :
  let path_exists (p : string) :=
    String.eqb p "out/game" || String.eqb p "out/game_1"
    || String.eqb p "processing/game.zip" in
  exists chosen,
    MultiFile.handle_extracted_folder path_exists 5 "processing/game" "game"
      "out"
    = Some (FileOps.move "processing/game" chosen
            :: (if path_exists
                     (Py.join GUI.processing_dir ("game" +:+ ".zip"))
                then [FileOps.remove
                        (Py.join GUI.processing_dir ("game" +:+ ".zip"))]
                else [])) /\
    path_exists chosen = false /\
    (chosen = Py.join "out" "game" \/
     path_exists (Py.join "out" "game") = true /\
     exists m, (1 <= m <= 2)%nat /\
               chosen = MultiFile.candidate (Py.join "out" "game") m /\
               forall i, (1 <= i < m)%nat ->
                         path_exists
                           (MultiFile.candidate (Py.join "out" "game") i)
                         = true).
Proof.
  intros path_exists.
  apply (extracted_folder_goes_to_free_path path_exists 5 2
           "processing/game" "game" "out").
  - lia.
  - reflexivity.
Defined.

(** ** Responses without a usable size *)

Section Malformed.

Import Downloader.

Variable percent : Z -> Z -> Z.
Variable jitter : nat -> Q.
Variable stops : nat -> bool.
Variable cwd : list string.
Variable net : network.
Variable url_ filename_ : string.
Variable k : list string.
Variable fs : FS.files.

Hypothesis file_key : FS.resolve_file cwd filename_ = Some k.

(** A reply with status 200 or 206 whose headers give no usable size is
    not retried.  Without [content-range] and [content-length] the
    conversion of the missing header raises [TypeError] before the file is
    opened; with an announced size of zero and a payload that is not
    empty, the first chunk is appended and the progress computation then
    divides by zero.  Either error reaches the caller at once: one request
    has been made and there has been no sleep. *)
Theorem sizeless_response_is_not_retried (retries_ : nat) (r0 : response) :
  (0 < retries_)%nat ->
  let old := default [] (fs !! k) in
  let range := (fun data => Z.of_nat (length data)) <$> fs !! k in
  let announced :=
    match content_range_total r0 with
    | Some n => Some n
    | None => content_length r0
    end in
  net 0%nat range = responds r0 ->
  resp_status r0 = 200 \/ resp_status r0 = 206 ->
  let r := download percent jitter stops cwd net
             (init url_ filename_ retries_) fs in
  (announced = None ->
   r.2 = Some TypeError /\ st_fs r.1 = fs) /\
  (announced = Some 0 ->
   forall chunk rest, resp_body r0 = chunk :: rest ->
     r.2 = Some ZeroDivisionError /\ file_of cwd r.1 = old ++ chunk) /\
  (announced = None \/ (announced = Some 0 /\ resp_body r0 <> []) ->
   requests (st_events r.1) = [range] /\ sleeps (st_events r.1) = []).
Proof.
  intros Hretries old range announced Hnet Hstatus. cbv zeta.
  unfold download. destruct retries_ as [|n]; [lia |]. unfold init.
  cbn [attempts retries]. unfold attempt.
  cbn [st_thread st_fs filename].
  assert (FS.exists_ cwd fs filename_ = bool_decide (is_Some (fs !! k)))
    as Hex by (unfold FS.exists_; now rewrite file_key).
  assert (FS.getsize cwd fs filename_
          = match fs !! k with
            | Some data => Ok (Z.of_nat (length data))
            | None => Raise (FileNotFoundError filename_)
            end)
    as Hsize by (unfold FS.getsize; now rewrite file_key).
  rewrite Hex, Hsize. subst old range. revert Hnet.
  destruct (fs !! k) as [data|] eqn:Hk; cbn [fmap option_fmap option_map];
    intros Hnet;
    [rewrite bool_decide_eq_true_2 by eauto
    |rewrite bool_decide_eq_false_2 by (intros [? H]; discriminate)];
    cbn [emit st_range st_events st_thread st_fs set_existing filename app].
  all: rewrite Hnet.
  all: assert (negb ((resp_status r0 =? 200)%Z || (resp_status r0 =? 206)%Z)
               = false) as -> by (destruct Hstatus as [-> | ->]; reflexivity).
  all: fold announced; destruct announced as [total|] eqn:Ha.
  all: rewrite ?file_key.
  all: split; [intros [=]; try (cbn; split; reflexivity) |].
  all: split; [try discriminate |].
  all: try (intros [[=] | [[=] _]]; cbn; split; reflexivity).
  all: try (intros [= ->] chunk rest ->; cbn [read_chunks Z.eqb];
            destruct (stops 0); cbn; unfold file_of, append; cbn;
            rewrite file_key, lookup_insert_eq, lookup_insert_eq, ?Hk;
            cbn; rewrite ?app_nil_r; split; reflexivity).
  all: intros [[=] | [[= ->] Hbody]].
  all: destruct (resp_body r0) as [|chunk rest]; [contradiction |].
  all: cbn [read_chunks Z.eqb]; destruct (stops 0); cbn; split; reflexivity.
Qed.

End Malformed.

Lemma sizeless_response_is_not_retried_witness :
  let fs : FS.files := {[ ["w"; "processing"; "g.zip"] := [x01; x02] ]} in
  let r0 :=
    Downloader.Response 200 None (Some 0) [[x03]] Downloader.end_of_stream in
  let r :=
    Downloader.download (fun a b => 100 * a / b) (fun _ => 1 # 2)
      (fun _ => false) ["w"] (fun _ _ => Downloader.responds r0)
      (Downloader.init "https://host/g.zip" "processing/g.zip" 50) fs in
  r.2 = Some ZeroDivisionError /\
  Downloader.file_of ["w"] r.1 = [x01; x02; x03] /\
  Downloader.requests (Downloader.st_events r.1) = [Some 2] /\
  Downloader.sleeps (Downloader.st_events r.1) = [].
Proof.
  intros fs r0.
  destruct (sizeless_response_is_not_retried (fun a b => 100 * a / b)
              (fun _ => 1 # 2) (fun _ => false) ["w"]
              (fun _ _ => Downloader.responds r0)
              "https://host/g.zip" "processing/g.zip"
              ["w"; "processing"; "g.zip"] fs eq_refl 50%nat r0)
    as (_ & Hzero & Hquiet).
  - lia.
  - reflexivity.
  - now left.
  - destruct (Hzero eq_refl [x03] [] eq_refl) as [H1 H2].
    destruct Hquiet as [H3 H4]; [right; split; [reflexivity | discriminate] |].
    unfold fs in H2, H3. rewrite lookup_singleton_eq in H2, H3.
    repeat split; assumption.
Defined.

(** ** Archives with several files of the wanted kind *)

Section PlainFacts.

Variable cwd : list string.

Local Abbreviation perform :=
  (FileOps.perform (EventLoop.os_rename cwd) (EventLoop.shutil_move cwd)
     (EventLoop.os_path_isdir cwd) (EventLoop.shutil_rmtree cwd)
     (EventLoop.os_remove cwd)).

(** The file system that the executor leaves behind. *)
Local Abbreviation final ops fs :=
  ((EventLoop.file_operations cwd ops fs).1).








Section Pairs.

Variables base_name file_extension output_dir : string.
Variables kn kd : list string.

Local Abbreviation new_file_path :=
  (Py.join GUI.processing_dir (base_name +:+ file_extension)).
Local Abbreviation dst :=
  (Py.join output_dir (Py.basename new_file_path)).
Local Abbreviation pairs files :=
  (flat_map
     (fun file =>
        if Py.endswith file file_extension then
          [FileOps.rename file new_file_path;
           FileOps.move new_file_path dst]
        else [])
     files).

Hypothesis new_key : FS.resolve_file cwd new_file_path = Some kn.
Hypothesis dst_key : FS.resolve_file cwd dst = Some kd.
Hypothesis not_below : ~ kd `prefix_of` kn.


End Pairs.


End PlainFacts.


(** An extracted file that already bears the name of the intermediate file
    is overwritten by the file renamed before it: the destination ends up
    with the contents of the first file, and the contents of the second
    are lost. *)
Example matching_file_named_like_target :
  let fs : FS.files :=
    <[ ["w"; "processing"; "a.bin"] := [x01] ]>
      (<[ ["w"; "processing"; "g.bin"] := [x02] ]>
         {[ ["w"; "processing"; "g.zip"] := [x03] ]}) in
  (EventLoop.file_operations ["w"]
     (Plain.handle_extracted_files ["w"] fs
        ["processing/a.bin"; "processing/g.bin"] "g" ".bin" "out")
     fs).1
  = {[ ["w"; "out"; "g.bin"] := [x01] ]}.
Proof. vm_compute. reflexivity. Qed.
